(** * AI customer support system: intent classifier, retrieval, routing, analytics

    A shallow embedding of [backend/agents/orchestrator.py],
    [backend/agents/analytics.py] and the classifier of [backend/main.py],
    with the properties their specification states about them.

    Conventions of the embedding.
    - Python [str] is [string]; a character is a code point below 256
      (ASCII and the Latin-1 supplement), on which [lower] is Python's
      [str.lower].
    - Python [int] is [Z]; a finite Python [float] is the rational [Q] it
      holds, and the result of a float computation is idealised as the
      exact rational it approximates.  Where the code goes on to read the
      float itself, the conversion [PyNum.float_of] to the nearest binary64
      is written out (the mean that [round] then rounds), and where the
      conversion can fail or give no number, that is written out too
      ([OverflowError] of [statistics.mean], NaN and infinities of a
      division by zero).  Infinite and NaN arguments of the logging
      methods are outside the embedding.
    - A naive UTC [datetime] is the number of microseconds since the epoch,
      a [Z]; [isoformat] followed by [fromisoformat] is the identity on such
      values, so a stored ISO timestamp is kept as the [datetime] it denotes.
    - A [dict] is a [gmap]; a [list] or [deque] is a [list].
    - The clock ([datetime.utcnow]) is an explicit argument.
    - A [try] block is a computation in the monad [Py.M] below, which
      carries the mutable object and ends with a value or an exception;
      its [except Exception] handler receives the object as the block
      left it. *)

From Stdlib Require Import ZArith QArith Qround Qabs Lia List Bool Ascii String Sorted
  Permutation.
From stdpp Require Import gmap strings list fin_maps.

#[local] Open Scope Z_scope.

(** ** Python strings *)

Module PyStr.

(** [str.lower] on one code point below 256: A-Z, and the upper-case
    letters of the Latin-1 supplement (U+00C0-U+00DE without U+00D7). *)
Definition lower_char (c : ascii) : ascii :=
  let n := N_of_ascii c in
  if ((65 <=? n) && (n <=? 90) ||
      (192 <=? n) && (n <=? 222) && negb (n =? 215))%N
  then ascii_of_N (n + 32) else c.

Fixpoint lower (s : string) : string :=
  match s with
  | EmptyString => EmptyString
  | String c s' => String (lower_char c) (lower s')
  end.

(** [needle in hay] for two [str]. *)
Fixpoint contains (needle hay : string) : bool :=
  String.prefix needle hay ||
  match hay with
  | EmptyString => false
  | String _ hay' => contains needle hay'
  end.

(** [any(w in text for w in words)]. *)
Definition any_in (words : list string) (text : string) : bool :=
  existsb (fun w => contains w text) words.

(** The number of entries of [words] that occur in [text]. *)
Definition hits (words : list string) (text : string) : nat :=
  length (filter (fun w => contains w text = true) words).

(** [for w in words: if w in text: score += weight]. *)
Definition add_hits (weight : Z) (words : list string) (text : string)
    (score : Z) : Z :=
  fold_left (fun acc w => if contains w text then acc + weight else acc)
            words score.

(** [sep.join(parts)]. *)
Fixpoint join (sep : string) (parts : list string) : string :=
  match parts with
  | [] => EmptyString
  | [p] => p
  | p :: ps => String.append p (String.append sep (join sep ps))
  end.

Definition newline : string := String (ascii_of_N 10) EmptyString.

End PyStr.

(** ** Exceptions and [try]/[except] *)

Module Py.

Inductive exn : Type :=
| KeyError (key : string)
| ValueError
| AttributeError
| IndexError
| OverflowError.

(** A statement sequence run on a mutable object of type [S]: the object
    as it is when the sequence ends or raises, with the value or the
    exception. *)
Definition M (S A : Type) : Type := S -> S * (exn + A).

Definition ret {S A} (a : A) : M S A := fun s => (s, inr a).
Definition raise {S A} (e : exn) : M S A := fun s => (s, inl e).
Definition bind {S A B} (c : M S A) (k : A -> M S B) : M S B :=
  fun s => match c s with
           | (s', inr a) => k a s'
           | (s', inl e) => (s', inl e)
           end.
Definition gets {S A} (f : S -> A) : M S A := fun s => (s, inr (f s)).
Definition modify {S} (f : S -> S) : M S unit := fun s => (f s, inr tt).
Definition lift {S A} (r : exn + A) : M S A := fun s => (s, r).

(** [try: c  except Exception as e: logger.error(...)] in a method that
    returns nothing: whatever [c] did to the object stays done. *)
Definition try_except_log {S} (c : M S unit) : S -> S :=
  fun s => fst (c s).

Definition raised {S A} (c : M S A) (s : S) : option exn :=
  match snd (c s) with inl e => Some e | inr _ => None end.

End Py.

#[export] Instance py_ret {S} : MRet (Py.M S) := @Py.ret S.
#[export] Instance py_bind {S} : MBind (Py.M S) := fun A B k c => Py.bind c k.

(** ** Numbers of the [statistics] module and [round] *)

Module PyNum.
#[local] Open Scope Q_scope.

Definition sum (xs : list Q) : Q := fold_right Qplus 0 xs.

(** [statistics.mean(xs)] for a non-empty [xs] (every call site guards
    the empty case). *)
Definition mean (xs : list Q) : Q :=
  sum xs / inject_Z (Z.of_nat (length xs)).

(** Rounding to the nearest integer, ties to the even one. *)
Definition round_half_even (q : Q) : Z :=
  let f := Qfloor q in
  match Qcompare (q - inject_Z f) (1 # 2) with
  | Lt => f
  | Gt => (f + 1)%Z
  | Eq => if Z.even f then f else (f + 1)%Z
  end.

(** [round(x, 2)] for a float [x]: the decimal with two places nearest to
    the value [x] holds, ties to the even one (the float returned is the
    one nearest to this decimal). *)
Definition round2 (x : Q) : Q :=
  inject_Z (round_half_even (x * 100)) / 100.

(** [2 ** k] for any integer [k]. *)
Definition pow2 (k : Z) : Q :=
  if (0 <=? k)%Z then inject_Z (2 ^ k) else 1 / inject_Z (2 ^ (- k)).

(** [float(x)] for a rational [x] below the overflow threshold: the
    binary64 nearest to [x], ties to the even mantissa, subnormals
    included.  With [2 ** e <= |x| < 2 ** (e + 1)] the spacing of the
    floats around [x] is [2 ** (e - 52)], and [2 ** -1074] at least. *)
Definition float_of (x : Q) : Q :=
  if Qeq_bool x 0 then 0
  else
    let a := Qabs x in
    let e0 := (Z.log2 (Qnum a) - Z.log2 (Zpos (Qden a)))%Z in
    let e := if Qle_bool (pow2 e0) a then e0 else (e0 - 1)%Z in
    let ulp := pow2 (Z.max (e - 52) (-1074)) in
    let r := Qred (inject_Z (round_half_even (a / ulp)) * ulp) in
    if Qle_bool 0 x then r else Qred (- r).

(** [statistics.mean(xs)] as the float it is, for a non-empty list of
    floats: the exact mean of the values, converted once.  The mean of
    finite floats is within their range, so the conversion cannot
    overflow. *)
Definition float_mean (xs : list Q) : Q :=
  float_of (mean (map float_of xs)).

(** From [2 ** 1024 - 2 ** 970] on a number rounds to no finite float. *)
Definition float_overflow : Q := inject_Z (2 ^ 1024 - 2 ^ 970).

(** [statistics.mean(data)] for a non-empty list of [int]: the exact mean
    as an [int] when it is one; otherwise the quotient is converted to a
    float, which raises [OverflowError] when it is beyond the floats (the
    float returned is idealised as the quotient). *)
Definition int_mean (data : list Z) : Py.exn + Q :=
  let m := mean (map inject_Z data) in
  if (Qden (Qred m) =? 1)%positive then inr m
  else if Qle_bool float_overflow (Qabs m) then inl Py.OverflowError
  else inr m.

(** [xs[-n:]] for [n > 0]. *)
Definition last_n {A} (n : nat) (xs : list A) : list A :=
  skipn (length xs - n) xs.

(** [xs[:k]] for any integer [k]: a negative [k] counts from the end. *)
Definition slice_to {A} (k : Z) (xs : list A) : list A :=
  if (0 <=? k)%Z then firstn (Z.to_nat k) xs
  else firstn (length xs - Z.to_nat (- k)) xs.

(** [xs.sort(key=key, reverse=True)]: the stable sort by descending key,
    elements of equal key staying in their original order. *)
Section SortDesc.
Context {A : Type} (key : A -> Q).

Fixpoint insert_desc (x : A) (l : list A) : list A :=
  match l with
  | [] => [x]
  | y :: l' =>
      if Qle_bool (key y) (key x) then x :: l else y :: insert_desc x l'
  end.

Definition sort_desc (l : list A) : list A := fold_right insert_desc [] l.
End SortDesc.

End PyNum.

(** ** The intent classifier of [orchestrator.py] *)

Module CustomerServiceOrchestrator.
Import PyStr Py PyNum.
#[local] Open Scope string_scope.

Definition technical_keywords : list string :=
  [ "login"; "log in"; "sign in"; "access"; "password"; "account";
    "error"; "bug"; "not working"; "broken"; "crash"; "slow";
    "technical"; "application"; "app"; "reset"; "unlock";
    "authenticate"; "verification" ].

Definition billing_keywords : list string :=
  [ "billing"; "payment"; "charge"; "charged"; "invoice"; "subscription";
    "refund"; "cancel"; "upgrade"; "downgrade"; "price"; "cost";
    "twice"; "double"; "money"; "credit card"; "bank"; "transaction" ].

Definition technical_phrases : list string :=
  [ "cannot log"; "can't log"; "unable to access"; "won't load";
    "not loading"; "application is"; "app is"; "showing error";
    "login issue"; "technical issue"; "technical problem" ].

Definition billing_phrases : list string :=
  [ "charged twice"; "billed twice"; "double charge"; "cancel subscription";
    "how do i cancel"; "want to cancel"; "subscription cost";
    "billing problem"; "billing issue"; "payment problem" ].

Definition generic_words : list string :=
  [ "issue"; "problem"; "question"; "help"; "support" ].

Definition tech_words : list string :=
  [ "technical"; "login"; "password"; "access"; "app"; "application" ].

Definition bill_words : list string :=
  [ "billing"; "payment"; "charge"; "subscription"; "money" ].

Definition tie_technical : list string :=
  [ "login"; "password"; "access"; "account"; "technical" ].

Definition tie_billing : list string :=
  [ "billing"; "charge"; "payment"; "subscription"; "money" ].

(** The two scores just before the decision, in the order the source
    accumulates them: phrases (5), combination (3), keywords (1).  No
    statement of the [try] block raises on a [str], so the handler, which
    returns [general], is never entered. *)
Definition technical_score (query_lower : string) : Z :=
  let s := add_hits 5 technical_phrases query_lower 0 in
  let s := if any_in tech_words query_lower && any_in generic_words query_lower
           then s + 3 else s in
  add_hits 1 technical_keywords query_lower s.

Definition billing_score (query_lower : string) : Z :=
  let s := add_hits 5 billing_phrases query_lower 0 in
  let s := if any_in bill_words query_lower && any_in generic_words query_lower
           then s + 3 else s in
  add_hits 1 billing_keywords query_lower s.

Definition _classify_intent (query : string) : string :=
  let query_lower := lower query in
  let technical_score := technical_score query_lower in
  let billing_score := billing_score query_lower in
  if ((billing_score <? technical_score) && (0 <? technical_score))%Z
  then "technical"
  else if ((technical_score <? billing_score) && (0 <? billing_score))%Z
  then "billing"
  else if ((technical_score =? billing_score) && (0 <? technical_score))%Z
  then
    if any_in tie_technical query_lower then "technical"
    else if any_in tie_billing query_lower then "billing"
    else "general"
  else "general".

(** *** Retrieval *)

Record Doc : Type := {
  id : string;
  title : string;
  content : string;
  category : string;
  embedding : list Q
}.

(** [embedding_model.encode([text])[0]], which may raise. *)
Definition Encoder : Type := string -> exn + list Q.

Record t : Type := {
  embedding_model : option Encoder;
  knowledge_base : list Doc
}.

(** A numpy float: a number, an infinity or NaN. *)
Inductive Float : Type := Fin (q : Q) | PInf | NInf | NaN.

(** The number a float holds, for the floats that hold one. *)
Definition number (x : Float) : Q :=
  match x with Fin q => q | _ => 0%Q end.

Definition is_nan (x : Float) : bool :=
  match x with NaN => true | _ => false end.

(** [x < y] on floats: false whenever one of them is NaN. *)
Definition float_lt (x y : Float) : bool :=
  match x, y with
  | NaN, _ | _, NaN => false
  | Fin a, Fin b => negb (Qle_bool b a)
  | NInf, NInf => false
  | NInf, _ => true
  | _, NInf => false
  | PInf, _ => false
  | Fin _, PInf => true
  end.

(** The float that holds the result [x] of a float operation: the
    nearest one, which is an infinity from the overflow threshold on and
    zero for an [x] too small for the subnormals. *)
Definition to_float (x : Q) : Float :=
  if Qle_bool float_overflow (Qabs x)
  then (if Qle_bool 0 x then PInf else NInf)
  else Fin (float_of x).

(** [a / b] on numpy floats.  Nothing raises: a zero divisor (here a
    product of norms, so a positive zero) warns and gives NaN for a zero
    dividend and an infinity otherwise; two infinities give NaN. *)
Definition float_div (a b : Float) : Float :=
  match a, b with
  | NaN, _ | _, NaN => NaN
  | (PInf | NInf), (PInf | NInf) => NaN
  | PInf, Fin y => if Qle_bool 0 y then PInf else NInf
  | NInf, Fin y => if Qle_bool 0 y then NInf else PInf
  | Fin _, (PInf | NInf) => Fin 0
  | Fin x, Fin y =>
      if Qeq_bool y 0 then
        match Qcompare x 0 with
        | Eq => NaN
        | Gt => PInf
        | Lt => NInf
        end
      else Fin (x / y)%Q
  end.

(** [l.sort(key=key, reverse=True)] with float keys.

    The sort is stable: when the keys compare consistently (no NaN among
    them) the result is the stable descending order, elements of equal
    key staying in their original order, whatever the algorithm.

    With a NaN among the keys the comparisons are inconsistent and the
    result is whatever the procedure of CPython leaves.  For a list
    shorter than 64 that procedure is written out here: the list is
    reversed, the run at its start is found ([count_run]: ascending, or
    strictly descending and then reversed), every later element is put
    into the sorted part by binary insertion ([binarysort]), and the
    result is reversed again.  Lists of 64 and more are merged from such
    runs; with a NaN among 64 or more keys the order that CPython leaves
    is not described by this definition. *)
Section ListSort.
Context {A : Type} (key : A -> Float).

Definition lt (x y : A) : bool := float_lt (key x) (key y).

Fixpoint insert_stable (x : A) (l : list A) : list A :=
  match l with
  | [] => [x]
  | y :: l' => if lt x y then y :: insert_stable x l' else x :: l
  end.

Definition stable_desc (l : list A) : list A := fold_right insert_stable [] l.

(** [count_run]: how far the run goes on after [prev]. *)
Fixpoint run_descending (prev : A) (l : list A) : nat :=
  match l with
  | x :: l' => if lt x prev then S (run_descending x l') else 0
  | [] => 0
  end.

Fixpoint run_ascending (prev : A) (l : list A) : nat :=
  match l with
  | x :: l' => if lt x prev then 0 else S (run_ascending x l')
  | [] => 0
  end.

Definition count_run (l : list A) : nat * bool :=
  match l with
  | x0 :: x1 :: l' =>
      if lt x1 x0 then (2 + run_descending x1 l', true)%nat
      else (2 + run_ascending x1 l', false)%nat
  | _ => (length l, false)
  end.

(** The loop of [binarysort] that finds the place of [pivot] between
    [l] and [r]; it halves the distance, so [fuel] steps are enough for
    a distance of [fuel]. *)
Fixpoint bisect (fuel : nat) (pivot : A) (sorted : list A) (l r : nat) : nat :=
  match fuel with
  | O => l
  | S fuel' =>
      if (l <? r)%nat then
        let p := (l + (r - l) / 2)%nat in
        match sorted !! p with
        | Some x => if lt pivot x then bisect fuel' pivot sorted l p
                    else bisect fuel' pivot sorted (S p) r
        | None => l
        end
      else l
  end.

Definition binary_insert (sorted : list A) (pivot : A) : list A :=
  let l := bisect (length sorted) pivot sorted 0 (length sorted) in
  take l sorted ++ pivot :: drop l sorted.

Definition binarysort (run rest : list A) : list A :=
  fold_left binary_insert rest run.

Definition sort_short (l : list A) : list A :=
  let '(n, descending) := count_run l in
  let run := take n l in
  binarysort (if descending then rev run else run) (drop n l).

Definition list_sort_reverse (l : list A) : list A :=
  if existsb (fun x => is_nan (key x)) l
  then rev (sort_short (rev l))
  else stable_desc l.
End ListSort.


Section Retrieval.
(** [np.linalg.norm], a square root, is a parameter of the model. *)
Variable norm : list Q -> Q.

(** [np.dot] of two one-dimensional arrays. *)
Definition dot (a b : list Q) : exn + Q :=
  if (length a =? length b)%nat
  then inr (PyNum.sum (zip_with Qmult a b))
  else inl ValueError.

(** The quotient of the dot product by the product of the norms, both
    as the floats they are: a product of norms that is zero (a zero
    norm, or an underflow) or out of range gives NaN or an infinity, not
    an exception.  Rounding inside [np.dot] is idealised. *)
Definition cosine_similarity (q d : list Q) : exn + Float :=
  match dot q d with
  | inr s => inr (float_div (to_float s) (to_float (norm q * norm d)))
  | inl e => inl e
  end.

Definition encode (text : string) : M t (list Q) :=
  model ← gets embedding_model ;
  match model with
  | None => raise AttributeError
  | Some enc => lift (enc text)
  end.

(** The loop [for i, doc in enumerate(self.knowledge_base)], from
    index [i] on. *)
Fixpoint similarities_from (q : list Q) (i : nat) (docs : list Doc)
    : M t (list (nat * Float)) :=
  match docs with
  | [] => mret []
  | doc :: docs' =>
      similarity ← lift (cosine_similarity q (embedding doc)) ;
      rest ← similarities_from q (S i) docs' ;
      mret ((i, similarity) :: rest)
  end.

(** [[self.knowledge_base[i] for i, _ in pairs]]. *)
Fixpoint docs_at (kb : list Doc) (pairs : list (nat * Float)) : M t (list Doc) :=
  match pairs with
  | [] => mret []
  | (i, _) :: pairs' =>
      match kb !! i with
      | None => raise IndexError
      | Some doc => rest ← docs_at kb pairs' ; mret (doc :: rest)
      end
  end.

(** The ranked pairs [similarities[:top_k]] after the sort. *)
Definition ranked (q : list Q) (top_k : Z) : M t (list (nat * Float)) :=
  kb ← gets knowledge_base ;
  similarities ← similarities_from q 0 kb ;
  mret (slice_to top_k (list_sort_reverse snd similarities)).

Definition _retrieve_context_body (query : string) (top_k : Z)
    : M t (list Doc) :=
  kb ← gets knowledge_base ;
  match kb with
  | [] => mret []
  | _ :: _ =>
      query_embedding ← encode query ;
      top ← ranked query_embedding top_k ;
      docs_at kb top
  end.

(** [except Exception: return []]. *)
Definition _retrieve_context (self : t) (query : string) (top_k : Z)
    : list Doc :=
  match snd (_retrieve_context_body query top_k self) with
  | inr top_docs => top_docs
  | inl _ => []
  end.
End Retrieval.

End CustomerServiceOrchestrator.

(** ** The three agents of [orchestrator.py] *)

Record AgentResponse : Type := {
  response : string;
  agent_type : string;
  confidence : Q;
  escalate : bool;
  suggested_actions : list string
}.

Definition relevant_info (context : list CustomerServiceOrchestrator.Doc) : string :=
  PyStr.join PyStr.newline (map CustomerServiceOrchestrator.content context).

Module TechnicalSupportAgent.
Import PyStr.
#[local] Open Scope string_scope.

Definition with_context_head : string :=
  "Based on our documentation, here's how I can help with your technical issue:"
  +:+ newline +:+ newline.
Definition with_context_tail : string :=
  newline +:+ newline +:+
  "If this doesn't resolve your issue, I can escalate to our technical team.".
Definition fallback : string :=
  "I understand you're experiencing a technical issue. Let me help troubleshoot this. Can you provide more details about the specific problem you're encountering?".

Definition handle_query (query : string)
    (context : list CustomerServiceOrchestrator.Doc)
    (customer_id priority : string) : AgentResponse :=
  let response :=
    match context with
    | _ :: _ => with_context_head +:+ relevant_info context +:+ with_context_tail
    | [] => fallback
    end in
  {| response := response;
     agent_type := "technical";
     confidence := 85 # 100;
     escalate := String.eqb priority "urgent";
     suggested_actions :=
       [ "Try the suggested solution"; "Clear browser cache";
         "Contact technical team if issue persists" ] |}.
End TechnicalSupportAgent.

Module BillingAgent.
Import PyStr.
#[local] Open Scope string_scope.

Definition with_context_head : string :=
  "I can help you with your billing question. Here's the relevant information:"
  +:+ newline +:+ newline.
Definition with_context_tail : string :=
  newline +:+ newline +:+
  "For account-specific billing details, I may need to connect you with our billing team.".
Definition fallback (customer_id : string) : string :=
  "I'm here to help with your billing inquiry for customer " +:+ customer_id +:+
  ". I can assist with payment issues, subscription changes, and billing questions.".

Definition handle_query (query : string)
    (context : list CustomerServiceOrchestrator.Doc)
    (customer_id priority : string) : AgentResponse :=
  let response :=
    match context with
    | _ :: _ => with_context_head +:+ relevant_info context +:+ with_context_tail
    | [] => fallback customer_id
    end in
  {| response := response;
     agent_type := "billing";
     confidence := 90 # 100;
     escalate := contains "refund" (lower query) || contains "cancel" (lower query);
     suggested_actions :=
       [ "Check account settings"; "Review billing history";
         "Contact billing team for account changes" ] |}.
End BillingAgent.

Module GeneralSupportAgent.
Import PyStr.
#[local] Open Scope string_scope.

Definition with_context_head : string :=
  "Thank you for contacting support. I found some relevant information that might help:"
  +:+ newline +:+ newline.
Definition with_context_tail : string :=
  newline +:+ newline +:+
  "Is there anything specific I can help you with today?".
Definition fallback : string :=
  "Thank you for contacting our support team. I'm here to help you with any questions or concerns you may have. How can I assist you today?".

Definition handle_query (query : string)
    (context : list CustomerServiceOrchestrator.Doc)
    (customer_id priority : string) : AgentResponse :=
  let response :=
    match context with
    | _ :: _ => with_context_head +:+ relevant_info context +:+ with_context_tail
    | [] => fallback
    end in
  {| response := response;
     agent_type := "general";
     confidence := 75 # 100;
     escalate := existsb (String.eqb priority) [ "high"; "urgent" ];
     suggested_actions :=
       [ "Provide more specific details"; "Check our help documentation";
         "Contact specialized support if needed" ] |}.
End GeneralSupportAgent.

(** The [agents] dictionary of an initialised orchestrator and the routing
    step [self.agents.get(intent, self.agents['general'])] of
    [process_query]. *)
Inductive Agent : Type := Technical | Billing | General.

Definition agents : gmap string Agent :=
  <["technical"%string := Technical]>
    (<["billing"%string := Billing]> (<["general"%string := General]> ∅)).

Definition route (intent : string) : Agent :=
  default General (agents !! intent).

Definition handle_query (a : Agent) :=
  match a with
  | Technical => TechnicalSupportAgent.handle_query
  | Billing => BillingAgent.handle_query
  | General => GeneralSupportAgent.handle_query
  end.


(** ** The intent classifier of [main.py] *)

Module SimpleOrchestrator.
Import PyStr.
#[local] Open Scope string_scope.

Definition technical_phrases : list string :=
  [ "cannot log"; "can't log"; "unable to access"; "won't load";
    "not loading"; "application is"; "app is"; "showing error";
    "login issue"; "technical issue" ].

Definition billing_phrases : list string :=
  [ "charged twice"; "billed twice"; "double charge"; "cancel subscription";
    "how do i cancel"; "want to cancel"; "billing problem"; "billing issue" ].

Definition technical_keywords : list string :=
  [ "login"; "log in"; "sign in"; "access"; "password"; "account"; "error";
    "bug"; "not working"; "broken"; "technical"; "application"; "app";
    "reset" ].

Definition billing_keywords : list string :=
  [ "billing"; "payment"; "charge"; "charged"; "invoice"; "subscription";
    "refund"; "cancel"; "upgrade"; "downgrade"; "price"; "cost"; "twice";
    "double"; "money" ].

Definition generic_words : list string :=
  [ "issue"; "problem"; "question"; "help"; "support" ].

Definition tech_words : list string :=
  [ "technical"; "login"; "password"; "access"; "app"; "application" ].

Definition bill_words : list string :=
  [ "billing"; "payment"; "charge"; "subscription"; "money" ].

Definition tie_technical : list string :=
  [ "login"; "password"; "access"; "account"; "technical" ].

Definition tie_billing : list string :=
  [ "billing"; "charge"; "payment"; "subscription"; "money" ].

Definition technical_score (query_lower : string) : Z :=
  let s := add_hits 5 technical_phrases query_lower 0 in
  let s := if any_in tech_words query_lower && any_in generic_words query_lower
           then s + 3 else s in
  add_hits 1 technical_keywords query_lower s.

Definition billing_score (query_lower : string) : Z :=
  let s := add_hits 5 billing_phrases query_lower 0 in
  let s := if any_in bill_words query_lower && any_in generic_words query_lower
           then s + 3 else s in
  add_hits 1 billing_keywords query_lower s.

Definition _classify_intent (query : string) : string :=
  let query_lower := lower query in
  let technical_score := technical_score query_lower in
  let billing_score := billing_score query_lower in
  if ((billing_score <? technical_score) && (0 <? technical_score))%Z
  then "technical"
  else if ((technical_score <? billing_score) && (0 <? billing_score))%Z
  then "billing"
  else if ((technical_score =? billing_score) && (0 <? technical_score))%Z
  then
    if any_in tie_technical query_lower then "technical"
    else if any_in tie_billing query_lower then "billing"
    else "general"
  else "general".

End SimpleOrchestrator.

(** ** The analytics manager of [analytics.py] *)

Module AnalyticsManager.
Import Py PyNum.

Record QueryData : Type := {
  qd_timestamp : Z;
  qd_query : string;
  qd_response : string;
  qd_agent_type : string;
  qd_confidence : Q;
  qd_response_time : Q;
  qd_customer_id : string;
  qd_session_id : string;
  qd_query_length : Z;
  qd_response_length : Z
}.

Record MetricSample : Type := {
  ms_confidence : Q;
  ms_response_time : Q;
  ms_timestamp : Z
}.

(** A session dictionary; the key [last_activity] is absent until the
    first query of the session has been appended. *)
Record Session : Type := {
  se_customer_id : string;
  se_start_time : Z;
  se_queries : list QueryData;
  se_total_response_time : Q;
  se_avg_confidence : Q;
  se_last_activity : option Z
}.

Record Feedback : Type := {
  fb_session_id : string;
  fb_rating : Z;
  fb_comment : option string;
  fb_timestamp : Z
}.

(** [agent_distribution] is a [defaultdict(int)] from the constructor on,
    and a plain [dict] once [_load_historical_data] has replaced it. *)
Inductive Counter : Type :=
| DefaultDict (m : gmap string Z)
| PlainDict (m : gmap string Z).

Definition counter_items (c : Counter) : gmap string Z :=
  match c with DefaultDict m | PlainDict m => m end.

(** [c[key] += 1]. *)
Definition counter_incr (key : string) (c : Counter) : exn + Counter :=
  match c with
  | DefaultDict m => inr (DefaultDict (<[key := default 0 (m !! key) + 1]> m))
  | PlainDict m =>
      match m !! key with
      | Some n => inr (PlainDict (<[key := n + 1]> m))
      | None => inl (KeyError key)
      end
  end.

Record SystemMetrics : Type := {
  total_queries : Z;
  total_sessions : Z;
  avg_response_time : Q;
  satisfaction_score : Q;
  agent_distribution : Counter
}.

Record t : Type := {
  query_history : list QueryData;
  session_data : gmap string Session;
  agent_metrics : gmap string (list MetricSample);
  feedback_data : list Feedback;
  system_metrics : SystemMetrics;
  initialized : bool
}.

(** [deque(maxlen=10000)]. *)
Definition maxlen : nat := Z.to_nat 10000.

(** [deque.append] on a [deque(maxlen=n)]. *)
Definition deque_append {A} (n : nat) (d : list A) (x : A) : list A :=
  if (length d <? n)%nat then d ++ [x] else skipn 1 (d ++ [x]).

Definition __init__ : t := {|
  query_history := [];
  session_data := ∅;
  agent_metrics := ∅;
  feedback_data := [];
  system_metrics := {|
    total_queries := 0;
    total_sessions := 0;
    avg_response_time := 0;
    satisfaction_score := 46 # 10;
    agent_distribution := DefaultDict ∅
  |};
  initialized := false
|}.

(** Field assignments. *)
Definition with_query_history (h : list QueryData) (self : t) : t :=
  {| query_history := h; session_data := session_data self;
     agent_metrics := agent_metrics self; feedback_data := feedback_data self;
     system_metrics := system_metrics self; initialized := initialized self |}.
Definition with_session_data (sd : gmap string Session) (self : t) : t :=
  {| query_history := query_history self; session_data := sd;
     agent_metrics := agent_metrics self; feedback_data := feedback_data self;
     system_metrics := system_metrics self; initialized := initialized self |}.
Definition with_agent_metrics (am : gmap string (list MetricSample)) (self : t) : t :=
  {| query_history := query_history self; session_data := session_data self;
     agent_metrics := am; feedback_data := feedback_data self;
     system_metrics := system_metrics self; initialized := initialized self |}.
Definition with_feedback_data (fd : list Feedback) (self : t) : t :=
  {| query_history := query_history self; session_data := session_data self;
     agent_metrics := agent_metrics self; feedback_data := fd;
     system_metrics := system_metrics self; initialized := initialized self |}.
Definition with_system_metrics (sm : SystemMetrics) (self : t) : t :=
  {| query_history := query_history self; session_data := session_data self;
     agent_metrics := agent_metrics self; feedback_data := feedback_data self;
     system_metrics := sm; initialized := initialized self |}.
Definition with_initialized (b : bool) (self : t) : t :=
  {| query_history := query_history self; session_data := session_data self;
     agent_metrics := agent_metrics self; feedback_data := feedback_data self;
     system_metrics := system_metrics self; initialized := b |}.

Definition with_total_queries (n : Z) (sm : SystemMetrics) : SystemMetrics :=
  {| total_queries := n; total_sessions := total_sessions sm;
     avg_response_time := avg_response_time sm;
     satisfaction_score := satisfaction_score sm;
     agent_distribution := agent_distribution sm |}.
Definition with_total_sessions (n : Z) (sm : SystemMetrics) : SystemMetrics :=
  {| total_queries := total_queries sm; total_sessions := n;
     avg_response_time := avg_response_time sm;
     satisfaction_score := satisfaction_score sm;
     agent_distribution := agent_distribution sm |}.
Definition with_avg_response_time (x : Q) (sm : SystemMetrics) : SystemMetrics :=
  {| total_queries := total_queries sm; total_sessions := total_sessions sm;
     avg_response_time := x;
     satisfaction_score := satisfaction_score sm;
     agent_distribution := agent_distribution sm |}.
Definition with_satisfaction_score (x : Q) (sm : SystemMetrics) : SystemMetrics :=
  {| total_queries := total_queries sm; total_sessions := total_sessions sm;
     avg_response_time := avg_response_time sm;
     satisfaction_score := x;
     agent_distribution := agent_distribution sm |}.
Definition with_agent_distribution (c : Counter) (sm : SystemMetrics) : SystemMetrics :=
  {| total_queries := total_queries sm; total_sessions := total_sessions sm;
     avg_response_time := avg_response_time sm;
     satisfaction_score := satisfaction_score sm;
     agent_distribution := c |}.

(** [_update_running_averages]: no statement of its [try] block raises
    on a history of query records, so its handler is never entered. *)
Definition _update_running_averages (self : t) : t :=
  match query_history self with
  | [] => self
  | _ :: _ =>
      let recent_queries := last_n 1000 (query_history self) in
      match recent_queries with
      | [] => self
      | _ :: _ =>
          let avg := float_mean (map qd_response_time recent_queries) in
          with_system_metrics
            (with_avg_response_time (round2 avg) (system_metrics self)) self
      end
  end.

Definition new_session (customer_id : string) (timestamp : Z) : Session := {|
  se_customer_id := customer_id;
  se_start_time := timestamp;
  se_queries := [];
  se_total_response_time := 0;
  se_avg_confidence := 0;
  se_last_activity := None
|}.

Definition session_append (query_data : QueryData) (response_time : Q)
    (timestamp : Z) (session : Session) : Session := {|
  se_customer_id := se_customer_id session;
  se_start_time := se_start_time session;
  se_queries := se_queries session ++ [query_data];
  se_total_response_time := (se_total_response_time session + response_time)%Q;
  se_avg_confidence := se_avg_confidence session;
  se_last_activity := Some timestamp
|}.

Definition make_query_data (query response agent_type : string)
    (confidence response_time : Q) (customer_id session_id : string)
    (timestamp : Z) : QueryData := {|
  qd_timestamp := timestamp;
  qd_query := query;
  qd_response := response;
  qd_agent_type := agent_type;
  qd_confidence := confidence;
  qd_response_time := response_time;
  qd_customer_id := customer_id;
  qd_session_id := session_id;
  qd_query_length := Z.of_nat (String.length query);
  qd_response_length := Z.of_nat (String.length response)
|}.

(** The [try] block of [log_query]; [timestamp] is the value of
    [datetime.utcnow()] read at its start. *)
Definition log_query_body (query response agent_type : string)
    (confidence response_time : Q) (customer_id session_id : string)
    (timestamp : Z) : M t unit :=
  let query_data :=
    make_query_data query response agent_type confidence response_time
                    customer_id session_id timestamp in
  (* self.query_history.append(query_data) *)
  modify (fun self =>
    with_query_history (deque_append maxlen (query_history self) query_data) self) ;;
  (* self.system_metrics['total_queries'] += 1 *)
  modify (fun self =>
    with_system_metrics
      (with_total_queries (total_queries (system_metrics self) + 1)
                          (system_metrics self)) self) ;;
  (* self.system_metrics['agent_distribution'][agent_type] += 1 *)
  dist ← gets (fun self => agent_distribution (system_metrics self)) ;
  dist' ← lift (counter_incr agent_type dist) ;
  modify (fun self =>
    with_system_metrics (with_agent_distribution dist' (system_metrics self)) self) ;;
  (* self.agent_metrics[agent_type].append({...}) *)
  modify (fun self =>
    with_agent_metrics
      (<[agent_type :=
           default [] (agent_metrics self !! agent_type) ++
           [ {| ms_confidence := confidence;
                ms_response_time := response_time;
                ms_timestamp := timestamp |} ] ]> (agent_metrics self)) self) ;;
  (* if session_id not in self.session_data: ... *)
  modify (fun self =>
    match session_data self !! session_id with
    | Some _ => self
    | None =>
        with_system_metrics
          (with_total_sessions (total_sessions (system_metrics self) + 1)
                               (system_metrics self))
          (with_session_data
             (<[session_id := new_session customer_id timestamp]> (session_data self))
             self)
    end) ;;
  (* session = self.session_data[session_id]; three updates of it *)
  modify (fun self =>
    with_session_data
      (alter (session_append query_data response_time timestamp) session_id
             (session_data self)) self) ;;
  (* await self._update_running_averages() *)
  modify _update_running_averages ;;
  mret tt.

Definition log_query (self : t) (query response agent_type : string)
    (confidence response_time : Q) (customer_id session_id : string)
    (timestamp : Z) : t :=
  try_except_log
    (log_query_body query response agent_type confidence response_time
                    customer_id session_id timestamp) self.

(** The [try] block of [log_feedback]; [now] is [datetime.utcnow()].
    [statistics.mean] of the ratings may raise, after the append. *)
Definition log_feedback_body (session_id : string) (rating : Z)
    (comment : option string) (now : Z) : M t unit :=
  let feedback := {| fb_session_id := session_id; fb_rating := rating;
                     fb_comment := comment; fb_timestamp := now |} in
  modify (fun self => with_feedback_data (feedback_data self ++ [feedback]) self) ;;
  data ← gets feedback_data ;
  match data with
  | [] => mret tt
  | _ :: _ =>
      let ratings := map fb_rating data in
      score ← lift (int_mean ratings) ;
      modify (fun self =>
        with_system_metrics
          (with_satisfaction_score score (system_metrics self)) self)
  end.

Definition log_feedback (self : t) (session_id : string) (rating : Z)
    (comment : option string) (now : Z) : t :=
  try_except_log (log_feedback_body session_id rating comment now) self.

(** [_load_historical_data]: the sample dictionary replaces the five
    entries of [system_metrics]; the update cannot raise. *)
Definition sample_data : SystemMetrics := {|
  total_queries := 1247;
  total_sessions := 423;
  avg_response_time := 12 # 10;
  satisfaction_score := 46 # 10;
  agent_distribution :=
    PlainDict (<["technical"%string := 45]>
               (<["billing"%string := 30]>
                (<["general"%string := 25]> ∅)))
|}.

Definition _load_historical_data (self : t) : t :=
  with_system_metrics sample_data self.

Definition initialize (self : t) : t :=
  with_initialized true (_load_historical_data self).

(** One hour and one [timedelta(hours=n)], in microseconds. *)
Definition HOUR : Z := 3600000000.
Definition hours (n : Z) : Z := n * HOUR.

(** [dt.replace(minute=0, second=0, microsecond=0)]. *)
Definition floor_hour (dt : Z) : Z := dt - dt mod HOUR.

(** [_get_recent_queries]; [now] is [datetime.utcnow()]. *)
Definition _get_recent_queries (self : t) (n : Z) (now : Z) : list QueryData :=
  let cutoff_time := now - hours n in
  filter (fun query => cutoff_time < qd_timestamp query) (query_history self).

Record HourCount : Type := { hour : Z; count : Z }.

(** The [defaultdict(int)] that the first loop of
    [_calculate_hourly_volume] fills. *)
Definition hourly_counts (queries : list QueryData) : gmap Z Z :=
  fold_left
    (fun counts query =>
       let hour_key := floor_hour (qd_timestamp query) in
       <[hour_key := default 0 (counts !! hour_key) + 1]> counts)
    queries ∅.

Definition _calculate_hourly_volume (queries : list QueryData) (utcnow : Z)
    : list HourCount :=
  let counts := hourly_counts queries in
  let now := floor_hour utcnow in
  let result :=
    map (fun i : nat =>
           let h := now - hours (Z.of_nat i) in
           {| hour := h; count := default 0 (counts !! h) |})
        (seq 0 24) in
  rev result.

(** The entries of the [get_analytics] dictionary that come from
    [system_metrics] and from the history; [agent_performance],
    [top_queries], [recent_activity.active_sessions] and the constant
    [system_health] are left out.  No statement of the [try] block
    raises on a state built by the methods above, so the fallback
    dictionary of its handler is never returned.  All clock reads of one
    call are taken at the same instant [now]. *)
Record Analytics : Type := {
  an_total_queries : Z;
  an_total_sessions : Z;
  an_avg_response_time : Q;
  an_satisfaction_score : Q;
  an_agent_distribution : gmap string Z;
  an_hourly_volume : list HourCount;
  an_last_24h_queries : Z
}.

Definition get_analytics (self : t) (now : Z) : Analytics :=
  let recent_queries := _get_recent_queries self 24 now in
  let hourly_volume := _calculate_hourly_volume recent_queries now in
  {| an_total_queries := total_queries (system_metrics self);
     an_total_sessions := total_sessions (system_metrics self);
     an_avg_response_time := avg_response_time (system_metrics self);
     an_satisfaction_score := satisfaction_score (system_metrics self);
     an_agent_distribution :=
       counter_items (agent_distribution (system_metrics self));
     an_hourly_volume := hourly_volume;
     an_last_24h_queries := Z.of_nat (length recent_queries) |}.

(** *** Call sequences *)

Record QueryCall : Type := {
  qc_query : string;
  qc_response : string;
  qc_agent_type : string;
  qc_confidence : Q;
  qc_response_time : Q;
  qc_customer_id : string;
  qc_session_id : string;
  qc_now : Z
}.

Record FeedbackCall : Type := {
  fc_session_id : string;
  fc_rating : Z;
  fc_comment : option string;
  fc_now : Z
}.

Inductive call : Type :=
| LogQuery (c : QueryCall)
| LogFeedback (c : FeedbackCall).

Definition call_log_query (self : t) (c : QueryCall) : t :=
  log_query self (qc_query c) (qc_response c) (qc_agent_type c)
            (qc_confidence c) (qc_response_time c) (qc_customer_id c)
            (qc_session_id c) (qc_now c).

Definition call_log_feedback (self : t) (c : FeedbackCall) : t :=
  log_feedback self (fc_session_id c) (fc_rating c) (fc_comment c) (fc_now c).

Definition step (self : t) (c : call) : t :=
  match c with
  | LogQuery c => call_log_query self c
  | LogFeedback c => call_log_feedback self c
  end.

(** The state after a sequence of calls, oldest first. *)
Definition run (self : t) (cs : list call) : t := fold_left step cs self.
Definition log_queries (self : t) (cs : list QueryCall) : t :=
  fold_left call_log_query cs self.

(** The record that a call appends to the history. *)
Definition record_of (c : QueryCall) : QueryData :=
  make_query_data (qc_query c) (qc_response c) (qc_agent_type c)
                  (qc_confidence c) (qc_response_time c) (qc_customer_id c)
                  (qc_session_id c) (qc_now c).

Definition sample_of (c : QueryCall) : MetricSample :=
  {| ms_confidence := qc_confidence c;
     ms_response_time := qc_response_time c;
     ms_timestamp := qc_now c |}.

(** Whether the [try] block of this call raises in this state. *)
Definition log_query_raises (self : t) (c : QueryCall) : option exn :=
  raised (log_query_body (qc_query c) (qc_response c) (qc_agent_type c)
                         (qc_confidence c) (qc_response_time c)
                         (qc_customer_id c) (qc_session_id c) (qc_now c)) self.

Definition log_feedback_raises (self : t) (c : FeedbackCall) : option exn :=
  raised (log_feedback_body (fc_session_id c) (fc_rating c) (fc_comment c)
                            (fc_now c)) self.

End AnalyticsManager.

(** ** Reports of [analytics.py] beside the snapshot *)

Module AnalyticsReports.
Import PyNum AnalyticsManager.

(** The built-in [sum(xs)]: a left fold from [0]. *)
Definition builtin_sum (xs : list Q) : Q := fold_left Qplus xs 0%Q.

(** [text.lower().strip()]: [str.strip] removes the white space of both
    ends; below 256 these are U+0009-U+000D, U+001C-U+0020, U+0085 and
    U+00A0. *)
Definition is_space (c : ascii) : bool :=
  let n := N_of_ascii c in
  ((9 <=? n) && (n <=? 13) || (28 <=? n) && (n <=? 32) ||
   (n =? 133) || (n =? 160))%N.

Fixpoint lstrip (s : string) : string :=
  match s with
  | EmptyString => EmptyString
  | String c s' => if is_space c then lstrip s' else s
  end.

Fixpoint rstrip (s : string) : string :=
  match s with
  | EmptyString => EmptyString
  | String c s' =>
      match rstrip s' with
      | EmptyString => if is_space c then EmptyString else String c EmptyString
      | r => String c r
      end
  end.

Definition strip (s : string) : string := rstrip (lstrip s).

(** *** [get_session_analytics] *)

Record SessionAnalytics : Type := {
  sa_session_id : string;
  sa_customer_id : string;
  sa_start_time : Z;
  sa_last_activity : Z;
  sa_duration_seconds : Q;
  sa_total_queries : Z;
  sa_avg_confidence : Q;
  sa_total_response_time : Q;
  sa_agent_usage : gmap string Z;
  sa_queries : list QueryData
}.

(** The [defaultdict(int)] filled by [for query in queries]. *)
Definition agent_usage (queries : list QueryData) : gmap string Z :=
  fold_left
    (fun usage query =>
       <[qd_agent_type query := default 0 (usage !! qd_agent_type query) + 1]> usage)
    queries ∅.

(** [timedelta.total_seconds()] of a difference of two instants. *)
Definition total_seconds (delta : Z) : Q := delta # 1000000.

(** [None] is the empty dictionary, returned for an unknown session, for
    a session without queries, and by the handler (the one statement of
    the [try] block that can raise is the read of [last_activity]). *)
Definition get_session_analytics (self : t) (session_id : string)
    : option SessionAnalytics :=
  match session_data self !! session_id with
  | None => None
  | Some session =>
      let queries := se_queries session in
      match queries with
      | [] => None
      | _ :: _ =>
          let avg_confidence := mean (map qd_confidence queries) in
          let total_time := builtin_sum (map qd_response_time queries) in
          match se_last_activity session with
          | None => None
          | Some last_activity =>
              Some {| sa_session_id := session_id;
                      sa_customer_id := se_customer_id session;
                      sa_start_time := se_start_time session;
                      sa_last_activity := last_activity;
                      sa_duration_seconds :=
                        total_seconds (last_activity - se_start_time session);
                      sa_total_queries := Z.of_nat (length queries);
                      sa_avg_confidence := avg_confidence;
                      sa_total_response_time := total_time;
                      sa_agent_usage := agent_usage queries;
                      sa_queries := last_n 10 queries |}
          end
      end
  end.

(** *** [_get_top_queries] *)

(** [counts[key] += 1] on a [defaultdict(int)], whose items keep the
    order in which the keys were first inserted. *)
Fixpoint ordered_incr (key : string) (counts : list (string * Z))
    : list (string * Z) :=
  match counts with
  | [] => [(key, 1)]
  | (k, n) :: counts' =>
      if String.eqb key k then (k, n + 1) :: counts'
      else (k, n) :: ordered_incr key counts'
  end.

Record TopQuery : Type := {
  tq_query : string;
  tq_count : Z;
  tq_example : QueryData
}.

Definition query_text (query : QueryData) : string :=
  strip (PyStr.lower (qd_query query)).

Definition query_counts (queries : list QueryData) : list (string * Z) :=
  fold_left (fun counts query => ordered_incr (query_text query) counts) queries [].

Definition query_examples (queries : list QueryData) : gmap string QueryData :=
  fold_left
    (fun examples query =>
       match examples !! query_text query with
       | Some _ => examples
       | None => <[query_text query := query]> examples
       end)
    queries ∅.

(** The comprehension over [top_queries]; [examples[query_text]] raises
    a [KeyError] for a missing key, here [None]. *)
Fixpoint top_entries (examples : gmap string QueryData) (top : list (string * Z))
    : option (list TopQuery) :=
  match top with
  | [] => Some []
  | (text, n) :: top' =>
      match examples !! text, top_entries examples top' with
      | Some example, Some rest =>
          Some ({| tq_query := text; tq_count := n; tq_example := example |} :: rest)
      | _, _ => None
      end
  end.

Definition _get_top_queries (queries : list QueryData) (limit : Z)
    : option (list TopQuery) :=
  let top_queries :=
    slice_to limit (sort_desc (fun item => inject_Z (snd item)) (query_counts queries)) in
  top_entries (query_examples queries) top_queries.

(** *** [agent_performance] of [get_analytics] *)

Record AgentPerformance : Type := {
  ap_avg_confidence : Q;
  ap_avg_response_time : Q;
  ap_query_count : Z
}.

Definition recent_metrics (metrics : list MetricSample) (now : Z) : list MetricSample :=
  filter (fun m => now - hours 24 < ms_timestamp m) metrics.

Definition agent_performance (self : t) (now : Z) : gmap string AgentPerformance :=
  omap
    (fun metrics =>
       match metrics with
       | [] => None
       | _ :: _ =>
           match recent_metrics metrics now with
           | [] => None
           | (_ :: _) as recent =>
               Some {| ap_avg_confidence := mean (map ms_confidence recent);
                       ap_avg_response_time := mean (map ms_response_time recent);
                       ap_query_count := Z.of_nat (length recent) |}
           end
       end)
    (agent_metrics self).

(** *** [get_real_time_metrics] *)

Inductive error : Type :=
| StatisticsError
| MissingKey (key : string).

Record RealTimeMetrics : Type := {
  rt_active_sessions : Z;
  rt_queries_last_hour : Z;
  rt_avg_confidence_last_hour : Q;
  rt_system_status : string
}.

Definition minutes (n : Z) : Z := n * 60000000.

(** [s['last_activity'] > cutoff] for a session that has the key. *)
Definition active_since (cutoff : Z) (s : Session) : bool :=
  match se_last_activity s with
  | Some last_activity => bool_decide (cutoff < last_activity)
  | None => false
  end.

(** The method has no [try] block: a session without [last_activity]
    raises a [KeyError], and [statistics.mean] of an empty list raises a
    [StatisticsError]. *)
Definition get_real_time_metrics (self : t) (now : Z) : error + RealTimeMetrics :=
  let sessions := map snd (map_to_list (session_data self)) in
  if forallb (fun s => bool_decide (is_Some (se_last_activity s))) sessions then
    let active := filter (fun s => active_since (now - minutes 5) s = true) sessions in
    let last_hour :=
      filter (fun q => now - hours 1 < qd_timestamp q) (query_history self) in
    match query_history self with
    | [] =>
        inr {| rt_active_sessions := Z.of_nat (length active);
               rt_queries_last_hour := Z.of_nat (length last_hour);
               rt_avg_confidence_last_hour := 0;
               rt_system_status := "healthy" |}
    | _ :: _ =>
        match last_hour with
        | [] => inl StatisticsError
        | _ :: _ =>
            inr {| rt_active_sessions := Z.of_nat (length active);
                   rt_queries_last_hour := Z.of_nat (length last_hour);
                   rt_avg_confidence_last_hour := mean (map qd_confidence last_hour);
                   rt_system_status := "healthy" |}
        end
    end
  else inl (MissingKey "last_activity").

End AnalyticsReports.

(** ** [process_query] of [orchestrator.py] *)

Module ProcessQuery.
Import PyStr Py CustomerServiceOrchestrator.

(** The dictionary that [process_query] returns; the error reply of its
    handler has only the first four keys. *)
Record Reply : Type := {
  rp_response : string;
  rp_agent_type : string;
  rp_confidence : Q;
  rp_escalate : bool;
  rp_suggested_actions : option (list string);
  rp_intent : option string;
  rp_session_id : option string;
  rp_knowledge_sources : option Z
}.

Definition error_reply : Reply :=
  {| rp_response := "I apologize, but I'm experiencing technical difficulties. Please try again or contact human support.";
     rp_agent_type := "error";
     rp_confidence := 0;
     rp_escalate := true;
     rp_suggested_actions := None;
     rp_intent := None;
     rp_session_id := None;
     rp_knowledge_sources := None |}.

(** The five document texts of [_setup_knowledge_base]. *)
Definition quote : string := String (ascii_of_N 34) EmptyString.

Definition docs : list (string * string * string * string) :=
  [ ("1", "Login Issues",
     "If you cannot log in, try resetting your password. Click " +:+ quote +:+
     "Forgot Password" +:+ quote +:+ " on the login page and follow the instructions.",
     "technical");
    ("2", "Billing Cycles",
     "Billing occurs monthly on the date you signed up. You can view your billing history in Account Settings > Billing.",
     "billing");
    ("3", "Account Cancellation",
     "To cancel your account, go to Settings > Account > Cancel Subscription. You will retain access until the end of your billing period.",
     "billing");
    ("4", "Performance Issues",
     "If the application is running slowly, try clearing your browser cache or using a different browser. Contact support if issues persist.",
     "technical");
    ("5", "Feature Requests",
     "We welcome feature requests! Please submit them through our feedback form or contact support with your suggestions.",
     "general") ]%string.

(** [_setup_knowledge_base]: every text is embedded once; the first
    embedding that raises ends the method and leaves the knowledge base
    as it was. *)
Fixpoint embed_docs (docs : list (string * string * string * string))
    : M t (list Doc) :=
  match docs with
  | [] => mret []
  | (i, ti, co, ca) :: docs' =>
      e ← encode co ;
      rest ← embed_docs docs' ;
      mret ({| id := i; title := ti; content := co; category := ca;
               embedding := e |} :: rest)
  end.

Definition _setup_knowledge_base : M t unit :=
  kb ← embed_docs docs ;
  modify (fun self =>
    {| embedding_model := embedding_model self; knowledge_base := kb |}).

Section ProcessQuery.
Variable norm : list Q -> Q.

(** [process_query] on an orchestrator that is initialised, so that
    [self.agents] is the dictionary [agents]; [top_k] has its default 3.
    The callees return normally: the classifier and the agents have
    nothing that raises, and retrieval catches its own exceptions. *)
Definition process_query_body (query customer_id session_id priority : string)
    : M t Reply :=
  let intent := _classify_intent query in
  self ← gets (fun self => self) ;
  let context := _retrieve_context norm self query 3 in
  let agent := route intent in
  let answer := handle_query agent query context customer_id priority in
  mret {| rp_response := response answer;
          rp_agent_type := agent_type answer;
          rp_confidence := confidence answer;
          rp_escalate := escalate answer;
          rp_suggested_actions := Some (suggested_actions answer);
          rp_intent := Some intent;
          rp_session_id := Some session_id;
          rp_knowledge_sources := Some (Z.of_nat (length context)) |}.

Definition process_query (self : t) (query customer_id session_id priority : string)
    : Reply :=
  match snd (process_query_body query customer_id session_id priority self) with
  | inr reply => reply
  | inl _ => error_reply
  end.

End ProcessQuery.

End ProcessQuery.

(** ** [main.py]: the reply of [process_ai_query] and the connection manager *)

Module Main.
Import PyStr.

(** [s.replace(old, new)] for a one-character [old]. *)
Fixpoint replace_char (old : ascii) (new : string) (s : string) : string :=
  match s with
  | EmptyString => EmptyString
  | String c s' =>
      if Ascii.eqb c old then new +:+ replace_char old new s'
      else String c (replace_char old new s')
  end.

(** [html.escape(s)], with [quote=True]. *)
Definition html_escape (s : string) : string :=
  let s := replace_char "&" "&amp;" s in
  let s := replace_char "<" "&lt;" s in
  let s := replace_char ">" "&gt;" s in
  let s := replace_char (ascii_of_N 34) "&quot;" s in
  replace_char "'" "&#x27;" s.

(** A value decoded from JSON.  The REST route hands [process_ai_query]
    a validated [str]; [websocket_endpoint] hands it [message_data["query"]]
    as it comes, which may be a number, a boolean, null, an array or an
    object, none of which has a method [lower]. *)
Inductive value : Type := Str (s : string) | NotStr.

(** [orchestrator._classify_intent(query)], whose first statement is
    [query.lower()]. *)
Definition classify (query : value) : Py.exn + string :=
  match query with
  | Str s => inr (SimpleOrchestrator._classify_intent s)
  | NotStr => inl Py.AttributeError
  end.

(** The [try] block of [process_ai_query]; [customer_id] is the text
    [str(customer_id)]. *)
Definition process_ai_query_body (query : value) (customer_id : string)
    : Py.exn + AgentResponse :=
  match classify query with
  | inl e => inl e
  | inr agent_type =>
      let safe_customer_id := html_escape customer_id in
      let '(response, confidence) :=
        if String.eqb agent_type "technical" then
          ("I see you're experiencing a technical issue. Let me troubleshoot this for you. Can you provide more details about when this problem started?"%string,
           90 # 100)
        else if String.eqb agent_type "billing" then
          (("I understand you have a billing question. Let me help you with that. For customer "
            +:+ safe_customer_id +:+
            ", I can see your account details and assist with payment-related issues.")%string,
           85 # 100)
        else
          ("Thank you for contacting support. I'm here to help you with your inquiry. Let me connect you with the right specialist for your needs."%string,
           75 # 100) in
      inr {| response := response;
             agent_type := agent_type;
             confidence := confidence;
             escalate := negb (Qle_bool (8 # 10) confidence);
             suggested_actions :=
               [ "Follow up in 24 hours"; "Check documentation" ]%string |}
  end.

(** The reply of the handler [except Exception]. *)
Definition error_reply : AgentResponse :=
  {| response := "I apologize, but I'm experiencing technical difficulties. Please try again.";
     agent_type := "general";
     confidence := 5 # 10;
     escalate := true;
     suggested_actions := [ "Try again"; "Contact human support" ]%string |}.

Definition process_ai_query (query : value) (customer_id : string) : AgentResponse :=
  match process_ai_query_body query customer_id with
  | inr reply => reply
  | inl _ => error_reply
  end.

End Main.

Module ConnectionManager.

(** A [WebSocket] object is known by its identity. *)
Definition WebSocket : Type := nat.

Record t : Type := {
  active_connections : list WebSocket;
  user_sessions : gmap string WebSocket
}.

Definition __init__ : t := {| active_connections := []; user_sessions := ∅ |}.

(** [connect], after [await websocket.accept()]. *)
Definition connect (self : t) (websocket : WebSocket) (session_id : string) : t :=
  {| active_connections := active_connections self ++ [websocket];
     user_sessions := <[session_id := websocket]> (user_sessions self) |}.

(** [l.remove(x)]: the first occurrence goes; [None] is the [ValueError]
    of a missing [x]. *)
Fixpoint list_remove (x : WebSocket) (l : list WebSocket) : option (list WebSocket) :=
  match l with
  | [] => None
  | y :: l' =>
      if Nat.eqb y x then Some l'
      else match list_remove x l' with
           | Some r => Some (y :: r)
           | None => None
           end
  end.

Definition disconnect (self : t) (websocket : WebSocket) (session_id : string) : t :=
  let connections :=
    match list_remove websocket (active_connections self) with
    | Some l => l
    | None => active_connections self
    end in
  {| active_connections := connections;
     user_sessions :=
       match user_sessions self !! session_id with
       | Some _ => delete session_id (user_sessions self)
       | None => user_sessions self
       end |}.

(** [send_personal_message]: the socket that gets the text, if any. *)
Definition send_personal_message (self : t) (message session_id : string)
    : option (WebSocket * string) :=
  match user_sessions self !! session_id with
  | Some websocket => Some (websocket, message)
  | None => None
  end.

End ConnectionManager.

(** ** [main.py]: what [websocket_endpoint] does to the connection manager *)

Module WebsocketEndpoint.
Import ConnectionManager.

(** One run of [websocket_endpoint] calls [manager.connect] once, with its
    own socket, and [manager.disconnect] with the same socket and session
    id in its two handlers. *)
Inductive event : Type :=
  | Connect (websocket : WebSocket) (session_id : string)
  | Disconnect (websocket : WebSocket) (session_id : string).

Definition socket_of (e : event) : WebSocket :=
  match e with Connect ws _ | Disconnect ws _ => ws end.

Definition step (self : t) (e : event) : t :=
  match e with
  | Connect ws sid => connect self ws sid
  | Disconnect ws sid => disconnect self ws sid
  end.

Definition run (self : t) (es : list event) : t := fold_left step es self.

(** The event sequences that runs of the endpoint produce: a socket
    connects before any other event names it, and disconnects with the
    session id it connected with. *)
Inductive endpoint_trace : list event -> Prop :=
  | trace_nil : endpoint_trace []
  | trace_connect es ws sid :
      endpoint_trace es ->
      (forall e, In e es -> socket_of e <> ws) ->
      endpoint_trace (es ++ [Connect ws sid])
  | trace_disconnect es ws sid :
      endpoint_trace es ->
      In (Connect ws sid) es ->
      endpoint_trace (es ++ [Disconnect ws sid]).

End WebsocketEndpoint.

(** * Vocabulary of the properties *)

(** In a ranking by [key] of elements taken from a list, where [index]
    is the place an element had in that list, [a] is ranked before [b]:
    a greater key, or an equal key and an earlier place. *)
Definition ranked_before {A : Type} (key : A -> Q) (index : A -> nat)
    (a b : A) : Prop :=
  (key b < key a)%Q \/ (key a == key b /\ (index a < index b)%nat).

(** The history after the first statement of [log_query]. *)
Definition appended (self : AnalyticsManager.t) (c : AnalyticsManager.QueryCall)
    : list AnalyticsManager.QueryData :=
  AnalyticsManager.deque_append AnalyticsManager.maxlen
    (AnalyticsManager.query_history self) (AnalyticsManager.record_of c).

(** The state in which a [KeyError] of the distribution leaves the
    manager: the record is in the history and counted in
    [total_queries], and nothing else has happened. *)
Definition half_logged (self : AnalyticsManager.t) (c : AnalyticsManager.QueryCall)
    : AnalyticsManager.t :=
  AnalyticsManager.with_system_metrics
    (AnalyticsManager.with_total_queries
       (AnalyticsManager.total_queries (AnalyticsManager.system_metrics self) + 1)
       (AnalyticsManager.system_metrics self))
    (AnalyticsManager.with_query_history (appended self c) self).

(** What a manager that has logged exactly the calls [cs] since its
    construction holds. *)
Definition tracks (self : AnalyticsManager.t) (cs : list AnalyticsManager.QueryCall)
    : Prop :=
  AnalyticsManager.query_history self =
    PyNum.last_n AnalyticsManager.maxlen (map AnalyticsManager.record_of cs) /\
  AnalyticsManager.total_queries (AnalyticsManager.system_metrics self) =
    Z.of_nat (length cs) /\
  (exists m,
     AnalyticsManager.agent_distribution (AnalyticsManager.system_metrics self) =
       AnalyticsManager.DefaultDict m /\
     forall a, default 0 (m !! a) =
       Z.of_nat (length (filter (fun c => AnalyticsManager.qc_agent_type c = a) cs))) /\
  (forall a, default [] (AnalyticsManager.agent_metrics self !! a) =
     map AnalyticsManager.sample_of
         (filter (fun c => AnalyticsManager.qc_agent_type c = a) cs)) /\
  (forall sid,
     default [] (AnalyticsManager.se_queries <$>
                 AnalyticsManager.session_data self !! sid) =
     map AnalyticsManager.record_of
         (filter (fun c => AnalyticsManager.qc_session_id c = sid) cs)).

(** The aggregates that do not read the history. *)
Definition aggregates (self : AnalyticsManager.t) :=
  (AnalyticsManager.total_queries (AnalyticsManager.system_metrics self),
   AnalyticsManager.total_sessions (AnalyticsManager.system_metrics self),
   AnalyticsManager.agent_distribution (AnalyticsManager.system_metrics self),
   AnalyticsManager.agent_metrics self,
   AnalyticsManager.session_data self,
   AnalyticsManager.feedback_data self,
   AnalyticsManager.satisfaction_score (AnalyticsManager.system_metrics self)).

(** The record that a call of [log_feedback] appends. *)
Definition feedback_of (c : AnalyticsManager.FeedbackCall) : AnalyticsManager.Feedback :=
  {| AnalyticsManager.fb_session_id := AnalyticsManager.fc_session_id c;
     AnalyticsManager.fb_rating := AnalyticsManager.fc_rating c;
     AnalyticsManager.fb_comment := AnalyticsManager.fc_comment c;
     AnalyticsManager.fb_timestamp := AnalyticsManager.fc_now c |}.

(** The ratings that a sequence of calls passes to [log_feedback]. *)
Definition ratings_of (cs : list AnalyticsManager.call) : list Z :=
  flat_map (fun c => match c with
                     | AnalyticsManager.LogFeedback f => [AnalyticsManager.fc_rating f]
                     | AnalyticsManager.LogQuery _ => []
                     end) cs.

Definition Zsum (l : list Z) : Z := fold_right Z.add 0 l.

(** A manager right after its construction, with the sample data loaded
    by [initialize] or not. *)
Definition started (loaded : bool) : AnalyticsManager.t :=
  if loaded then AnalyticsManager.initialize AnalyticsManager.__init__
  else AnalyticsManager.__init__.

(** What [log_query] keeps true of the session stored under [sid]: it has
    at least one record, all of its records carry [sid], it started with
    its first record and was last active with its last one, it belongs to
    the customer of its first record, and its accumulator is the sum of
    its response times. *)
Definition session_wf (sid : string) (se : AnalyticsManager.Session) : Prop :=
  exists q qs,
    AnalyticsManager.se_queries se = q :: qs /\
    AnalyticsManager.se_start_time se = AnalyticsManager.qd_timestamp q /\
    AnalyticsManager.se_customer_id se = AnalyticsManager.qd_customer_id q /\
    AnalyticsManager.se_last_activity se =
      Some (AnalyticsManager.qd_timestamp (List.last qs q)) /\
    (AnalyticsManager.se_total_response_time se ==
     AnalyticsReports.builtin_sum
       (map AnalyticsManager.qd_response_time (q :: qs)))%Q /\
    Forall (fun r => AnalyticsManager.qd_session_id r = sid) (q :: qs).

Definition sessions_wf (self : AnalyticsManager.t) : Prop :=
  forall sid se,
    AnalyticsManager.session_data self !! sid = Some se -> session_wf sid se.

(** The place of the first occurrence of [key] in [keys], or the length
    of [keys] when there is none. *)
Fixpoint first_index (key : string) (keys : list string) : nat :=
  match keys with
  | [] => 0
  | k :: keys' => if String.eqb key k then 0 else S (first_index key keys')
  end.

(** The place at which a normalised query text is first seen. *)
Definition first_seen (queries : list AnalyticsManager.QueryData) (text : string) : nat :=
  first_index text (map AnalyticsReports.query_text queries).

(** How many of [queries] have the normalised text [text]. *)
Definition occurrences (queries : list AnalyticsManager.QueryData) (text : string) : Z :=
  Z.of_nat (length (filter (fun q => AnalyticsReports.query_text q = text) queries)).


(** The lexicon entries that only the classifier of [orchestrator.py]
    has: one technical and two billing phrases, five technical and three
    billing keywords. *)
Definition orchestrator_only : list string :=
  [ "technical problem"; "subscription cost"; "payment problem";
    "crash"; "slow"; "unlock"; "authenticate"; "verification";
    "credit card"; "bank"; "transaction" ]%string.

(** [c in s] for one character. *)
Fixpoint has_char (c : ascii) (s : string) : bool :=
  match s with
  | EmptyString => false
  | String c' s' => Ascii.eqb c' c || has_char c s'
  end.

(** * Properties *)

(** ** Scores of the classifier *)

Section Scores.
Import PyStr.

Lemma add_hits_hits (weight : Z) (words : list string) (text : string) (score : Z) :
  add_hits weight words text score = score + weight * Z.of_nat (hits words text).
Proof.
  unfold add_hits, hits. revert score.
  induction words as [|w words IH]; intros score; simpl.
  - lia.
  - rewrite IH, filter_cons.
    destruct (contains w text) eqn:E; case_decide; try congruence; simpl; lia.
Qed.

Lemma any_in_false_hits (words : list string) (text : string) :
  any_in words text = false -> hits words text = 0%nat.
Proof.
  unfold any_in, hits.
  induction words as [|w words IH]; simpl; [done|].
  rewrite filter_cons. case_decide as Hw; destruct (contains w text); simpl;
    first [discriminate | congruence | auto].
Qed.

Lemma any_in_true_hits (words : list string) (text : string) :
  any_in words text = true -> (1 <= hits words text)%nat.
Proof.
  unfold any_in, hits.
  induction words as [|w words IH]; simpl; [done|].
  rewrite filter_cons. case_decide as Hw; destruct (contains w text); simpl;
    first [discriminate | congruence | lia | auto].
Qed.

(** A score is the weighted number of hits: five per phrase, at most
    three for the combination, one per keyword. *)
Lemma score_bounds (phrases words generic keywords : list string) (text : string) :
  let s := add_hits 5 phrases text 0 in
  let s' := if any_in words text && any_in generic text then s + 3 else s in
  let score := add_hits 1 keywords text s' in
  5 * Z.of_nat (hits phrases text) + Z.of_nat (hits keywords text) <= score
  <= 5 * Z.of_nat (hits phrases text) + 3 + Z.of_nat (hits keywords text).
Proof.
  cbv zeta. rewrite !add_hits_hits.
  destruct (any_in words text && any_in generic text); lia.
Qed.

Lemma technical_score_bounds (text : string) :
  5 * Z.of_nat (hits CustomerServiceOrchestrator.technical_phrases text)
    + Z.of_nat (hits CustomerServiceOrchestrator.technical_keywords text)
  <= CustomerServiceOrchestrator.technical_score text
  <= 5 * Z.of_nat (hits CustomerServiceOrchestrator.technical_phrases text) + 3
    + Z.of_nat (hits CustomerServiceOrchestrator.technical_keywords text).
Proof. unfold CustomerServiceOrchestrator.technical_score. apply score_bounds. Qed.

Lemma billing_score_bounds (text : string) :
  5 * Z.of_nat (hits CustomerServiceOrchestrator.billing_phrases text)
    + Z.of_nat (hits CustomerServiceOrchestrator.billing_keywords text)
  <= CustomerServiceOrchestrator.billing_score text
  <= 5 * Z.of_nat (hits CustomerServiceOrchestrator.billing_phrases text) + 3
    + Z.of_nat (hits CustomerServiceOrchestrator.billing_keywords text).
Proof. unfold CustomerServiceOrchestrator.billing_score. apply score_bounds. Qed.

End Scores.

(** C1: the classifier of the orchestrator, and the one of [main.py],
    return [technical], [billing], [general], [billing], [technical] on the
    five example queries of the specification. *)
Theorem classify_intent_examples :
  let examples :=
    [ ("I cannot log into my account", "technical");
      ("I was charged twice this month", "billing");
      ("", "general");
      ("I have a billing problem with login", "billing");
      ("Login issue with payment", "technical") ]%string in
  Forall (fun '(query, intent) =>
            CustomerServiceOrchestrator._classify_intent query = intent /\
            SimpleOrchestrator._classify_intent query = intent) examples.
Proof.
  cbv zeta. repeat constructor; vm_compute; reflexivity.
Qed.

(** C5, as stated, fails: this query holds the technical phrase
    [cannot log] and no billing phrase, and six billing keywords outweigh
    the phrase (technical score 5, billing score 6); and this one holds the
    billing phrase [billed twice] and no technical phrase, and seven
    technical keywords outweigh it. *)
Lemma classify_phrase_outweighed :
  let q1 := "I cannot log on to pay the invoice, my payment was charged and I want a refund or to cancel"%string in
  let q2 := "I was billed twice after the app crashed with a password reset error on my account login"%string in
  (PyStr.any_in CustomerServiceOrchestrator.technical_phrases (PyStr.lower q1) = true /\
   PyStr.any_in CustomerServiceOrchestrator.billing_phrases (PyStr.lower q1) = false /\
   CustomerServiceOrchestrator.technical_score (PyStr.lower q1) = 5 /\
   CustomerServiceOrchestrator.billing_score (PyStr.lower q1) = 6 /\
   CustomerServiceOrchestrator._classify_intent q1 = "billing"%string) /\
  (PyStr.any_in CustomerServiceOrchestrator.billing_phrases (PyStr.lower q2) = true /\
   PyStr.any_in CustomerServiceOrchestrator.technical_phrases (PyStr.lower q2) = false /\
   CustomerServiceOrchestrator.technical_score (PyStr.lower q2) = 7 /\
   CustomerServiceOrchestrator.billing_score (PyStr.lower q2) = 6 /\
   CustomerServiceOrchestrator._classify_intent q2 = "technical"%string).
Proof.
  cbv zeta. repeat split; vm_compute; reflexivity.
Qed.

(** C5, amended: a query text with at least one technical phrase, no
    billing phrase and at most one billing keyword is classified
    [technical]; symmetrically, a text with at least one billing phrase, no
    technical phrase and at most one technical keyword is classified
    [billing]. *)
Theorem classify_phrase_dominates (query : string) :
  let text := PyStr.lower query in
  (PyStr.any_in CustomerServiceOrchestrator.technical_phrases text = true ->
   PyStr.any_in CustomerServiceOrchestrator.billing_phrases text = false ->
   (PyStr.hits CustomerServiceOrchestrator.billing_keywords text <= 1)%nat ->
   CustomerServiceOrchestrator._classify_intent query = "technical"%string) /\
  (PyStr.any_in CustomerServiceOrchestrator.billing_phrases text = true ->
   PyStr.any_in CustomerServiceOrchestrator.technical_phrases text = false ->
   (PyStr.hits CustomerServiceOrchestrator.technical_keywords text <= 1)%nat ->
   CustomerServiceOrchestrator._classify_intent query = "billing"%string).
Proof.
  cbv zeta.
  pose proof (technical_score_bounds (PyStr.lower query)) as Ht.
  pose proof (billing_score_bounds (PyStr.lower query)) as Hb.
  unfold CustomerServiceOrchestrator._classify_intent.
  split; intros Hin Hout Hkw;
    apply any_in_true_hits in Hin; apply any_in_false_hits in Hout;
    rewrite Hout in *; clear Hout;
    revert Ht Hb Hin Hkw;
    generalize (CustomerServiceOrchestrator.technical_score (PyStr.lower query));
    generalize (CustomerServiceOrchestrator.billing_score (PyStr.lower query));
    generalize (PyStr.hits CustomerServiceOrchestrator.technical_phrases (PyStr.lower query));
    generalize (PyStr.hits CustomerServiceOrchestrator.billing_phrases (PyStr.lower query));
    generalize (PyStr.hits CustomerServiceOrchestrator.technical_keywords (PyStr.lower query));
    generalize (PyStr.hits CustomerServiceOrchestrator.billing_keywords (PyStr.lower query));
    intros kb kt pb pt b t Ht Hb Hin Hkw.
  - rewrite (proj2 (Z.ltb_lt b t)) by lia.
    rewrite (proj2 (Z.ltb_lt 0 t)) by lia.
    reflexivity.
  - rewrite (proj2 (Z.ltb_ge b t)) by lia.
    rewrite (proj2 (Z.ltb_lt t b)) by lia.
    rewrite (proj2 (Z.ltb_lt 0 b)) by lia.
    reflexivity.
Qed.

Lemma classify_phrase_dominates_witness :
  CustomerServiceOrchestrator._classify_intent
    "The page is not loading since my last payment"%string = "technical"%string /\
  CustomerServiceOrchestrator._classify_intent
    "I was billed twice, and my password is fine"%string = "billing"%string.
Proof.
  split.
  - apply (proj1 (classify_phrase_dominates
                    "The page is not loading since my last payment"%string));
      vm_compute; first [reflexivity | lia].
  - apply (proj2 (classify_phrase_dominates
                    "I was billed twice, and my password is fine"%string));
      vm_compute; first [reflexivity | lia].
Defined.

(** ** Routing and the three response variants *)

(** C9, as stated, fails on the fallback text of the billing variant: with
    an empty context its reply is not a fixed text, it names the
    customer. *)
Lemma billing_fallback_names_customer :
  let reply customer :=
    response (BillingAgent.handle_query "Where is my invoice?" [] customer "low") in
  reply "alice"%string =
    "I'm here to help with your billing inquiry for customer alice. I can assist with payment issues, subscription changes, and billing questions."%string /\
  reply "bob"%string =
    "I'm here to help with your billing inquiry for customer bob. I can assist with payment issues, subscription changes, and billing questions."%string /\
  String.eqb (reply "alice"%string) (reply "bob"%string) = false.
Proof.
  cbv zeta. repeat split; vm_compute; reflexivity.
Qed.

(** C9, amended: routing maps the intent to a fixed variant (the general
    one for any intent other than technical and billing).  The technical
    variant has confidence 0.85 and escalates iff the priority is
    [urgent]; the billing variant has confidence 0.90 and escalates iff the
    lower-cased query contains [refund] or [cancel]; the general variant
    has confidence 0.75 and escalates iff the priority is [high] or
    [urgent].  In each variant a non-empty context is spliced verbatim,
    joined by newlines, between two fixed texts; with an empty context the
    technical and general variants reply with a fixed text and the billing
    variant with a fixed template around the customer id. *)
Theorem routing_variants
    (intent query customer_id priority : string)
    (doc : CustomerServiceOrchestrator.Doc)
    (docs : list CustomerServiceOrchestrator.Doc) :
  let context := doc :: docs in
  let spliced :=
    PyStr.join PyStr.newline (map CustomerServiceOrchestrator.content context) in
  (* routing *)
  route intent =
    (if decide (intent = "technical"%string) then Technical
     else if decide (intent = "billing"%string) then Billing
     else General) /\
  (* technical *)
  (forall ctx,
     let r := handle_query Technical query ctx customer_id priority in
     agent_type r = "technical"%string /\
     confidence r = 85 # 100 /\
     (85 # 100 <= confidence r <= 90 # 100)%Q /\
     (escalate r = true <-> priority = "urgent"%string)) /\
  response (handle_query Technical query context customer_id priority) =
    TechnicalSupportAgent.with_context_head +:+ spliced +:+
    TechnicalSupportAgent.with_context_tail /\
  response (handle_query Technical query [] customer_id priority) =
    TechnicalSupportAgent.fallback /\
  (* billing *)
  (forall ctx,
     let r := handle_query Billing query ctx customer_id priority in
     agent_type r = "billing"%string /\
     confidence r = 90 # 100 /\
     (85 # 100 <= confidence r <= 90 # 100)%Q /\
     (escalate r = true <->
      PyStr.contains "refund" (PyStr.lower query) = true \/
      PyStr.contains "cancel" (PyStr.lower query) = true)) /\
  response (handle_query Billing query context customer_id priority) =
    BillingAgent.with_context_head +:+ spliced +:+
    BillingAgent.with_context_tail /\
  response (handle_query Billing query [] customer_id priority) =
    ("I'm here to help with your billing inquiry for customer " +:+ customer_id +:+
     ". I can assist with payment issues, subscription changes, and billing questions.")%string /\
  (* general *)
  (forall ctx,
     let r := handle_query General query ctx customer_id priority in
     agent_type r = "general"%string /\
     confidence r = 75 # 100 /\
     (escalate r = true <->
      priority = "high"%string \/ priority = "urgent"%string)) /\
  response (handle_query General query context customer_id priority) =
    GeneralSupportAgent.with_context_head +:+ spliced +:+
    GeneralSupportAgent.with_context_tail /\
  response (handle_query General query [] customer_id priority) =
    GeneralSupportAgent.fallback.
Proof.
  cbv zeta. split; [|repeat split]; try reflexivity.
  - unfold route, agents. rewrite !lookup_insert, lookup_empty.
    repeat case_decide; subst; simpl; congruence.
  - simpl. unfold Qle. simpl. lia.
  - simpl. unfold Qle. simpl. lia.
  - simpl. apply String.eqb_eq.
  - simpl. intros ->. apply String.eqb_refl.
  - simpl. unfold Qle. simpl. lia.
  - simpl. unfold Qle. simpl. lia.
  - simpl. apply orb_true_iff.
  - simpl. apply orb_true_iff.
  - simpl. rewrite orb_false_r, orb_true_iff, !String.eqb_eq. tauto.
  - simpl. rewrite orb_false_r, orb_true_iff, !String.eqb_eq. tauto.
Qed.

(** ** Retrieval: the stable descending sort and the top-k slice *)

Section ListFacts.
Context {A : Type}.

Lemma in_firstn_in (y : A) (n : nat) (l : list A) :
  In y (firstn n l) -> In y l.
Proof.
  revert n. induction l as [|x l IH]; intros [|n]; simpl; try tauto.
  intros [H | H]; [by left | right; eauto].
Qed.

Lemma StronglySorted_firstn (R : A -> A -> Prop) (n : nat) (l : list A) :
  StronglySorted R l -> StronglySorted R (firstn n l).
Proof.
  revert n. induction l as [|x l IH]; intros [|n] Hs; simpl; try constructor.
  - apply StronglySorted_inv in Hs as [Hs _]. auto.
  - apply StronglySorted_inv in Hs as [_ Hx].
    rewrite List.Forall_forall in Hx. apply List.Forall_forall.
    intros y Hy. apply Hx. eapply in_firstn_in; eauto.
Qed.


End ListFacts.

Section SortDescFacts.
Context {A : Type} (key : A -> Q).

Lemma in_insert_desc (x y : A) (l : list A) :
  In y (PyNum.insert_desc key x l) <-> y = x \/ In y l.
Proof.
  induction l as [|z l IH]; simpl.
  - intuition.
  - destruct (Qle_bool (key z) (key x)); simpl; [intuition|].
    rewrite IH. intuition.
Qed.



Lemma in_sort_desc (y : A) (l : list A) :
  In y (PyNum.sort_desc key l) <-> In y l.
Proof.
  induction l as [|x l IH]; simpl; [done|].
  rewrite in_insert_desc, IH. intuition.
Qed.

End SortDescFacts.

Section Ranking.
Context {A : Type} (key : A -> Q) (index : A -> nat).

#[local] Abbreviation before := (ranked_before key index).

Lemma ranked_before_trans_key (a b c : A) :
  before a b -> (key c <= key b)%Q ->
  (index a < index c)%nat -> before a c.
Proof.
  intros [Hab | [Hab Hi]] Hcb Hac.
  - left. eapply Qle_lt_trans; eauto.
  - destruct (Qlt_le_dec (key c) (key a)) as [Hlt | Hle]; [by left|].
    right. split; [|done]. apply Qle_antisym; [done|].
    rewrite Hab. done.
Qed.

Lemma ranked_before_key (a b : A) : before a b -> (key b <= key a)%Q.
Proof.
  intros [H | [H _]]; [by apply Qlt_le_weak|]. rewrite H. apply Qle_refl.
Qed.

Lemma insert_desc_sorted (x : A) (l : list A) :
  Forall (fun y => (index x < index y)%nat) l ->
  StronglySorted before l ->
  StronglySorted before (PyNum.insert_desc key x l).
Proof.
  induction l as [|y l IH]; intros Hidx Hs; simpl.
  - repeat constructor.
  - apply Forall_cons in Hidx as [Hxy Hidx].
    apply StronglySorted_inv in Hs as [Hs Hy].
    destruct (Qle_bool (key y) (key x)) eqn:Hle.
    + apply Qle_bool_iff in Hle.
      assert (before x y) as Hxy'.
      { destruct (Qlt_le_dec (key y) (key x)); [by left|].
        right. split; [by apply Qle_antisym | done]. }
      constructor; [by constructor|].
      constructor; [done|].
      rewrite List.Forall_forall in Hy, Hidx. apply List.Forall_forall.
      intros z Hz. apply (ranked_before_trans_key x y z); auto.
      apply ranked_before_key. auto.
    + assert (key x < key y)%Q as Hlt.
      { apply Qnot_le_lt. intros H. apply Qle_bool_iff in H. congruence. }
      constructor; [auto|].
      apply List.Forall_forall. intros z Hz.
      apply (proj1 (in_insert_desc key x z l)) in Hz as [-> | Hz].
      * by left.
      * rewrite List.Forall_forall in Hy. auto.
Qed.

(** On a list whose places increase, the sort ranks every element before
    the ones that follow it. *)
Lemma sort_desc_sorted (l : list A) :
  StronglySorted (fun a b => (index a < index b)%nat) l ->
  StronglySorted before (PyNum.sort_desc key l).
Proof.
  induction l as [|x l IH]; intros Hs; simpl; [constructor|].
  apply StronglySorted_inv in Hs as [Hs Hx].
  apply insert_desc_sorted; [|exact (IH Hs)].
  rewrite List.Forall_forall in Hx. apply List.Forall_forall.
  intros y Hy. apply (proj1 (in_sort_desc key y l)) in Hy. auto.
Qed.

End Ranking.

Ltac unfold_py :=
  unfold mbind, py_bind, mret, py_ret, Py.bind, Py.ret, Py.gets, Py.lift,
    Py.raise, Py.modify, Py.try_except_log, Py.raised in *.

Section RetrievalFacts.
Import Py PyNum CustomerServiceOrchestrator.
Variable norm : list Q -> Q.


(** The loop leaves the orchestrator alone; when it ends normally, its
    pairs are the places [i, i+1, ...] with the similarity of the
    document at each place. *)
Lemma similarities_from_spec (q : list Q) (docs : list Doc) (i : nat) (self : t) :
  exists r, similarities_from norm q i docs self = (self, r) /\
    forall l, r = inr l ->
      map fst l = seq i (length docs) /\
      Forall2 (fun d p => cosine_similarity norm q (embedding d) = inr (snd p))
              docs l.
Proof.
  revert i. induction docs as [|doc docs IH]; intros i; simpl.
  - eexists. split; [reflexivity|]. intros l [= <-]. by split; constructor.
  - unfold_py. destruct (cosine_similarity norm q (embedding doc)) as [e|s] eqn:E.
    + eexists. split; [reflexivity | discriminate].
    + destruct (IH (S i)) as (r & -> & Hr). destruct r as [e|l].
      * eexists. split; [reflexivity | discriminate].
      * eexists. split; [reflexivity|]. intros l' [= <-].
        destruct (Hr l eq_refl) as [Hf Hc]. simpl. split; [by f_equal|].
        by constructor.
Qed.


Lemma docs_at_spec (kb : list Doc) (pairs : list (nat * Float)) (self : t) :
  Forall (fun p => (fst p < length kb)%nat) pairs ->
  exists ds, docs_at kb pairs self = (self, inr ds) /\
    Forall2 (fun d p => kb !! fst p = Some d) ds pairs.
Proof.
  induction pairs as [|[i s] pairs IH]; intros Hp; simpl.
  - eexists. split; [reflexivity | constructor].
  - apply Forall_cons in Hp as [Hi Hp]. simpl in Hi.
    destruct (lookup_lt_is_Some_2 kb i Hi) as [d Hd]. rewrite Hd.
    unfold_py. destruct (IH Hp) as (ds & -> & Hds).
    eexists. split; [reflexivity|]. by constructor.
Qed.

Lemma ranked_pairs_spec {B} (P : Doc -> B -> Prop) (kb : list Doc)
    (l : list (nat * B)) (p : nat * B) :
  map fst l = seq 0 (length kb) ->
  Forall2 (fun d p => P d (snd p)) kb l ->
  In p l ->
  exists d, kb !! fst p = Some d /\ P d (snd p).
Proof.
  intros Hf Hc Hp.
  apply list_elem_of_In, list_elem_of_lookup in Hp as [n Hn].
  assert (fst p = n) as Hn'.
  { assert (map fst l !! n = Some (fst p)) as H by (by rewrite list_lookup_fmap, Hn).
    rewrite Hf in H. apply lookup_seq in H. lia. }
  destruct (Forall2_lookup_r _ _ _ _ _ Hc Hn) as (d & Hd & Hs).
  exists d. by rewrite Hn'.
Qed.





End RetrievalFacts.

(** *** The sort of the similarities *)

Section ListSortFacts.
Import PyNum CustomerServiceOrchestrator.
Context {A : Type} (key : A -> Float).

Lemma insert_stable_perm (x : A) (l : list A) :
  Permutation (insert_stable key x l) (x :: l).
Proof.
  induction l as [|y l IH]; simpl; [done|].
  destruct (CustomerServiceOrchestrator.lt key x y); [|done].
  rewrite IH. apply perm_swap.
Qed.

Lemma stable_desc_perm (l : list A) : Permutation (stable_desc key l) l.
Proof.
  induction l as [|x l IH]; simpl; [done|].
  rewrite insert_stable_perm. by constructor.
Qed.

Lemma binarysort_perm (run rest : list A) :
  Permutation (binarysort key run rest) (run ++ rest).
Proof.
  unfold binarysort. revert run.
  induction rest as [|x rest IH]; intros run; simpl.
  - by rewrite app_nil_r.
  - rewrite IH. unfold binary_insert.
    set (i := bisect key _ _ _ _ _).
    transitivity ((take i run ++ drop i run) ++ x :: rest);
      [|by rewrite take_drop].
    rewrite <- !app_assoc. apply Permutation_app_head.
    simpl. apply Permutation_middle.
Qed.

Lemma sort_short_perm (l : list A) : Permutation (sort_short key l) l.
Proof.
  unfold sort_short. destruct (count_run key l) as [n descending].
  rewrite binarysort_perm.
  transitivity (take n l ++ drop n l); [|by rewrite take_drop].
  apply Permutation_app_tail.
  destruct descending; [symmetry; apply Permutation_rev | done].
Qed.

(** With or without NaN, the sort rearranges the list. *)
Lemma list_sort_reverse_perm (l : list A) :
  Permutation (list_sort_reverse key l) l.
Proof.
  unfold list_sort_reverse. destruct (existsb _ l).
  - rewrite <- Permutation_rev, sort_short_perm. symmetry. apply Permutation_rev.
  - apply stable_desc_perm.
Qed.


End ListSortFacts.



(** *** What a call of [_retrieve_context] returns *)

Section RetrievalCases.
Import Py PyNum CustomerServiceOrchestrator.
Variable norm : list Q -> Q.

Lemma encode_keeps_self (text : string) (self : t) :
  fst (encode text self) = self.
Proof.
  unfold encode. unfold_py.
  by destruct (embedding_model self).
Qed.

Lemma slice_to_take {A} (k : Z) (l : list A) :
  exists n, slice_to k l = take n l /\ (0 <= k -> n = Z.to_nat k).
Proof.
  unfold slice_to. destruct (Z.leb_spec 0 k).
  - by exists (Z.to_nat k).
  - eexists. split; [reflexivity | lia].
Qed.



(** Either the call returns the empty list, or the embedding and every
    similarity were computed and the documents returned are the ones at
    the places of the first pairs of the sorted list. *)
Lemma retrieve_context_cases (self : t) (query : string) (top_k : Z) :
  let kb := knowledge_base self in
  _retrieve_context norm self query top_k = [] \/
  exists q sims n,
    snd (encode query self) = inr q /\
    map fst sims = seq 0 (length kb) /\
    Forall2 (fun d p => cosine_similarity norm q (embedding d) = inr (snd p)) kb sims /\
    (0 <= top_k -> n = Z.to_nat top_k) /\
    Forall2 (fun d p => kb !! fst p = Some d)
            (_retrieve_context norm self query top_k)
            (take n (list_sort_reverse snd sims)).
Proof.
  cbv zeta. unfold _retrieve_context, _retrieve_context_body, ranked. unfold_py.
  destruct (knowledge_base self) as [|doc0 kb'] eqn:Hkb; [by left|].
  rewrite <- Hkb. set (kb := knowledge_base self).
  pose proof (encode_keeps_self query self) as Hself.
  destruct (encode query self) as [self' [e|q]] eqn:Henc; [by left|].
  simpl in Hself. subst self'.
  destruct (similarities_from_spec norm q kb 0 self) as (r & Hr & Hspec).
  fold kb. rewrite Hr. destruct r as [e|sims]; [by left|].
  destruct (Hspec sims eq_refl) as [Hplaces Hsims].
  destruct (slice_to_take top_k (list_sort_reverse snd sims)) as (n & -> & Hn).
  destruct (docs_at_spec kb (take n (list_sort_reverse snd sims)) self)
    as (ds & Hds & Hlink).
  { apply List.Forall_forall. intros p Hp. apply in_firstn_in in Hp.
    apply (Permutation_in _ (list_sort_reverse_perm snd sims)) in Hp.
    destruct (ranked_pairs_spec
                (fun d x => cosine_similarity norm q (embedding d) = inr x)
                kb sims p Hplaces Hsims Hp) as (d & Hd & _).
    eapply lookup_lt_Some; eauto. }
  rewrite Hds. simpl. right. exists q, sims, n. by repeat split.
Qed.

Lemma retrieve_context_length (self : t) (query : string) (top_k : Z) :
  0 <= top_k ->
  Z.of_nat (length (_retrieve_context norm self query top_k)) <= top_k.
Proof.
  intros Hk.
  destruct (retrieve_context_cases self query top_k)
    as [-> | (q & sims & n & _ & _ & _ & Hn & Hlink)]; [simpl; lia|].
  rewrite (Forall2_length _ _ _ Hlink), length_take, (Hn Hk). lia.
Qed.


(** A dot product within the floats and a product of norms that is,
    as a float, neither zero nor infinite make the similarity a number. *)
Lemma cosine_similarity_number (q d : list Q) (x : Float) (y : Q) :
  to_float (norm q * norm d) = Fin y -> ~ (y == 0)%Q ->
  (forall s, dot q d = inr s -> (Qabs s < float_overflow)%Q) ->
  cosine_similarity norm q d = inr x -> x = Fin (number x).
Proof.
  intros Hy Hn Hs. unfold cosine_similarity.
  destruct (dot q d) as [e|s]; [done|]. intros [= <-].
  rewrite Hy. unfold to_float.
  destruct (Qle_bool float_overflow (Qabs s)) eqn:E.
  { apply Qle_bool_iff in E. specialize (Hs s eq_refl).
    by apply Qlt_not_le in Hs. }
  simpl. destruct (Qeq_bool y 0) eqn:E'; [|done].
  by apply Qeq_bool_iff in E'.
Qed.


End RetrievalCases.




(** ** The bounded history *)

Section HistoryFacts.
Import PyNum AnalyticsManager.
Context {A : Type}.

Lemma maxlen_pos : (0 < maxlen)%nat.
Proof. unfold maxlen. lia. Qed.

Lemma maxlen_window : (1000 <= maxlen)%nat.
Proof. unfold maxlen. lia. Qed.

Lemma last_n_short (n : nat) (xs : list A) :
  (length xs <= n)%nat -> last_n n xs = xs.
Proof.
  intros H. unfold last_n. by replace (length xs - n)%nat with 0%nat by lia.
Qed.

Lemma length_last_n (n : nat) (xs : list A) :
  length (last_n n xs) = Nat.min n (length xs).
Proof. unfold last_n. rewrite length_drop. lia. Qed.

Lemma last_n_suffix (n : nat) (xs : list A) :
  xs = take (length xs - n) xs ++ last_n n xs.
Proof. unfold last_n. by rewrite take_drop. Qed.

Lemma last_n_last_n (n m : nat) (xs : list A) :
  (n <= m)%nat -> last_n n (last_n m xs) = last_n n xs.
Proof.
  intros H. unfold last_n. rewrite drop_drop, length_drop. f_equal. lia.
Qed.

Lemma last_n_snoc_nonempty (n : nat) (xs : list A) (x : A) :
  (0 < n)%nat -> last_n n (xs ++ [x]) <> [].
Proof.
  intros Hn H. apply (f_equal length) in H.
  rewrite length_last_n, length_app in H. cbn [length] in H. lia.
Qed.

(** A [deque(maxlen=n)] holds the last [n] elements appended to it. *)
Lemma deque_append_last_n (n : nat) (all : list A) (x : A) :
  deque_append n (last_n n all) x = last_n n (all ++ [x]).
Proof.
  unfold deque_append. rewrite length_last_n.
  destruct (Nat.ltb_spec (Nat.min n (length all)) n) as [Hlt | Hge].
  - rewrite (last_n_short n all) by lia.
    rewrite last_n_short; [done|]. rewrite length_app. simpl. lia.
  - unfold last_n. rewrite length_app. simpl.
    rewrite <- drop_app_le by lia. change (skipn 1) with (@drop A 1).
    rewrite drop_drop. f_equal. lia.
Qed.

Lemma length_deque_append (n : nat) (d : list A) (x : A) :
  (length d <= n)%nat -> (length (deque_append n d x) <= n)%nat.
Proof.
  intros H. unfold deque_append.
  destruct (Nat.ltb_spec (length d) n) as [Hlt | Hge].
  - rewrite length_app. simpl. lia.
  - change (skipn 1) with (@drop A 1).
    rewrite length_drop, length_app. simpl. lia.
Qed.

End HistoryFacts.

Lemma last_n_map {A B : Type} (f : A -> B) (n : nat) (xs : list A) :
  PyNum.last_n n (map f xs) = map f (PyNum.last_n n xs).
Proof. unfold PyNum.last_n. by rewrite length_map, skipn_map. Qed.

(** ** One call of [log_query] *)

Section LogQueryFacts.
Import Py PyNum AnalyticsManager.

Lemma update_running_averages_fields (self : t) :
  query_history (_update_running_averages self) = query_history self /\
  session_data (_update_running_averages self) = session_data self /\
  agent_metrics (_update_running_averages self) = agent_metrics self /\
  feedback_data (_update_running_averages self) = feedback_data self /\
  initialized (_update_running_averages self) = initialized self /\
  total_queries (system_metrics (_update_running_averages self)) =
    total_queries (system_metrics self) /\
  total_sessions (system_metrics (_update_running_averages self)) =
    total_sessions (system_metrics self) /\
  satisfaction_score (system_metrics (_update_running_averages self)) =
    satisfaction_score (system_metrics self) /\
  agent_distribution (system_metrics (_update_running_averages self)) =
    agent_distribution (system_metrics self).
Proof.
  unfold _update_running_averages.
  destruct (query_history self) eqn:E; [by rewrite E|].
  destruct (last_n 1000 _); simpl; by rewrite ?E.
Qed.

Lemma update_running_averages_avg (self : t) :
  last_n 1000 (query_history self) <> [] ->
  avg_response_time (system_metrics (_update_running_averages self)) =
    round2 (float_mean (map qd_response_time (last_n 1000 (query_history self)))).
Proof.
  intros H. unfold _update_running_averages.
  destruct (query_history self) as [|r h] eqn:E; [done|].
  destruct (last_n 1000 (r :: h)) eqn:E'; [done|].
  reflexivity.
Qed.

Lemma log_query_raises_spec (self : t) (c : QueryCall) :
  log_query_raises self c =
    match counter_incr (qc_agent_type c) (agent_distribution (system_metrics self)) with
    | inl e => Some e
    | inr _ => None
    end.
Proof.
  unfold log_query_raises, log_query_body. unfold_py. simpl.
  by destruct (counter_incr _ _).
Qed.

Lemma log_query_faulted (self : t) (c : QueryCall) (e : exn) :
  log_query_raises self c = Some e ->
  call_log_query self c = half_logged self c.
Proof.
  rewrite log_query_raises_spec.
  unfold call_log_query, log_query, log_query_body. unfold_py. simpl.
  by destruct (counter_incr _ _).
Qed.

End LogQueryFacts.

Ltac running_averages_fields :=
  match goal with
  | |- context [AnalyticsManager._update_running_averages ?x] =>
      let H := fresh in
      pose proof (update_running_averages_fields x) as H;
      destruct H as (H1 & H2 & H3 & H4 & H5 & H6 & H7 & H8 & H9);
      rewrite ?H1, ?H2, ?H3, ?H4, ?H5, ?H6, ?H7, ?H8, ?H9;
      clear H1 H2 H3 H4 H5 H6 H7 H8 H9
  end.

Section LogQueryCalls.
Import Py PyNum AnalyticsManager.

Lemma log_query_history (self : t) (c : QueryCall) :
  query_history (call_log_query self c) = appended self c.
Proof.
  unfold call_log_query, log_query, log_query_body. unfold_py. simpl.
  destruct (counter_incr _ _); simpl; [done|].
  running_averages_fields. simpl.
  by destruct (session_data self !! qc_session_id c).
Qed.

Lemma log_query_total_queries (self : t) (c : QueryCall) :
  total_queries (system_metrics (call_log_query self c)) =
    total_queries (system_metrics self) + 1.
Proof.
  unfold call_log_query, log_query, log_query_body. unfold_py. simpl.
  destruct (counter_incr _ _); simpl; [done|].
  running_averages_fields. simpl.
  by destruct (session_data self !! qc_session_id c).
Qed.

Lemma log_query_feedback (self : t) (c : QueryCall) :
  feedback_data (call_log_query self c) = feedback_data self /\
  satisfaction_score (system_metrics (call_log_query self c)) =
    satisfaction_score (system_metrics self).
Proof.
  unfold call_log_query, log_query, log_query_body. unfold_py. simpl.
  destruct (counter_incr _ _); simpl; [done|].
  running_averages_fields. simpl.
  by destruct (session_data self !! qc_session_id c).
Qed.

(** What a call that does not raise does to the aggregates. *)
Lemma log_query_completed (self : t) (c : QueryCall) (dist : Counter) :
  counter_incr (qc_agent_type c) (agent_distribution (system_metrics self)) = inr dist ->
  let self' := call_log_query self c in
  agent_distribution (system_metrics self') = dist /\
  agent_metrics self' =
    <[qc_agent_type c :=
        default [] (agent_metrics self !! qc_agent_type c) ++ [sample_of c]]>
      (agent_metrics self) /\
  session_data self' =
    alter (session_append (record_of c) (qc_response_time c) (qc_now c))
          (qc_session_id c)
          (match session_data self !! qc_session_id c with
           | Some _ => session_data self
           | None => <[qc_session_id c := new_session (qc_customer_id c) (qc_now c)]>
                       (session_data self)
           end) /\
  total_sessions (system_metrics self') =
    (match session_data self !! qc_session_id c with
     | Some _ => total_sessions (system_metrics self)
     | None => total_sessions (system_metrics self) + 1
     end) /\
  avg_response_time (system_metrics self') =
    round2 (float_mean (map qd_response_time (last_n 1000 (appended self c)))).
Proof.
  intros Hd. cbv zeta.
  assert (last_n 1000 (appended self c) <> []) as Hne.
  { intros H. apply (f_equal length) in H. rewrite length_last_n in H.
    assert (0 < length (appended self c))%nat as Hpos.
    { unfold appended, deque_append. pose proof maxlen_pos.
      destruct (Nat.ltb_spec (length (query_history self)) maxlen).
      - rewrite length_app. cbn [length]. lia.
      - change (skipn 1) with (@drop QueryData 1).
        rewrite length_drop, length_app. cbn [length]. lia. }
    change (length (@nil QueryData)) with 0%nat in H. lia. }
  unfold call_log_query, log_query, log_query_body. unfold_py. simpl.
  rewrite Hd. simpl.
  rewrite update_running_averages_avg.
  - running_averages_fields. simpl.
    by destruct (session_data self !! qc_session_id c).
  - simpl. by destruct (session_data self !! qc_session_id c).
Qed.

End LogQueryCalls.

(** ** Sequences of [log_query] calls *)

Section LogQueriesFacts.
Import Py PyNum AnalyticsManager.

Lemma log_queries_snoc (self : t) (cs : list QueryCall) (c : QueryCall) :
  log_queries self (cs ++ [c]) = call_log_query (log_queries self cs) c.
Proof. unfold log_queries. by rewrite fold_left_app. Qed.

Lemma log_queries_history (all : list QueryData) (cs : list QueryCall) (self : t) :
  query_history self = last_n maxlen all ->
  query_history (log_queries self cs) = last_n maxlen (all ++ map record_of cs).
Proof.
  revert all self. induction cs as [|c cs IH]; intros all self H; simpl.
  - by rewrite app_nil_r.
  - rewrite (IH (all ++ [record_of c])).
    + by rewrite <- app_assoc.
    + rewrite log_query_history. unfold appended.
      rewrite H. apply deque_append_last_n.
Qed.

Lemma log_queries_total_queries (cs : list QueryCall) (self : t) :
  total_queries (system_metrics (log_queries self cs)) =
    total_queries (system_metrics self) + Z.of_nat (length cs).
Proof.
  revert self. induction cs as [|c cs IH]; intros self.
  - simpl. lia.
  - cbn [log_queries fold_left length]. fold (log_queries (call_log_query self c) cs).
    rewrite IH, log_query_total_queries. lia.
Qed.

Lemma log_queries_history_bound (cs : list QueryCall) (self : t) :
  (length (query_history self) <= maxlen)%nat ->
  (length (query_history (log_queries self cs)) <= maxlen)%nat.
Proof.
  revert self. induction cs as [|c cs IH]; intros self H; [done|].
  cbn [log_queries fold_left]. apply IH.
  rewrite log_query_history. by apply length_deque_append.
Qed.

Lemma filter_snoc {A} (P : A -> Prop) `{!forall x, Decision (P x)} (l : list A) (x : A) :
  filter P (l ++ [x]) = filter P l ++ (if decide (P x) then [x] else []).
Proof. by rewrite filter_app, filter_cons, filter_nil. Qed.

Lemma tracks_init : tracks __init__ [].
Proof.
  unfold tracks. simpl. repeat split; try done.
  exists ∅. split; [done|]. intros a. by rewrite lookup_empty.
Qed.

Lemma tracks_step (self : t) (cs : list QueryCall) (c : QueryCall) :
  tracks self cs -> tracks (call_log_query self c) (cs ++ [c]).
Proof.
  intros (Hh & Hq & (m & Hm & Hd) & Ha & Hs).
  destruct (log_query_completed self c
              (DefaultDict (<[qc_agent_type c := default 0 (m !! qc_agent_type c) + 1]> m)))
    as (Hd' & Ha' & Hs' & _ & _).
  { by rewrite Hm. }
  unfold tracks. repeat split.
  - rewrite log_query_history. unfold appended. rewrite Hh, map_app.
    apply deque_append_last_n.
  - rewrite log_query_total_queries, Hq, length_app. simpl. lia.
  - eexists. split; [exact Hd'|]. intros a. specialize (Hd a).
    rewrite filter_snoc, length_app, lookup_insert.
    case_decide; [subst a|]; rewrite Hd; simpl; lia.
  - intros a. specialize (Ha a).
    rewrite Ha', filter_snoc, map_app, lookup_insert.
    case_decide; [subst a|]; rewrite Ha; simpl; by rewrite ?app_nil_r.
  - intros sid. rewrite Hs', filter_snoc, map_app, lookup_alter, <- Hs.
    repeat case_decide; try congruence; subst; simpl.
    + destruct (session_data self !! qc_session_id c) as [se|] eqn:E.
      * by rewrite E.
      * by rewrite lookup_insert_eq.
    + rewrite app_nil_r.
      destruct (session_data self !! qc_session_id c) as [se|] eqn:E; [done|].
      by rewrite lookup_insert_ne.
Qed.

Lemma tracks_log_queries (cs : list QueryCall) : tracks (log_queries __init__ cs) cs.
Proof.
  induction cs as [|c cs IH] using rev_ind.
  - apply tracks_init.
  - rewrite log_queries_snoc. by apply tracks_step.
Qed.

(** A manager that has not loaded the sample data never raises. *)
Lemma fresh_manager_never_raises (cs : list QueryCall) (c : QueryCall) :
  log_query_raises (log_queries __init__ cs) c = None.
Proof.
  destruct (tracks_log_queries cs) as (_ & _ & (m & Hm & _) & _).
  by rewrite log_query_raises_spec, Hm.
Qed.

Lemma log_query_aggregates (self : t) (h : list QueryData) (c : QueryCall) :
  aggregates (call_log_query (with_query_history h self) c) =
  aggregates (call_log_query self c).
Proof.
  unfold aggregates, call_log_query, log_query, log_query_body. unfold_py. simpl.
  destruct (counter_incr _ _); simpl; [done|].
  repeat running_averages_fields. simpl.
  by destruct (session_data self !! qc_session_id c).
Qed.

End LogQueriesFacts.

(** C2: a manager that has logged the calls [cs] since its construction
    holds at most 10000 records, namely the last 10000 of them in
    insertion order; after 10001 calls it holds exactly 10000, all but the
    first one; and the ones that were evicted still count: [total_queries]
    is the number of all calls, [agent_distribution] and the per-agent
    samples cover all calls, and every session holds all of its records.
    In any state, the aggregates after a call do not depend on what the
    history holds, so they are the same whether or not a record is
    evicted; the bound is kept from any state that meets it; and from
    any state with an empty history, loaded with the sample data or not,
    the history is the last 10000 records logged. *)
Theorem history_ring_buffer (cs : list AnalyticsManager.QueryCall) :
  let self := AnalyticsManager.log_queries AnalyticsManager.__init__ cs in
  let records := map AnalyticsManager.record_of cs in
  Z.of_nat AnalyticsManager.maxlen = 10000 /\
  Z.of_nat (length (AnalyticsManager.query_history self)) <= 10000 /\
  AnalyticsManager.query_history self =
    PyNum.last_n AnalyticsManager.maxlen records /\
  (Z.of_nat (length cs) = 10001 ->
     Z.of_nat (length (AnalyticsManager.query_history self)) = 10000 /\
     AnalyticsManager.query_history self = tail records /\
     (NoDup records ->
      forall first, head records = Some first ->
        ~ In first (AnalyticsManager.query_history self))) /\
  AnalyticsManager.total_queries (AnalyticsManager.system_metrics self) =
    Z.of_nat (length cs) /\
  (forall a,
     default 0 (AnalyticsManager.counter_items
                  (AnalyticsManager.agent_distribution
                     (AnalyticsManager.system_metrics self)) !! a) =
     Z.of_nat (length (filter (fun c => AnalyticsManager.qc_agent_type c = a) cs))) /\
  (forall a,
     default [] (AnalyticsManager.agent_metrics self !! a) =
     map AnalyticsManager.sample_of
         (filter (fun c => AnalyticsManager.qc_agent_type c = a) cs)) /\
  (forall sid,
     default [] (AnalyticsManager.se_queries <$>
                 AnalyticsManager.session_data self !! sid) =
     map AnalyticsManager.record_of
         (filter (fun c => AnalyticsManager.qc_session_id c = sid) cs)) /\
  (forall (other : AnalyticsManager.t) (h : list AnalyticsManager.QueryData) c,
     aggregates (AnalyticsManager.call_log_query
                   (AnalyticsManager.with_query_history h other) c) =
     aggregates (AnalyticsManager.call_log_query other c)) /\
  (forall (other : AnalyticsManager.t) cs',
     Z.of_nat (length (AnalyticsManager.query_history other)) <= 10000 ->
     Z.of_nat (length (AnalyticsManager.query_history
                         (AnalyticsManager.log_queries other cs'))) <= 10000) /\
  (forall (other : AnalyticsManager.t) cs',
     AnalyticsManager.query_history other = [] ->
     AnalyticsManager.query_history (AnalyticsManager.log_queries other cs') =
       PyNum.last_n AnalyticsManager.maxlen (map AnalyticsManager.record_of cs')).
Proof.
  cbv zeta.
  assert (Z.of_nat AnalyticsManager.maxlen = 10000) as Hmax by reflexivity.
  destruct (tracks_log_queries cs) as (Hh & Hq & (m & Hm & Hd) & Ha & Hs).
  assert (length (PyNum.last_n AnalyticsManager.maxlen
                    (map AnalyticsManager.record_of cs))
          = Nat.min AnalyticsManager.maxlen (length cs)) as Hlen
    by (by rewrite length_last_n, length_map).
  split; [done|].
  split; [rewrite Hh, Hlen; lia|].
  split; [done|].
  split.
  { intros Hn. rewrite Hh.
    assert (PyNum.last_n AnalyticsManager.maxlen (map AnalyticsManager.record_of cs)
            = tail (map AnalyticsManager.record_of cs)) as Htl.
    { unfold PyNum.last_n. rewrite length_map.
      replace (length cs - AnalyticsManager.maxlen)%nat with 1%nat by lia.
      by destruct (map AnalyticsManager.record_of cs). }
    split; [rewrite Hlen; lia|]. split; [done|].
    rewrite Htl. intros Hnd first Hfirst Hin.
    destruct (map AnalyticsManager.record_of cs) as [|r rs]; [done|].
    injection Hfirst as ->. apply NoDup_cons in Hnd as [Hnd _].
    apply Hnd. by apply list_elem_of_In. }
  split; [done|].
  split; [intros a; rewrite Hm; apply Hd|].
  split; [done|].
  split; [done|].
  split; [apply log_query_aggregates|].
  split.
  - intros other cs' H.
    pose proof (log_queries_history_bound cs' other). lia.
  - intros other cs' H.
    by rewrite (log_queries_history [] cs' other), app_nil_l by (by rewrite H).
Qed.

Lemma history_ring_buffer_witness :
  let call_at (i : nat) :=
    {| AnalyticsManager.qc_query := "How do I reset my password?";
       AnalyticsManager.qc_response := "Click Forgot Password.";
       AnalyticsManager.qc_agent_type := "technical";
       AnalyticsManager.qc_confidence := 85 # 100;
       AnalyticsManager.qc_response_time := 1 # 2;
       AnalyticsManager.qc_customer_id := "customer";
       AnalyticsManager.qc_session_id := "session";
       AnalyticsManager.qc_now := Z.of_nat i |} in
  let cs := map call_at (seq 0 (S AnalyticsManager.maxlen)) in
  let self := AnalyticsManager.log_queries AnalyticsManager.__init__ cs in
  Z.of_nat (length (AnalyticsManager.query_history self)) = 10000 /\
  AnalyticsManager.query_history self = tail (map AnalyticsManager.record_of cs).
Proof.
  cbv zeta.
  assert (Z.of_nat (length (map
            (fun i : nat =>
               {| AnalyticsManager.qc_query := "How do I reset my password?";
                  AnalyticsManager.qc_response := "Click Forgot Password.";
                  AnalyticsManager.qc_agent_type := "technical";
                  AnalyticsManager.qc_confidence := 85 # 100;
                  AnalyticsManager.qc_response_time := 1 # 2;
                  AnalyticsManager.qc_customer_id := "customer";
                  AnalyticsManager.qc_session_id := "session";
                  AnalyticsManager.qc_now := Z.of_nat i |})
            (seq 0 (S AnalyticsManager.maxlen)))) = 10001) as Hlen.
  { rewrite length_map, length_seq. reflexivity. }
  destruct (proj1 (proj2 (proj2 (proj2 (history_ring_buffer _)))) Hlen)
    as (H1 & H2 & _).
  exact (conj H1 H2).
Defined.

(** ** The rolling average *)

(** What [round] reads is the float that [statistics.mean] returned, not
    the exact mean: the mean of 0.125 and 0.125 + 2 ** -55 lies above the
    tie 0.125 but is the float 0.125, which rounds to 0.12, and the float
    nearest to 2.675 lies below the tie and rounds to 2.67. *)
Lemma round_reads_the_float :
  let tie := (1 # 8)%Q in
  let above := ((1 # 8) + PyNum.pow2 (-55))%Q in
  Qeq_bool (PyNum.float_of tie) tie = true /\
  Qeq_bool (PyNum.float_of above) above = true /\
  Qeq_bool (PyNum.round2 (PyNum.mean [tie; above])) (13 # 100) = true /\
  Qeq_bool (PyNum.round2 (PyNum.float_mean [tie; above])) (12 # 100) = true /\
  Qeq_bool (PyNum.round2 (2675 # 1000)) (268 # 100) = true /\
  Qeq_bool (PyNum.round2 (PyNum.float_mean [2675 # 1000])) (267 # 100) = true.
Proof. repeat split; vm_compute; reflexivity. Qed.

(** C3, as stated, fails: the metric is the mean rounded to two decimal
    places.  One call with response time 1.234 leaves 1.23. *)
Lemma avg_response_time_is_rounded :
  let c :=
    {| AnalyticsManager.qc_query := "How do I reset my password?";
       AnalyticsManager.qc_response := "Click Forgot Password.";
       AnalyticsManager.qc_agent_type := "technical";
       AnalyticsManager.qc_confidence := 85 # 100;
       AnalyticsManager.qc_response_time := 1234 # 1000;
       AnalyticsManager.qc_customer_id := "customer";
       AnalyticsManager.qc_session_id := "session";
       AnalyticsManager.qc_now := 0 |} in
  let self := AnalyticsManager.log_queries AnalyticsManager.__init__ [c] in
  let avg := AnalyticsManager.avg_response_time (AnalyticsManager.system_metrics self) in
  avg = 123 # 100 /\
  Qeq_bool (PyNum.mean [1234 # 1000]) (1234 # 1000) = true /\
  Qeq_bool avg (PyNum.mean [1234 # 1000]) = false /\
  Qeq_bool avg (PyNum.float_mean [1234 # 1000]) = false.
Proof.
  cbv zeta. repeat split; vm_compute; reflexivity.
Qed.

(** C3, amended: after a sequence of N >= 1 [log_query] calls on a manager
    whose history was empty, the last of which does not raise,
    [avg_response_time] is [round(m, 2)], where [m] is the float that
    [statistics.mean] returns for the response times of the most recent
    [min(N, 1000)] calls (the float nearest to their arithmetic mean): of
    all of them when N <= 1000, of the last 1000 when N > 1000. *)
Theorem avg_response_time_rolling
    (self0 : AnalyticsManager.t) (cs : list AnalyticsManager.QueryCall)
    (c : AnalyticsManager.QueryCall) :
  AnalyticsManager.query_history self0 = [] ->
  AnalyticsManager.log_query_raises (AnalyticsManager.log_queries self0 cs) c = None ->
  let times := map AnalyticsManager.qc_response_time (cs ++ [c]) in
  let self := AnalyticsManager.log_queries self0 (cs ++ [c]) in
  AnalyticsManager.avg_response_time (AnalyticsManager.system_metrics self) =
    PyNum.round2 (PyNum.float_mean (PyNum.last_n 1000 times)) /\
  ((length times <= 1000)%nat -> PyNum.last_n 1000 times = times) /\
  ((1000 < length times)%nat ->
     length (PyNum.last_n 1000 times) = 1000%nat /\
     times = take (length times - 1000) times ++ PyNum.last_n 1000 times).
Proof.
  intros Hempty Hok. cbv zeta. split; [|split].
  - rewrite log_queries_snoc.
    rewrite log_query_raises_spec in Hok.
    destruct (AnalyticsManager.counter_incr _ _) as [e|dist] eqn:Hd; [done|].
    destruct (log_query_completed _ c dist Hd) as (_ & _ & _ & _ & ->).
    unfold appended.
    rewrite (log_queries_history [] cs self0) by (by rewrite Hempty).
    rewrite app_nil_l, deque_append_last_n.
    rewrite last_n_last_n by apply maxlen_window.
    rewrite <- last_n_map. do 3 f_equal.
    rewrite !map_app, map_map. reflexivity.
  - apply last_n_short.
  - intros H. split; [rewrite length_last_n; lia | apply last_n_suffix].
Qed.

Lemma avg_response_time_rolling_witness :
  let call_with (response_time : Q) :=
    {| AnalyticsManager.qc_query := "How do I reset my password?";
       AnalyticsManager.qc_response := "Click Forgot Password.";
       AnalyticsManager.qc_agent_type := "technical";
       AnalyticsManager.qc_confidence := 85 # 100;
       AnalyticsManager.qc_response_time := response_time;
       AnalyticsManager.qc_customer_id := "customer";
       AnalyticsManager.qc_session_id := "session";
       AnalyticsManager.qc_now := 0 |} in
  let cs := [call_with (3 # 2); call_with (1 # 4)] in
  AnalyticsManager.avg_response_time
    (AnalyticsManager.system_metrics
       (AnalyticsManager.log_queries (AnalyticsManager.initialize AnalyticsManager.__init__) cs)) =
  PyNum.round2 (PyNum.float_mean (PyNum.last_n 1000 [3 # 2; 1 # 4])).
Proof.
  cbv zeta.
  refine (proj1 (avg_response_time_rolling
                   (AnalyticsManager.initialize AnalyticsManager.__init__)
                   [_] _ _ _)); reflexivity.
Defined.

(** ** The seeded snapshot *)

(** C10: right after [initialize], the snapshot reports the sample
    values, and [total_queries] then grows by one with every call of
    [log_query], whether it raises or not. *)
Theorem seeded_snapshot (now now' : Z) (cs : list AnalyticsManager.QueryCall) :
  let seeded := AnalyticsManager.initialize AnalyticsManager.__init__ in
  let snapshot := AnalyticsManager.get_analytics seeded now in
  AnalyticsManager.an_total_queries snapshot = 1247 /\
  AnalyticsManager.an_total_sessions snapshot = 423 /\
  AnalyticsManager.an_avg_response_time snapshot = 12 # 10 /\
  AnalyticsManager.an_satisfaction_score snapshot = 46 # 10 /\
  AnalyticsManager.an_agent_distribution snapshot =
    <["technical"%string := 45]>
      (<["billing"%string := 30]> (<["general"%string := 25]> ∅)) /\
  AnalyticsManager.an_total_queries
    (AnalyticsManager.get_analytics (AnalyticsManager.log_queries seeded cs) now') =
    1247 + Z.of_nat (length cs).
Proof.
  cbv zeta. repeat split.
  unfold AnalyticsManager.get_analytics. cbn [AnalyticsManager.an_total_queries].
  by rewrite log_queries_total_queries.
Qed.

(** ** Faults while logging *)

Section FeedbackFacts.
Import Py PyNum AnalyticsManager.

Lemma int_mean_value (data : list Z) (m : Q) :
  int_mean data = inr m -> m = mean (map inject_Z data).
Proof.
  unfold int_mean. cbv zeta.
  destruct (Qden _ =? 1)%positive; [congruence|].
  destruct (Qle_bool _ _); [discriminate | congruence].
Qed.

Lemma int_mean_raises (data : list Z) (e : exn) :
  int_mean data = inl e ->
  e = OverflowError /\
  (float_overflow <= Qabs (mean (map inject_Z data)))%Q.
Proof.
  unfold int_mean. cbv zeta.
  destruct (Qden _ =? 1)%positive; [discriminate|].
  destruct (Qle_bool _ _) eqn:E; [|discriminate].
  intros [= <-]. split; [done|]. by apply Qle_bool_iff.
Qed.

(** One call of [log_feedback]: the record is appended whatever
    happens; the score is the new mean when [statistics.mean] returns
    one and is left alone when it raises; nothing else changes. *)
Lemma log_feedback_spec (self : t) (c : FeedbackCall) :
  let self' := call_log_feedback self c in
  let ratings := map fb_rating (feedback_data self) ++ [fc_rating c] in
  feedback_data self' = feedback_data self ++ [feedback_of c] /\
  satisfaction_score (system_metrics self') =
    match int_mean ratings with
    | inr m => m
    | inl _ => satisfaction_score (system_metrics self)
    end /\
  query_history self' = query_history self /\
  session_data self' = session_data self /\
  agent_metrics self' = agent_metrics self /\
  total_queries (system_metrics self') = total_queries (system_metrics self) /\
  total_sessions (system_metrics self') = total_sessions (system_metrics self) /\
  avg_response_time (system_metrics self') = avg_response_time (system_metrics self) /\
  agent_distribution (system_metrics self') = agent_distribution (system_metrics self) /\
  log_feedback_raises self c =
    match int_mean ratings with inr _ => None | inl e => Some e end.
Proof.
  cbv zeta.
  unfold log_feedback_raises, call_log_feedback, log_feedback, log_feedback_body.
  unfold_py. cbn [fst snd feedback_data with_feedback_data]. fold (feedback_of c).
  destruct (feedback_data self ++ [feedback_of c]) as [|f fs] eqn:E.
  { by destruct (feedback_data self). }
  rewrite <- E. clear E f fs.
  replace (map fb_rating (feedback_data self ++ [feedback_of c]))
    with (map fb_rating (feedback_data self) ++ [fc_rating c])
    by (by rewrite map_app).
  by destruct (int_mean (map fb_rating (feedback_data self) ++ [fc_rating c]));
    destruct self.
Qed.

Lemma run_snoc (self : t) (cs : list call) (c : call) :
  run self (cs ++ [c]) = step (run self cs) c.
Proof. unfold run. by rewrite fold_left_app. Qed.

Lemma ratings_of_snoc (cs : list call) (c : call) :
  ratings_of (cs ++ [c]) = ratings_of cs ++ ratings_of [c].
Proof. unfold ratings_of. by rewrite flat_map_app. Qed.

(** Over a sequence of calls: every rating is stored, and the score is
    the mean of all of them whenever [statistics.mean] returns it. *)
Lemma run_feedback (self0 : t) (cs : list call) :
  feedback_data self0 = [] ->
  let self := run self0 cs in
  map fb_rating (feedback_data self) = ratings_of cs /\
  match ratings_of cs with
  | [] => satisfaction_score (system_metrics self) =
          satisfaction_score (system_metrics self0)
  | _ :: _ =>
      forall m, int_mean (ratings_of cs) = inr m ->
        satisfaction_score (system_metrics self) = m
  end.
Proof.
  intros H0. cbv zeta. induction cs as [|c cs [IHf IHs]] using rev_ind.
  - simpl. by rewrite H0.
  - rewrite run_snoc, ratings_of_snoc. destruct c as [q|f]; simpl.
    + destruct (log_query_feedback (run self0 cs) q) as [-> ->].
      by rewrite app_nil_r.
    + destruct (log_feedback_spec (run self0 cs) f) as (-> & -> & _).
      rewrite map_app, IHf. simpl. split; [done|].
      destruct (ratings_of cs ++ [fc_rating f]) eqn:E.
      { by destruct (ratings_of cs). }
      intros m ->. done.
Qed.

(** When the mean of all ratings is beyond the floats, the score is the
    one from before the last [log_feedback] call. *)
Lemma run_feedback_stale (self0 : t) (cs : list call) (e : exn) :
  feedback_data self0 = [] ->
  int_mean (ratings_of cs) = inl e ->
  ratings_of cs <> [] ->
  exists before f after,
    cs = before ++ LogFeedback f :: after /\
    ratings_of after = [] /\
    satisfaction_score (system_metrics (run self0 cs)) =
    satisfaction_score (system_metrics (run self0 before)).
Proof.
  intros H0. induction cs as [|c cs IH] using rev_ind; [done|].
  rewrite ratings_of_snoc, run_snoc. destruct c as [q|f]; simpl.
  - rewrite app_nil_r. intros He Hne.
    destruct (IH He Hne) as (before & f & after & -> & Hafter & Hs).
    exists before, f, (after ++ [LogQuery q]). split; [by rewrite <- app_assoc|].
    split; [by rewrite ratings_of_snoc, Hafter|].
    by destruct (log_query_feedback (run self0 (before ++ LogFeedback f :: after)) q)
      as [_ ->].
  - intros He _. exists cs, f, []. split; [done|]. split; [done|].
    destruct (log_feedback_spec (run self0 cs) f) as (_ & -> & _).
    destruct (run_feedback self0 cs H0) as [-> _]. by rewrite He.
Qed.

(** Ratings of bounded size never bring the mean beyond the floats. *)
Lemma sum_inject_Z_bounds (bound : Z) (data : list Z) :
  Forall (fun r => - bound <= r <= bound) data ->
  (- inject_Z (bound * Z.of_nat (length data)) <= sum (map inject_Z data) <=
   inject_Z (bound * Z.of_nat (length data)))%Q.
Proof.
  induction 1 as [|r data Hr _ IH].
  { cbn [map sum fold_right length]. rewrite Z.mul_0_r. by split. }
  cbn [map sum fold_right length]. rewrite Nat2Z.inj_succ.
  replace (bound * Z.succ (Z.of_nat (length data)))
    with (bound + bound * Z.of_nat (length data)) by lia.
  rewrite inject_Z_plus. destruct IH as [IH1 IH2].
  assert (- inject_Z bound <= inject_Z r <= inject_Z bound)%Q as [H1 H2].
  { rewrite <- inject_Z_opp, <- !Zle_Qle. lia. }
  rewrite Qopp_plus. split; by apply Qplus_le_compat.
Qed.

Lemma int_mean_bounded (data : list Z) :
  data <> [] ->
  Forall (fun r => - 2 ^ 1023 <= r <= 2 ^ 1023) data ->
  int_mean data = inr (mean (map inject_Z data)).
Proof.
  intros Hne Hb. unfold int_mean. cbv zeta.
  destruct (Qden _ =? 1)%positive; [done|].
  destruct (Qle_bool _ _) eqn:E; [|done]. exfalso.
  apply Qle_bool_iff in E.
  assert (Qabs (mean (map inject_Z data)) <= inject_Z (2 ^ 1023))%Q as Hm.
  { apply Qabs_Qle_condition. unfold mean. rewrite length_map.
    assert (0 < inject_Z (Z.of_nat (length data)))%Q as Hn.
    { rewrite <- (Zlt_Qlt 0). destruct data; [done | simpl; lia]. }
    destruct (sum_inject_Z_bounds (2 ^ 1023) data Hb) as [H1 H2].
    rewrite inject_Z_mult in H1, H2. split.
    - apply Qle_shift_div_l; [done|]. eapply Qle_trans; [|exact H1].
      apply Qle_lteq. right. ring.
    - by apply Qle_shift_div_r. }
  pose proof (Qle_trans _ _ _ E Hm) as Habs.
  unfold float_overflow in Habs. rewrite <- Zle_Qle in Habs.
  revert Habs. apply Z.lt_nge. vm_compute. reflexivity.
Qed.

End FeedbackFacts.

(** A fault of [log_query]: [_load_historical_data] stores a plain
    dictionary where the constructor had a [defaultdict], so after
    [initialize] a record of an agent type that the sample data lack
    raises a [KeyError] at the distribution counter, after the history
    append and the [total_queries] increment. *)
Lemma log_query_fault_is_partial :
  let c :=
    {| AnalyticsManager.qc_query := "hello";
       AnalyticsManager.qc_response := "I apologize, but I'm experiencing technical difficulties. Please try again or contact human support.";
       AnalyticsManager.qc_agent_type := "error";
       AnalyticsManager.qc_confidence := 0;
       AnalyticsManager.qc_response_time := 1 # 2;
       AnalyticsManager.qc_customer_id := "customer";
       AnalyticsManager.qc_session_id := "session";
       AnalyticsManager.qc_now := 0 |} in
  let before := AnalyticsManager.initialize AnalyticsManager.__init__ in
  let after := AnalyticsManager.call_log_query before c in
  AnalyticsManager.log_query_raises before c = Some (Py.KeyError "error") /\
  AnalyticsManager.query_history before = [] /\
  AnalyticsManager.query_history after = [AnalyticsManager.record_of c] /\
  AnalyticsManager.total_queries (AnalyticsManager.system_metrics before) = 1247 /\
  AnalyticsManager.total_queries (AnalyticsManager.system_metrics after) = 1248 /\
  AnalyticsManager.agent_distribution (AnalyticsManager.system_metrics after) =
    AnalyticsManager.agent_distribution (AnalyticsManager.system_metrics before) /\
  AnalyticsManager.agent_metrics after = ∅ /\
  AnalyticsManager.session_data after = ∅ /\
  AnalyticsManager.total_sessions (AnalyticsManager.system_metrics after) = 423 /\
  AnalyticsManager.avg_response_time (AnalyticsManager.system_metrics after) = 12 # 10.
Proof.
  cbv zeta. repeat split; vm_compute; reflexivity.
Qed.



(** ** Feedback *)

(** C8, as stated, fails twice: a rating outside [1,5] is neither
    rejected nor clamped, it is recorded and enters the mean; and before
    any feedback the score is the constant 4.6, not a mean of ratings. *)
Lemma log_feedback_does_not_validate :
  let fresh := AnalyticsManager.__init__ in
  let after := AnalyticsManager.log_feedback fresh "session" 7 None 0 in
  map AnalyticsManager.fb_rating (AnalyticsManager.feedback_data after) = [7] /\
  (7 <=? 5) = false /\
  AnalyticsManager.satisfaction_score (AnalyticsManager.system_metrics after) = 7 # 1 /\
  AnalyticsManager.feedback_data fresh = [] /\
  AnalyticsManager.satisfaction_score (AnalyticsManager.system_metrics fresh) = 46 # 10.
Proof.
  cbv zeta. repeat split; vm_compute; reflexivity.
Qed.

(** C8, amended: [log_feedback] does not validate the rating: every
    rating is recorded as given.  After any sequence of [log_query] and
    [log_feedback] calls on a manager without feedback,
    [satisfaction_score] is still its initial value (4.6 for a new
    manager, loaded or not) when no rating was given, and otherwise the
    arithmetic mean of all ratings given so far whenever
    [statistics.mean] returns it, as it does when every rating is at most
    2 ** 1023 in absolute value.  When the mean of all ratings is no
    integer and beyond the floats, [statistics.mean] raises in the last
    [log_feedback] call, and the score is the one from before that
    call. *)
Theorem satisfaction_score_mean
    (self0 : AnalyticsManager.t) (cs : list AnalyticsManager.call) :
  AnalyticsManager.feedback_data self0 = [] ->
  let self := AnalyticsManager.run self0 cs in
  let ratings := ratings_of cs in
  let score t :=
    AnalyticsManager.satisfaction_score (AnalyticsManager.system_metrics t) in
  map AnalyticsManager.fb_rating (AnalyticsManager.feedback_data self) = ratings /\
  match ratings with
  | [] => score self = score self0
  | _ :: _ =>
      (forall m, PyNum.int_mean ratings = inr m ->
         score self = PyNum.mean (map inject_Z ratings)) /\
      (Forall (fun r => - 2 ^ 1023 <= r <= 2 ^ 1023) ratings ->
         score self = PyNum.mean (map inject_Z ratings)) /\
      (forall e, PyNum.int_mean ratings = inl e ->
         e = Py.OverflowError /\
         exists before f after,
           cs = before ++ AnalyticsManager.LogFeedback f :: after /\
           ratings_of after = [] /\
           score self = score (AnalyticsManager.run self0 before))
  end /\
  score AnalyticsManager.__init__ = 46 # 10 /\
  score (AnalyticsManager.initialize AnalyticsManager.__init__) = 46 # 10.
Proof.
  intros H0. cbv zeta.
  destruct (run_feedback self0 cs H0) as [Hf Hs].
  split; [done|]. split; [|by split].
  destruct (ratings_of cs) as [|r rs] eqn:E; [done|].
  assert (forall m, PyNum.int_mean (r :: rs) = inr m ->
            AnalyticsManager.satisfaction_score
              (AnalyticsManager.system_metrics (AnalyticsManager.run self0 cs)) =
            PyNum.mean (map inject_Z (r :: rs))) as Hmean.
  { intros m Hm. rewrite (Hs m Hm). by apply int_mean_value. }
  split; [exact Hmean|]. split.
  - intros Hb. apply (Hmean _ (int_mean_bounded (r :: rs) ltac:(done) Hb)).
  - intros e He. split; [by destruct (int_mean_raises _ _ He)|].
    rewrite <- E in He. apply (run_feedback_stale self0 cs e H0 He).
    by rewrite E.
Qed.

Lemma satisfaction_score_mean_witness :
  let cs :=
    [ AnalyticsManager.LogFeedback
        {| AnalyticsManager.fc_session_id := "session";
           AnalyticsManager.fc_rating := 5;
           AnalyticsManager.fc_comment := None;
           AnalyticsManager.fc_now := 0 |};
      AnalyticsManager.LogQuery
        {| AnalyticsManager.qc_query := "How do I reset my password?";
           AnalyticsManager.qc_response := "Click Forgot Password.";
           AnalyticsManager.qc_agent_type := "technical";
           AnalyticsManager.qc_confidence := 85 # 100;
           AnalyticsManager.qc_response_time := 1 # 2;
           AnalyticsManager.qc_customer_id := "customer";
           AnalyticsManager.qc_session_id := "session";
           AnalyticsManager.qc_now := 1 |};
      AnalyticsManager.LogFeedback
        {| AnalyticsManager.fc_session_id := "session";
           AnalyticsManager.fc_rating := 2;
           AnalyticsManager.fc_comment := Some "slow"%string;
           AnalyticsManager.fc_now := 2 |} ] in
  AnalyticsManager.satisfaction_score
    (AnalyticsManager.system_metrics
       (AnalyticsManager.run AnalyticsManager.__init__ cs)) =
  PyNum.mean [5 # 1; 2 # 1].
Proof.
  cbv zeta.
  match goal with
  | |- context [AnalyticsManager.run _ ?cs] =>
      pose proof (satisfaction_score_mean AnalyticsManager.__init__ cs eq_refl) as H
  end.
  cbv zeta in H. destruct H as (_ & H & _).
  unfold ratings_of in H. cbn [flat_map app AnalyticsManager.fc_rating] in H.
  exact (proj1 (proj2 H) ltac:(repeat constructor; lia)).
Defined.

(** ** Hourly volume *)

Section HourlyFacts.
Import AnalyticsManager.

Lemma Zsum_app (l k : list Z) : Zsum (l ++ k) = Zsum l + Zsum k.
Proof. induction l as [|x l IH]; simpl; lia. Qed.

Lemma Zsum_rev (l : list Z) : Zsum (rev l) = Zsum l.
Proof.
  induction l as [|x l IH]; simpl; [done|]. rewrite Zsum_app. simpl. lia.
Qed.

Lemma Zsum_map_add {A} (f g : A -> Z) (l : list A) :
  Zsum (map (fun x => f x + g x) l) = Zsum (map f l) + Zsum (map g l).
Proof. induction l as [|x l IH]; simpl; lia. Qed.

Lemma Zsum_map_zero {A} (l : list A) : Zsum (map (fun _ => 0) l) = 0.
Proof. induction l as [|x l IH]; simpl; lia. Qed.

Lemma HOUR_pos : 0 < HOUR.
Proof. reflexivity. Qed.

Lemma floor_hour_aligned (dt : Z) : floor_hour dt mod HOUR = 0.
Proof.
  unfold floor_hour. pose proof HOUR_pos.
  rewrite Zminus_mod_idemp_r, Z.sub_diag. apply Z.mod_0_l. lia.
Qed.

Lemma sub_hours_aligned (h : Z) (n : Z) :
  h mod HOUR = 0 -> (h - hours n) mod HOUR = 0.
Proof.
  intros H. unfold hours. pose proof HOUR_pos.
  rewrite Zminus_mod, H, Z_mod_mult. reflexivity.
Qed.

(** Truncation to the hour sends exactly the instants of an hour to its
    start. *)
Lemma floor_hour_eq (dt k : Z) :
  k mod HOUR = 0 -> floor_hour dt = k <-> k <= dt < k + HOUR.
Proof.
  intros Hk. unfold floor_hour. pose proof HOUR_pos as Hpos.
  pose proof (Z.mod_pos_bound dt HOUR Hpos) as Hb.
  split; [lia|]. intros Hdt.
  assert (k = HOUR * (k / HOUR)) as Hdiv by (apply Z_div_exact_2; lia).
  assert (dt - k = dt mod HOUR) as <-; [|lia].
  apply (Z.mod_unique dt HOUR (k / HOUR)); lia.
Qed.

Lemma hourly_counts_lookup (queries : list QueryData) (k : Z) :
  default 0 (hourly_counts queries !! k) =
  Z.of_nat (length (filter (fun q => floor_hour (qd_timestamp q) = k) queries)).
Proof.
  unfold hourly_counts.
  assert (forall m : gmap Z Z,
            default 0 (fold_left
              (fun counts query =>
                 <[floor_hour (qd_timestamp query) :=
                     default 0 (counts !! floor_hour (qd_timestamp query)) + 1]> counts)
              queries m !! k) =
            default 0 (m !! k) +
            Z.of_nat (length (filter (fun q => floor_hour (qd_timestamp q) = k) queries)))
    as H.
  { induction queries as [|q queries IH]; intros m.
    - simpl. lia.
    - cbn [fold_left]. rewrite IH, filter_cons, lookup_insert.
      repeat case_decide; try congruence; subst; simpl default; simpl length; lia. }
  rewrite H, lookup_empty. simpl. lia.
Qed.

Lemma bucket_indicator (h0 dt : Z) (n : nat) :
  h0 mod HOUR = 0 ->
  Zsum (map (fun i : nat =>
               if decide (floor_hour dt = h0 - hours (Z.of_nat i)) then 1 else 0)
            (seq 0 n)) =
  if decide (h0 - hours (Z.of_nat n) + HOUR <= dt < h0 + HOUR) then 1 else 0.
Proof.
  intros H0. induction n as [|n IH].
  - simpl. case_decide; [|done]. unfold hours in *. lia.
  - rewrite seq_S, map_app, Zsum_app, IH. simpl.
    pose proof (floor_hour_eq dt (h0 - hours (Z.of_nat n))
                  (sub_hours_aligned h0 _ H0)) as Heq.
    pose proof HOUR_pos. unfold hours in *.
    repeat case_decide; lia.
Qed.

Lemma sum_buckets (queries : list QueryData) (h0 : Z) (n : nat) :
  h0 mod HOUR = 0 ->
  Zsum (map (fun i : nat =>
               Z.of_nat (length (filter
                 (fun q => floor_hour (qd_timestamp q) = h0 - hours (Z.of_nat i))
                 queries)))
            (seq 0 n)) =
  Z.of_nat (length (filter
    (fun q => h0 - hours (Z.of_nat n) + HOUR <= qd_timestamp q < h0 + HOUR) queries)).
Proof.
  intros H0. induction queries as [|q queries IH].
  - simpl. apply Zsum_map_zero.
  - rewrite filter_cons.
    rewrite (map_ext _
      (fun i : nat =>
         (if decide (floor_hour (qd_timestamp q) = h0 - hours (Z.of_nat i))
          then 1 else 0) +
         Z.of_nat (length (filter
           (fun q => floor_hour (qd_timestamp q) = h0 - hours (Z.of_nat i))
           queries)))).
    + rewrite Zsum_map_add, IH, bucket_indicator by done.
      case_decide; simpl length; lia.
    + intros i. rewrite filter_cons. case_decide; simpl length; lia.
Qed.

Lemma hourly_volume_sum (queries : list QueryData) (now : Z) :
  Zsum (map count (_calculate_hourly_volume queries now)) =
  Z.of_nat (length (filter
    (fun q => floor_hour now - hours 23 <= qd_timestamp q < floor_hour now + HOUR)
    queries)).
Proof.
  unfold _calculate_hourly_volume.
  rewrite <- map_rev, rev_involutive || rewrite map_rev, Zsum_rev.
  rewrite map_map. cbn [count].
  rewrite (map_ext _
    (fun i : nat =>
       Z.of_nat (length (filter
         (fun q => floor_hour (qd_timestamp q) = floor_hour now - hours (Z.of_nat i))
         queries)))) by (intros i; apply hourly_counts_lookup).
  rewrite sum_buckets by apply floor_hour_aligned.
  do 2 f_equal. apply list_filter_iff. intros q. unfold hours. lia.
Qed.

Lemma hourly_volume_hours (queries : list QueryData) (now : Z) :
  map hour (_calculate_hourly_volume queries now) =
  map (fun i : nat => floor_hour now - hours (23 - Z.of_nat i)) (seq 0 24).
Proof.
  unfold _calculate_hourly_volume.
  generalize (hourly_counts queries) (floor_hour now). intros counts h0.
  reflexivity.
Qed.

End HourlyFacts.

(** C4, as stated, fails on the sum: a record of the trailing 24 hours
    that is older than the first listed hour is in no bucket.  At 00:30
    of the second day, a record of 00:45 of the first day is 23 h 45 min
    old and counted in [last_24h_queries], and the 24 buckets, which
    start at 01:00 of the first day, sum to 0. *)
Lemma hourly_volume_misses_oldest_hour :
  let c :=
    {| AnalyticsManager.qc_query := "How do I reset my password?";
       AnalyticsManager.qc_response := "Click Forgot Password.";
       AnalyticsManager.qc_agent_type := "technical";
       AnalyticsManager.qc_confidence := 85 # 100;
       AnalyticsManager.qc_response_time := 1 # 2;
       AnalyticsManager.qc_customer_id := "customer";
       AnalyticsManager.qc_session_id := "session";
       AnalyticsManager.qc_now := 45 * 60 * 1000000 |} in
  let self := AnalyticsManager.log_queries AnalyticsManager.__init__ [c] in
  let now := AnalyticsManager.hours 24 + 30 * 60 * 1000000 in
  let snapshot := AnalyticsManager.get_analytics self now in
  length (filter (fun q => now - AnalyticsManager.hours 24
                           < AnalyticsManager.qd_timestamp q <= now)
                 (AnalyticsManager.query_history self)) = 1%nat /\
  AnalyticsManager.an_last_24h_queries snapshot = 1 /\
  Zsum (map AnalyticsManager.count (AnalyticsManager.an_hourly_volume snapshot)) = 0 /\
  head (map AnalyticsManager.hour (AnalyticsManager.an_hourly_volume snapshot)) =
    Some (AnalyticsManager.hours 1).
Proof.
  cbv zeta. repeat split; vm_compute; reflexivity.
Qed.

(** C4, amended: for every state and current time, [hourly_volume] has
    exactly 24 entries; their hours are the current hour minus 23, 22,
    ..., 0 hours, in this order, hence hour-aligned, strictly increasing
    and ending at the current hour; the count of an entry is the number
    of records of the trailing 24 hours whose timestamp truncates to its
    hour (zero when there is none); and the counts sum to the number of
    records in the history whose timestamps lie within the trailing 24
    hours and within these 24 listed hours, that is from the start of
    the current hour minus 23 hours to the end of the current hour. *)
Theorem hourly_volume_buckets (self : AnalyticsManager.t) (now : Z) :
  let volume := AnalyticsManager.an_hourly_volume
                  (AnalyticsManager.get_analytics self now) in
  let this_hour := AnalyticsManager.floor_hour now in
  length volume = 24%nat /\
  map AnalyticsManager.hour volume =
    map (fun i : nat => this_hour - AnalyticsManager.hours (23 - Z.of_nat i)) (seq 0 24) /\
  Forall (fun e => AnalyticsManager.hour e mod AnalyticsManager.HOUR = 0) volume /\
  (forall i j a b,
     volume !! i = Some a -> volume !! j = Some b -> (i < j)%nat ->
     AnalyticsManager.hour a < AnalyticsManager.hour b) /\
  AnalyticsManager.hour <$> last volume = Some this_hour /\
  Forall
    (fun e =>
       AnalyticsManager.count e =
       Z.of_nat (length (filter
         (fun q => now - AnalyticsManager.hours 24 < AnalyticsManager.qd_timestamp q /\
                   AnalyticsManager.floor_hour (AnalyticsManager.qd_timestamp q)
                   = AnalyticsManager.hour e)
         (AnalyticsManager.query_history self))))
    volume /\
  Zsum (map AnalyticsManager.count volume) =
    Z.of_nat (length (filter
      (fun q => now - AnalyticsManager.hours 24 < AnalyticsManager.qd_timestamp q /\
                this_hour - AnalyticsManager.hours 23
                  <= AnalyticsManager.qd_timestamp q
                  < this_hour + AnalyticsManager.HOUR)
      (AnalyticsManager.query_history self))).
Proof.
  cbv zeta. unfold AnalyticsManager.get_analytics.
  cbn [AnalyticsManager.an_hourly_volume].
  set (recent := AnalyticsManager._get_recent_queries self 24 now).
  pose proof (hourly_volume_hours recent now) as Hh.
  assert (forall i a,
            AnalyticsManager._calculate_hourly_volume recent now !! i = Some a ->
            (i < 24)%nat /\
            AnalyticsManager.hour a =
              AnalyticsManager.floor_hour now
              - AnalyticsManager.hours (23 - Z.of_nat i)) as Hlookup.
  { intros i a Ha.
    assert (map AnalyticsManager.hour
              (AnalyticsManager._calculate_hourly_volume recent now) !! i
            = Some (AnalyticsManager.hour a)) as H
      by (by rewrite list_lookup_fmap, Ha).
    rewrite Hh, list_lookup_fmap in H.
    destruct (seq 0 24 !! i) as [k|] eqn:Hk; [|done].
    apply lookup_seq in Hk as [-> Hi]. simpl in H. injection H as <-. done. }
  split; [|split; [|split; [|split; [|split; [|split]]]]].
  - by rewrite <- (length_map AnalyticsManager.hour), Hh, length_map, length_seq.
  - exact Hh.
  - apply List.Forall_forall. intros e He.
    apply list_elem_of_In, list_elem_of_lookup in He as [i Hi].
    destruct (Hlookup i e Hi) as [_ ->].
    apply sub_hours_aligned, floor_hour_aligned.
  - intros i j a b Ha Hb Hij.
    destruct (Hlookup i a Ha) as [_ ->]. destruct (Hlookup j b Hb) as [_ ->].
    unfold AnalyticsManager.hours. pose proof HOUR_pos. nia.
  - unfold AnalyticsManager._calculate_hourly_volume.
    generalize (AnalyticsManager.hourly_counts recent). intros counts.
    cbn [seq map rev app last AnalyticsManager.hour fmap option_fmap option_map].
    f_equal. unfold AnalyticsManager.hours. simpl. lia.
  - apply List.Forall_forall. intros e He.
    unfold AnalyticsManager._calculate_hourly_volume in He.
    apply in_rev, in_map_iff in He as (i & <- & _).
    cbn [AnalyticsManager.count AnalyticsManager.hour].
    rewrite hourly_counts_lookup.
    unfold recent, AnalyticsManager._get_recent_queries.
    rewrite list_filter_filter. do 2 f_equal. apply list_filter_iff.
    intros q. tauto.
  - rewrite hourly_volume_sum. unfold recent, AnalyticsManager._get_recent_queries.
    rewrite list_filter_filter. do 2 f_equal. apply list_filter_iff.
    intros q. tauto.
Qed.

(** * Further properties *)

(** ** Sessions *)

Section SessionFacts.
Import Py PyNum AnalyticsManager AnalyticsReports.

Lemma builtin_sum_snoc (xs : list Q) (x : Q) :
  builtin_sum (xs ++ [x]) = (builtin_sum xs + x)%Q.
Proof. unfold builtin_sum. by rewrite fold_left_app. Qed.

Lemma last_snoc {A} (l : list A) (x d : A) : List.last (l ++ [x]) d = x.
Proof. apply last_last. Qed.

Lemma session_append_wf (sid : string) (se : Session) (c : QueryCall) :
  qc_session_id c = sid ->
  session_wf sid se ->
  session_wf sid (session_append (record_of c) (qc_response_time c) (qc_now c) se).
Proof.
  intros Hsid (q & qs & Hq & Hst & Hcu & Hla & Htot & Hall).
  exists q, (qs ++ [record_of c]). unfold session_append.
  cbn [se_queries se_start_time se_customer_id se_last_activity
       se_total_response_time].
  rewrite Hq. split; [done|]. split; [done|]. split; [done|].
  split; [by rewrite last_snoc|].
  change (q :: qs ++ [record_of c]) with ((q :: qs) ++ [record_of c]).
  split.
  - rewrite map_app.
    change (map qd_response_time [record_of c]) with [qc_response_time c].
    rewrite builtin_sum_snoc, Htot. reflexivity.
  - apply Forall_app. split; [done|]. by repeat constructor.
Qed.

Lemma new_session_wf (c : QueryCall) :
  session_wf (qc_session_id c)
    (session_append (record_of c) (qc_response_time c) (qc_now c)
       (new_session (qc_customer_id c) (qc_now c))).
Proof.
  exists (record_of c), []. simpl. repeat split; try done.
  by repeat constructor.
Qed.

Lemma sessions_wf_log_query (self : t) (c : QueryCall) :
  sessions_wf self -> sessions_wf (call_log_query self c).
Proof.
  intros Hwf.
  destruct (log_query_raises self c) as [e|] eqn:Hr.
  - rewrite (log_query_faulted self c e Hr). exact Hwf.
  - rewrite log_query_raises_spec in Hr.
    destruct (counter_incr _ _) as [e|dist] eqn:Hd; [done|].
    destruct (log_query_completed self c dist Hd) as (_ & _ & Hs & _).
    intros sid se. rewrite Hs, lookup_alter. case_decide as Hsid.
    + subst sid. destruct (session_data self !! qc_session_id c) as [old|] eqn:E.
      * rewrite E. simpl. intros [= <-]. apply session_append_wf; [done|].
        by apply Hwf.
      * rewrite lookup_insert_eq. simpl. intros [= <-]. apply new_session_wf.
    + destruct (session_data self !! qc_session_id c) as [old|] eqn:E.
      * apply Hwf.
      * rewrite lookup_insert_ne by done. apply Hwf.
Qed.

Lemma sessions_wf_run (loaded : bool) (cs : list call) :
  sessions_wf (run (started loaded) cs).
Proof.
  induction cs as [|c cs IH] using rev_ind.
  - intros sid se. by destruct loaded.
  - rewrite run_snoc. destruct c as [q|f]; simpl.
    + by apply sessions_wf_log_query.
    + intros sid se.
      destruct (log_feedback_spec (run (started loaded) cs) f)
        as (_ & _ & _ & -> & _).
      apply IH.
Qed.

Lemma agent_usage_lookup (queries : list QueryData) (a : string) :
  agent_usage queries !! a =
  match filter (fun q => qd_agent_type q = a) queries with
  | [] => None
  | (_ :: _) as l => Some (Z.of_nat (length l))
  end.
Proof.
  unfold agent_usage.
  assert (forall usage : gmap string Z,
            (forall n, usage !! a = Some n -> 0 < n) ->
            fold_left
              (fun usage query =>
                 <[qd_agent_type query :=
                     default 0 (usage !! qd_agent_type query) + 1]> usage)
              queries usage !! a =
            match filter (fun q => qd_agent_type q = a) queries with
            | [] => usage !! a
            | (_ :: _) as l => Some (default 0 (usage !! a) + Z.of_nat (length l))
            end) as H.
  { induction queries as [|q queries IH]; intros usage Hpos; [done|].
    cbn [fold_left]. rewrite IH, filter_cons.
    - case_decide as Hq.
      + subst a. rewrite lookup_insert_eq. cbn [from_option id].
        destruct (filter _ queries) as [|r l]; cbn [length]; f_equal; lia.
      + rewrite lookup_insert_ne by done. done.
    - intros n. rewrite lookup_insert. case_decide.
      + intros [= <-]. destruct (usage !! qd_agent_type q) eqn:E; simpl; [|lia].
        subst a. specialize (Hpos _ E). lia.
      + apply Hpos. }
  rewrite H by (intros n; by rewrite lookup_empty).
  rewrite lookup_empty. destruct (filter _ queries); [done|].
  cbn [from_option id]. by f_equal.
Qed.

End SessionFacts.

Section SessionReports.
Import Py PyNum AnalyticsManager AnalyticsReports.

Lemma sessions_wf_log_queries (cs : list QueryCall) :
  sessions_wf (log_queries __init__ cs).
Proof.
  induction cs as [|c cs IH] using rev_ind.
  - intros sid se. done.
  - rewrite log_queries_snoc. by apply sessions_wf_log_query.
Qed.

Lemma get_session_analytics_wf (self : t) (sid : string) (se : Session) :
  session_data self !! sid = Some se ->
  session_wf sid se ->
  exists q qs last_activity,
    se_queries se = q :: qs /\
    se_last_activity se = Some last_activity /\
    last_activity = qd_timestamp (List.last qs q) /\
    get_session_analytics self sid =
      Some {| sa_session_id := sid;
              sa_customer_id := se_customer_id se;
              sa_start_time := se_start_time se;
              sa_last_activity := last_activity;
              sa_duration_seconds := total_seconds (last_activity - se_start_time se);
              sa_total_queries := Z.of_nat (length (se_queries se));
              sa_avg_confidence := mean (map qd_confidence (se_queries se));
              sa_total_response_time :=
                builtin_sum (map qd_response_time (se_queries se));
              sa_agent_usage := agent_usage (se_queries se);
              sa_queries := last_n 10 (se_queries se) |}.
Proof.
  intros Hse (q & qs & Hq & _ & _ & Hla & _).
  exists q, qs, (qd_timestamp (List.last qs q)). repeat split; try done.
  unfold get_session_analytics. rewrite Hse, Hla, Hq. reflexivity.
Qed.

Lemma total_sessions_step (self : t) (c : QueryCall) :
  total_sessions (system_metrics (call_log_query self c))
    - Z.of_nat (size (session_data (call_log_query self c))) =
  total_sessions (system_metrics self) - Z.of_nat (size (session_data self)).
Proof.
  destruct (log_query_raises self c) as [e|] eqn:Hr.
  - by rewrite (log_query_faulted self c e Hr).
  - rewrite log_query_raises_spec in Hr.
    destruct (counter_incr _ _) as [e|dist] eqn:Hd; [done|].
    destruct (log_query_completed self c dist Hd) as (_ & _ & -> & -> & _).
    assert (forall (f : Session -> Session) (k : string) (m : gmap string Session),
              size (alter f k m) = size m) as Hsize.
    { intros f k m.
      by rewrite <- (size_dom (D := gset string) (alter f k m)), dom_alter_L, size_dom. }
    rewrite Hsize.
    destruct (session_data self !! qc_session_id c) eqn:E; [done|].
    rewrite map_size_insert_None by done. lia.
Qed.

End SessionReports.

(** X1: on a manager that has logged the calls [cs] since its
    construction, [get_session_analytics] returns the empty dictionary
    exactly for a session id that no call carried; for any other it
    reports the number of the session's calls, the mean of their
    confidences, and the records of the last ten of them, oldest
    first. *)
Theorem session_report_of_calls
    (cs : list AnalyticsManager.QueryCall) (sid : string) :
  let self := AnalyticsManager.log_queries AnalyticsManager.__init__ cs in
  let mine := filter (fun c => AnalyticsManager.qc_session_id c = sid) cs in
  match AnalyticsReports.get_session_analytics self sid with
  | None => mine = []
  | Some report =>
      (0 < length mine)%nat /\
      AnalyticsReports.sa_session_id report = sid /\
      AnalyticsReports.sa_total_queries report = Z.of_nat (length mine) /\
      AnalyticsReports.sa_avg_confidence report =
        PyNum.mean (map AnalyticsManager.qc_confidence mine) /\
      AnalyticsReports.sa_queries report =
        PyNum.last_n 10 (map AnalyticsManager.record_of mine)
  end.
Proof.
  cbv zeta.
  destruct (tracks_log_queries cs) as (_ & _ & _ & _ & Hs). specialize (Hs sid).
  pose proof (sessions_wf_log_queries cs sid) as Hwf.
  destruct (AnalyticsManager.session_data _ !! sid) as [se|] eqn:Hse.
  - destruct (get_session_analytics_wf _ sid se Hse (Hwf se eq_refl))
      as (q & qs & la & Hq & _ & _ & ->).
    simpl in Hs. cbn [AnalyticsReports.sa_session_id
      AnalyticsReports.sa_total_queries AnalyticsReports.sa_avg_confidence
      AnalyticsReports.sa_queries].
    rewrite Hs, length_map, map_map. repeat split; try done.
    rewrite Hq in Hs. destruct (filter _ cs); [done|]. simpl. lia.
  - unfold AnalyticsReports.get_session_analytics. rewrite Hse.
    simpl in Hs. by destruct (filter _ cs).
Qed.

(** X2: in every state that the two logging methods can reach from a new
    manager, loaded with the sample data or not,
    [get_session_analytics] is empty only for a session that is not
    stored; for a stored one the recomputed [total_response_time] agrees
    with the accumulator kept in the session, the session's customer is
    the one of its first query (later queries do not change it), the
    duration is the time in seconds from its first to its last query, and
    the listed queries are at most ten, all of this session. *)
Theorem session_report_consistent
    (loaded : bool) (cs : list AnalyticsManager.call) (sid : string) :
  let self := AnalyticsManager.run (started loaded) cs in
  match AnalyticsReports.get_session_analytics self sid with
  | None => AnalyticsManager.session_data self !! sid = None
  | Some report =>
      exists se first later,
        AnalyticsManager.session_data self !! sid = Some se /\
        AnalyticsManager.se_queries se = first :: later /\
        (AnalyticsReports.sa_total_response_time report ==
         AnalyticsManager.se_total_response_time se)%Q /\
        AnalyticsReports.sa_customer_id report =
          AnalyticsManager.qd_customer_id first /\
        AnalyticsReports.sa_duration_seconds report =
          AnalyticsReports.total_seconds
            (AnalyticsManager.qd_timestamp (List.last later first)
             - AnalyticsManager.qd_timestamp first) /\
        (length (AnalyticsReports.sa_queries report) <= 10)%nat /\
        Forall (fun q => AnalyticsManager.qd_session_id q = sid)
               (AnalyticsReports.sa_queries report)
  end.
Proof.
  cbv zeta. pose proof (sessions_wf_run loaded cs sid) as Hwf.
  destruct (AnalyticsManager.session_data _ !! sid) as [se|] eqn:Hse.
  - pose proof (Hwf se eq_refl) as Hwf'.
    destruct (get_session_analytics_wf _ sid se Hse Hwf')
      as (q & qs & la & Hq & Hla & -> & ->).
    destruct Hwf' as (q' & qs' & Hq' & Hst & Hcu & _ & Htot & Hall).
    rewrite Hq in Hq'. injection Hq' as <- <-.
    exists se, q, qs.
    cbn [AnalyticsReports.sa_total_response_time AnalyticsReports.sa_customer_id
         AnalyticsReports.sa_duration_seconds AnalyticsReports.sa_queries].
    rewrite Hq, Hst.
    split; [done|]. split; [done|]. split; [symmetry; exact Htot|].
    split; [done|]. split; [done|]. split.
    + rewrite length_last_n. lia.
    + apply List.Forall_forall. intros r Hr.
      rewrite List.Forall_forall in Hall. apply Hall.
      unfold PyNum.last_n in Hr.
      apply list_elem_of_In. apply list_elem_of_In in Hr.
      by apply (subseteq_drop _ _ _ Hr).
  - unfold AnalyticsReports.get_session_analytics. by rewrite Hse.
Qed.

(** X3: the [agent_usage] of a session report has exactly the agent
    types of the session's queries as keys, each with the number of the
    session's queries of that type. *)
Theorem session_report_agent_usage
    (self : AnalyticsManager.t) (sid a : string) :
  match AnalyticsReports.get_session_analytics self sid with
  | None => True
  | Some report =>
      exists se,
        AnalyticsManager.session_data self !! sid = Some se /\
        AnalyticsReports.sa_total_queries report =
          Z.of_nat (length (AnalyticsManager.se_queries se)) /\
        AnalyticsReports.sa_agent_usage report !! a =
          match filter (fun q => AnalyticsManager.qd_agent_type q = a)
                       (AnalyticsManager.se_queries se) with
          | [] => None
          | (_ :: _) as l => Some (Z.of_nat (length l))
          end
  end.
Proof.
  unfold AnalyticsReports.get_session_analytics.
  destruct (AnalyticsManager.session_data self !! sid) as [se|]; [|done].
  destruct (AnalyticsManager.se_queries se) as [|q qs] eqn:Hq; [done|].
  destruct (AnalyticsManager.se_last_activity se); [|done].
  exists se. cbn [AnalyticsReports.sa_total_queries AnalyticsReports.sa_agent_usage].
  rewrite Hq. repeat split. apply agent_usage_lookup.
Qed.

(** X4: [total_sessions] counts the stored sessions: in every reachable
    state it is the number of entries of [session_data], plus the 423 of
    the sample data when they were loaded; a call of [log_query] that
    raises creates no session and leaves both unchanged. *)
Theorem total_sessions_counts_sessions
    (loaded : bool) (cs : list AnalyticsManager.call) :
  let self := AnalyticsManager.run (started loaded) cs in
  AnalyticsManager.total_sessions (AnalyticsManager.system_metrics self) =
    (if loaded then 423 else 0)
    + Z.of_nat (size (AnalyticsManager.session_data self)).
Proof.
  cbv zeta. induction cs as [|c cs IH] using rev_ind.
  - by destruct loaded.
  - rewrite run_snoc. destruct c as [q|f]; simpl.
    + pose proof (total_sessions_step (AnalyticsManager.run (started loaded) cs) q).
      lia.
    + destruct (log_feedback_spec (AnalyticsManager.run (started loaded) cs) f)
        as (_ & _ & _ & -> & _ & _ & -> & _).
      exact IH.
Qed.

(** ** Top queries *)

Section TopQueriesFacts.
Import PyNum AnalyticsManager AnalyticsReports.

Lemma first_index_lt (k : string) (keys : list string) :
  In k keys -> (first_index k keys < length keys)%nat.
Proof.
  induction keys as [|k' keys IH]; simpl; [done|].
  destruct (String.eqb_spec k k'); [lia|].
  intros [H | H]; [congruence|]. specialize (IH H). lia.
Qed.

Lemma first_index_app_in (k : string) (keys more : list string) :
  In k keys -> first_index k (keys ++ more) = first_index k keys.
Proof.
  induction keys as [|k' keys IH]; simpl; [done|].
  destruct (String.eqb_spec k k'); [done|].
  intros [H | H]; [congruence|]. by rewrite IH.
Qed.

Lemma first_index_app_fresh (k : string) (keys : list string) :
  ~ In k keys -> first_index k (keys ++ [k]) = length keys.
Proof.
  induction keys as [|k' keys IH]; simpl.
  - by rewrite String.eqb_refl.
  - destruct (String.eqb_spec k k') as [->|Hne].
    + intros H. exfalso. apply H. by left.
    + intros H. rewrite IH; [done|]. intros H'. apply H. by right.
Qed.

Lemma ordered_incr_map (f : string -> Z) (k : string) (ks : list string) :
  NoDup ks ->
  ordered_incr k (map (fun k' => (k', f k')) ks) =
  if decide (k ∈ ks)
  then map (fun k' => (k', if decide (k' = k) then f k' + 1 else f k')) ks
  else map (fun k' => (k', f k')) ks ++ [(k, 1)].
Proof.
  induction ks as [|k0 ks IH]; intros Hnd.
  - cbn [map ordered_incr].
    by destruct (decide (k ∈ @nil string)) as [H%elem_of_nil|].
  - apply NoDup_cons in Hnd as [Hk0 Hnd]. cbn [map ordered_incr].
    destruct (String.eqb_spec k k0) as [->|Hne].
    + rewrite decide_True by (apply elem_of_cons; by left).
      rewrite decide_True by done.
      f_equal. apply map_ext_in. intros k' Hk'.
      rewrite decide_False; [done|]. intros ->.
      by apply Hk0, list_elem_of_In.
    + rewrite IH by done. rewrite (decide_False (P := k0 = k)) by done.
      destruct (decide (k ∈ ks)) as [Hin|Hout].
      * by rewrite decide_True by (apply elem_of_cons; by right).
      * rewrite decide_False; [done|].
        intros [H | H]%elem_of_cons; congruence.
Qed.

Lemma occurrences_snoc (queries : list QueryData) (q : QueryData) (k : string) :
  occurrences (queries ++ [q]) k =
  occurrences queries k + (if decide (query_text q = k) then 1 else 0).
Proof.
  unfold occurrences. rewrite filter_snoc, length_app.
  case_decide; cbn [length]; lia.
Qed.

Lemma occurrences_absent (queries : list QueryData) (k : string) :
  ~ In k (map query_text queries) -> occurrences queries k = 0.
Proof.
  unfold occurrences. induction queries as [|q queries IH]; simpl; [done|].
  intros H. rewrite filter_cons, decide_False by tauto. apply IH. tauto.
Qed.

Lemma StronglySorted_impl_in {A} (R R' : A -> A -> Prop) (l : list A) :
  (forall a b, In a l -> In b l -> R a b -> R' a b) ->
  StronglySorted R l -> StronglySorted R' l.
Proof.
  induction l as [|x l IH]; intros H Hs; [constructor|].
  apply StronglySorted_inv in Hs as [Hs Hx]. constructor.
  - apply IH; [|done]. intros a b Ha Hb. apply H; by right.
  - rewrite List.Forall_forall in Hx. apply List.Forall_forall.
    intros y Hy. apply H; [by left | by right | by apply Hx].
Qed.

Lemma StronglySorted_snoc {A} (R : A -> A -> Prop) (l : list A) (x : A) :
  StronglySorted R l -> (forall a, In a l -> R a x) ->
  StronglySorted R (l ++ [x]).
Proof.
  induction l as [|y l IH]; intros Hs Hx; simpl.
  - repeat constructor.
  - apply StronglySorted_inv in Hs as [Hs Hy]. constructor.
    + apply IH; [done|]. intros a Ha. apply Hx. by right.
    + apply Forall_app. split; [done|]. constructor; [|constructor].
      apply Hx. by left.
Qed.

Lemma StronglySorted_map {A B} (f : A -> B) (R : B -> B -> Prop) (l : list A) :
  StronglySorted (fun a b => R (f a) (f b)) l -> StronglySorted R (map f l).
Proof.
  induction 1 as [|x l Hs IH Hx]; simpl; constructor; [done|].
  rewrite List.Forall_forall in Hx. apply List.Forall_forall.
  intros y (a & <- & Ha)%in_map_iff. by apply Hx.
Qed.

Lemma StronglySorted_unmap {A B} (f : A -> B) (R : B -> B -> Prop) (l : list A) :
  StronglySorted R (map f l) -> StronglySorted (fun a b => R (f a) (f b)) l.
Proof.
  induction l as [|x l IH]; simpl; intros Hs; [constructor|].
  apply StronglySorted_inv in Hs as [Hs Hx]. constructor; [auto|].
  rewrite List.Forall_forall in Hx. apply List.Forall_forall.
  intros y Hy. apply Hx. by apply in_map.
Qed.

(** The counts dictionary lists every normalised text once, in the order
    of first occurrence, with its number of occurrences. *)
Lemma query_counts_spec (queries : list QueryData) :
  exists texts,
    NoDup texts /\
    (forall k, In k texts <-> In k (map query_text queries)) /\
    StronglySorted (fun a b => (first_seen queries a < first_seen queries b)%nat) texts /\
    query_counts queries = map (fun k => (k, occurrences queries k)) texts.
Proof.
  induction queries as [|q queries (texts & Hnd & Hin & Hs & Hc)] using rev_ind.
  - exists []. repeat split; try done; constructor.
  - set (k := query_text q).
    assert (query_counts (queries ++ [q]) = ordered_incr k (query_counts queries))
      as Hstep by (unfold query_counts; by rewrite fold_left_app).
    rewrite Hstep, Hc, ordered_incr_map by done.
    assert (forall a, In a texts ->
              first_seen (queries ++ [q]) a = first_seen queries a) as Hsame.
    { intros a Ha. unfold first_seen. rewrite map_app.
      apply first_index_app_in. by apply Hin. }
    destruct (decide (k ∈ texts)) as [Hk | Hk];
      [apply list_elem_of_In in Hk
      | assert (~ In k texts) as Hk' by (by rewrite <- list_elem_of_In);
        clear Hk; rename Hk' into Hk].
    + exists texts. repeat split; try done.
      * intros H. rewrite map_app, in_app_iff. left. by apply Hin.
      * rewrite map_app, in_app_iff. intros [H | [<- | []]];
          [by apply Hin | done].
      * eapply StronglySorted_impl_in; [|exact Hs].
        intros a b Ha Hb. by rewrite !Hsame.
      * apply map_ext. intros a. rewrite occurrences_snoc. fold k.
        f_equal. repeat case_decide; try congruence; lia.
    + exists (texts ++ [k]). repeat split.
      * apply NoDup_app. repeat split; [done| |apply NoDup_singleton].
        intros x Hx [->|[]]%list_elem_of_In. by apply Hk, list_elem_of_In.
      * rewrite map_app, !in_app_iff, Hin. simpl. tauto.
      * rewrite map_app, !in_app_iff, Hin. simpl. tauto.
      * apply StronglySorted_snoc.
        -- eapply StronglySorted_impl_in; [|exact Hs].
           intros a b Ha Hb. by rewrite !Hsame.
        -- intros a Ha. rewrite Hsame by done. unfold first_seen.
           rewrite map_app. change (map query_text [q]) with [k].
           rewrite first_index_app_fresh by (by rewrite <- Hin).
           apply first_index_lt. by apply Hin.
      * rewrite map_app. cbn [map]. f_equal.
        -- apply map_ext_in. intros a Ha. rewrite occurrences_snoc. fold k.
           rewrite decide_False; [f_equal; lia|]. intros ->. done.
        -- rewrite occurrences_snoc. fold k. rewrite decide_True by done.
           rewrite occurrences_absent by (by rewrite <- Hin). done.
Qed.

Lemma query_examples_lookup (queries : list QueryData) (k : string) :
  query_examples queries !! k = head (filter (fun q => query_text q = k) queries).
Proof.
  unfold query_examples.
  assert (forall m : gmap string QueryData,
            fold_left
              (fun examples query =>
                 match examples !! query_text query with
                 | Some _ => examples
                 | None => <[query_text query := query]> examples
                 end) queries m !! k =
            match m !! k with
            | Some x => Some x
            | None => head (filter (fun q => query_text q = k) queries)
            end) as H.
  { induction queries as [|q queries IH]; intros m.
    - simpl. by destruct (m !! k).
    - cbn [fold_left]. rewrite IH, filter_cons.
      destruct (m !! query_text q) as [x|] eqn:E.
      + case_decide as Hq; [|done]. subst k. by rewrite E.
      + rewrite lookup_insert. case_decide as Hq.
        * subst k. by rewrite E.
        * done. }
  by rewrite H, lookup_empty.
Qed.

Lemma top_entries_spec (examples : gmap string QueryData) (top : list (string * Z)) :
  Forall (fun item => is_Some (examples !! fst item)) top ->
  exists entries,
    top_entries examples top = Some entries /\
    map (fun e => (tq_query e, tq_count e)) entries = top /\
    Forall (fun e => examples !! tq_query e = Some (tq_example e)) entries.
Proof.
  induction top as [|[k n] top IH]; intros H.
  - exists []. by repeat split.
  - apply Forall_cons in H as [[x Hx] H]. simpl in Hx.
    destruct (IH H) as (entries & He & Hm & Hf).
    eexists. cbn [top_entries]. rewrite Hx, He. split; [reflexivity|].
    split; [simpl; by rewrite Hm | by constructor].
Qed.

Lemma insert_desc_perm {A} (key : A -> Q) (x : A) (l : list A) :
  Permutation (insert_desc key x l) (x :: l).
Proof.
  induction l as [|y l IH]; simpl; [done|].
  destruct (Qle_bool (key y) (key x)); [done|].
  rewrite IH. apply perm_swap.
Qed.

Lemma sort_desc_perm {A} (key : A -> Q) (l : list A) :
  Permutation (sort_desc key l) l.
Proof.
  induction l as [|x l IH]; simpl; [done|].
  rewrite insert_desc_perm. by constructor.
Qed.

Lemma head_filter_in (queries : list QueryData) (k : string) :
  In k (map query_text queries) ->
  exists q, head (filter (fun q => query_text q = k) queries) = Some q /\
            0 < occurrences queries k.
Proof.
  unfold occurrences. induction queries as [|q queries IH]; simpl; [done|].
  rewrite filter_cons. case_decide as Hq.
  - intros _. exists q. split; [done|]. cbn [length]. lia.
  - intros [H | H]; [done|]. by apply IH.
Qed.

End TopQueriesFacts.

(** X5: for a limit that is not negative, [_get_top_queries] returns (it
    never misses an example) at most [limit] entries with distinct
    texts; the count of an entry is the number of queries whose
    lower-cased, stripped text is the entry's text, and its example is the
    first of them; the entries come by descending count, and among equal
    counts in the order in which their texts were first seen. *)
Theorem top_queries_ranked
    (queries : list AnalyticsManager.QueryData) (limit : Z) :
  0 <= limit ->
  exists top,
    AnalyticsReports._get_top_queries queries limit = Some top /\
    Z.of_nat (length top) <= limit /\
    NoDup (map AnalyticsReports.tq_query top) /\
    Forall
      (fun e =>
         AnalyticsReports.tq_count e = occurrences queries (AnalyticsReports.tq_query e) /\
         0 < AnalyticsReports.tq_count e /\
         head (filter (fun q => AnalyticsReports.query_text q
                                = AnalyticsReports.tq_query e) queries)
           = Some (AnalyticsReports.tq_example e))
      top /\
    StronglySorted
      (fun a b =>
         AnalyticsReports.tq_count b < AnalyticsReports.tq_count a \/
         (AnalyticsReports.tq_count a = AnalyticsReports.tq_count b /\
          (first_seen queries (AnalyticsReports.tq_query a)
           < first_seen queries (AnalyticsReports.tq_query b))%nat))
      top.
Proof.
  intros Hlimit.
  destruct (query_counts_spec queries) as (texts & Hnd & Hin & Hs & Hc).
  unfold AnalyticsReports._get_top_queries.
  set (key := fun item : string * Z => inject_Z (snd item)).
  set (index := fun item : string * Z => first_seen queries (fst item)).
  set (sorted := PyNum.sort_desc key (AnalyticsReports.query_counts queries)).
  assert (PyNum.slice_to limit sorted = take (Z.to_nat limit) sorted) as ->.
  { unfold PyNum.slice_to. by rewrite (proj2 (Z.leb_le 0 limit)). }
  assert (forall item, In item (take (Z.to_nat limit) sorted) ->
            In (fst item) (map AnalyticsReports.query_text queries) /\
            snd item = occurrences queries (fst item)) as Hitems.
  { intros item Hitem. apply in_firstn_in in Hitem.
    apply (proj1 (in_sort_desc key item _)) in Hitem.
    rewrite Hc in Hitem. apply in_map_iff in Hitem as (k & <- & Hk).
    split; [by apply Hin | done]. }
  destruct (top_entries_spec (AnalyticsReports.query_examples queries)
              (take (Z.to_nat limit) sorted)) as (top & Htop & Hpairs & Hex).
  { apply List.Forall_forall. intros item Hitem.
    destruct (Hitems item Hitem) as [Hk _].
    destruct (head_filter_in queries _ Hk) as (q & Hq & _).
    rewrite query_examples_lookup, Hq. by eexists. }
  exists top. split; [done|].
  assert (StronglySorted (ranked_before key index) (take (Z.to_nat limit) sorted))
    as Hsorted.
  { apply StronglySorted_firstn, sort_desc_sorted. rewrite Hc.
    apply StronglySorted_map. exact Hs. }
  split; [|split; [|split]].
  - rewrite <- (length_map (fun e => (AnalyticsReports.tq_query e,
                                      AnalyticsReports.tq_count e)) top),
      Hpairs, length_firstn. lia.
  - replace (map AnalyticsReports.tq_query top)
      with (map fst (take (Z.to_nat limit) sorted))
      by (by rewrite <- Hpairs, map_map).
    rewrite <- firstn_map. eapply sublist_NoDup; [|apply sublist_take].
    assert (Permutation (map fst sorted) texts) as ->; [|done].
    unfold sorted. rewrite sort_desc_perm, Hc, map_map. simpl.
    by rewrite map_id.
  - rewrite List.Forall_forall in Hex. apply List.Forall_forall. intros e He.
    destruct (Hitems (AnalyticsReports.tq_query e, AnalyticsReports.tq_count e))
      as [Hk Hn].
    { rewrite <- Hpairs.
      exact (in_map (fun e => (AnalyticsReports.tq_query e,
                               AnalyticsReports.tq_count e)) top e He). }
    simpl in Hk, Hn. destruct (head_filter_in queries _ Hk) as (q & Hq & Hpos).
    split; [done|]. split; [by rewrite Hn|].
    rewrite <- query_examples_lookup. by apply Hex.
  - rewrite <- Hpairs in Hsorted. apply StronglySorted_unmap in Hsorted.
    eapply StronglySorted_impl_in; [|exact Hsorted].
    intros a b _ _ [Hlt | [Heq Hidx]]; unfold key, index in *; simpl in *.
    + left. by rewrite Zlt_Qlt.
    + right. split; [by apply inject_Z_injective | done].
Qed.

Lemma top_queries_ranked_witness :
  let query text :=
    AnalyticsManager.make_query_data text "reply" "general" (75 # 100) (1 # 2)
                                     "customer" "session" 0 in
  exists top,
    AnalyticsReports._get_top_queries
      [query "Help"; query "reset"; query " help "; query "HELP"]%string 1 = Some top /\
    Z.of_nat (length top) <= 1.
Proof.
  cbv zeta.
  destruct (top_queries_ranked
              [ AnalyticsManager.make_query_data "Help" "reply" "general"
                  (75 # 100) (1 # 2) "customer" "session" 0;
                AnalyticsManager.make_query_data "reset" "reply" "general"
                  (75 # 100) (1 # 2) "customer" "session" 0;
                AnalyticsManager.make_query_data " help " "reply" "general"
                  (75 # 100) (1 # 2) "customer" "session" 0;
                AnalyticsManager.make_query_data "HELP" "reply" "general"
                  (75 # 100) (1 # 2) "customer" "session" 0 ]%string 1)
    as (top & H1 & H2 & _); [lia|].
  exists top. exact (conj H1 H2).
Defined.

(** ** Real-time metrics and per-agent performance *)

Section ActivityFacts.
Import PyNum AnalyticsManager AnalyticsReports.

Lemma sessions_have_last_activity (self : t) :
  sessions_wf self ->
  forallb (fun s => bool_decide (is_Some (se_last_activity s)))
          (map snd (map_to_list (session_data self))) = true.
Proof.
  intros Hwf. apply forallb_forall. intros se Hse.
  apply in_map_iff in Hse as ([sid se'] & <- & Hin). simpl.
  apply list_elem_of_In, elem_of_map_to_list in Hin.
  destruct (Hwf sid se' Hin) as (q & qs & _ & _ & _ & -> & _).
  by apply bool_decide_eq_true.
Qed.

Lemma filter_map_comm {A B} (f : A -> B) (P : B -> Prop)
    `{!forall y, Decision (P y)} (l : list A) :
  filter P (map f l) = map f (filter (fun x => P (f x)) l).
Proof.
  induction l as [|x l IH]; simpl; [done|].
  rewrite !filter_cons. case_decide; simpl; by rewrite IH.
Qed.

End ActivityFacts.

(** X6: [get_real_time_metrics] has no handler, and in every state that
    the logging methods can reach from a new manager it raises, a
    [StatisticsError], exactly when the history is not empty and holds no
    record of the last hour; otherwise it reports the number of records
    of the last hour and the mean of their confidences, or 0 for an empty
    history.  It never fails on a session. *)
Theorem real_time_metrics_raise
    (loaded : bool) (cs : list AnalyticsManager.call) (now : Z) :
  let self := AnalyticsManager.run (started loaded) cs in
  let last_hour :=
    filter (fun q => now - AnalyticsManager.hours 1 < AnalyticsManager.qd_timestamp q)
           (AnalyticsManager.query_history self) in
  match AnalyticsReports.get_real_time_metrics self now with
  | inl e =>
      e = AnalyticsReports.StatisticsError /\
      (0 < length (AnalyticsManager.query_history self))%nat /\
      last_hour = []
  | inr m =>
      AnalyticsReports.rt_queries_last_hour m = Z.of_nat (length last_hour) /\
      match AnalyticsManager.query_history self with
      | [] => AnalyticsReports.rt_avg_confidence_last_hour m = 0%Q
      | _ :: _ =>
          (0 < length last_hour)%nat /\
          AnalyticsReports.rt_avg_confidence_last_hour m =
            PyNum.mean (map AnalyticsManager.qd_confidence last_hour)
      end
  end.
Proof.
  cbv zeta. unfold AnalyticsReports.get_real_time_metrics.
  rewrite sessions_have_last_activity by apply sessions_wf_run.
  destruct (AnalyticsManager.query_history _) as [|q h] eqn:Hh; [done|].
  destruct (filter _ (q :: h)) as [|r l] eqn:Hf.
  - repeat split. simpl. lia.
  - simpl. repeat split. lia.
Qed.

(** X7: on a manager that has logged the calls [cs] since its
    construction, [agent_performance] has an entry for an agent type
    exactly when a call of that type is less than 24 hours old; its
    [query_count] is the number of these calls and its averages are the
    means over them.  All calls count, also those whose records the
    history has evicted. *)
Theorem agent_performance_of_calls
    (cs : list AnalyticsManager.QueryCall) (a : string) (now : Z) :
  let self := AnalyticsManager.log_queries AnalyticsManager.__init__ cs in
  let recent :=
    filter (fun c => now - AnalyticsManager.hours 24 < AnalyticsManager.qc_now c /\
                     AnalyticsManager.qc_agent_type c = a) cs in
  match AnalyticsReports.agent_performance self now !! a with
  | None => recent = []
  | Some p =>
      (0 < length recent)%nat /\
      AnalyticsReports.ap_query_count p = Z.of_nat (length recent) /\
      AnalyticsReports.ap_avg_confidence p =
        PyNum.mean (map AnalyticsManager.qc_confidence recent) /\
      AnalyticsReports.ap_avg_response_time p =
        PyNum.mean (map AnalyticsManager.qc_response_time recent)
  end.
Proof.
  cbv zeta.
  destruct (tracks_log_queries cs) as (_ & _ & _ & Ha & _). specialize (Ha a).
  unfold AnalyticsReports.agent_performance. rewrite lookup_omap.
  rewrite <- (list_filter_filter
                (fun c => now - AnalyticsManager.hours 24 < AnalyticsManager.qc_now c)
                (fun c => AnalyticsManager.qc_agent_type c = a)).
  set (mine := filter (fun c => AnalyticsManager.qc_agent_type c = a) cs) in *.
  assert (forall metrics,
            metrics = map AnalyticsManager.sample_of mine ->
            AnalyticsReports.recent_metrics metrics now =
            map AnalyticsManager.sample_of
                (filter (fun c => now - AnalyticsManager.hours 24
                                  < AnalyticsManager.qc_now c) mine)) as Hrecent.
  { intros metrics ->. unfold AnalyticsReports.recent_metrics.
    by rewrite filter_map_comm. }
  destruct (AnalyticsManager.agent_metrics _ !! a) as [metrics|]; simpl in *.
  - specialize (Hrecent metrics Ha).
    destruct metrics as [|m ms]; simpl.
    + by destruct mine.
    + rewrite Hrecent.
      destruct (filter _ mine) as [|c l]; simpl; [done|].
      rewrite !length_map, !map_map. repeat split. lia.
  - by destruct mine.
Qed.

(** ** Retrieval, once more: which documents are selected *)

Section RetrievalSelection.
Import Py PyNum CustomerServiceOrchestrator.






End RetrievalSelection.

(** ** The two classifiers *)

Section Classifiers.
Import PyStr.

Lemma any_in_false_in (words : list string) (text w : string) :
  any_in words text = false -> In w words -> contains w text = false.
Proof.
  unfold any_in. induction words as [|w' words IH]; simpl; [done|].
  intros [Hw Hrest]%orb_false_iff [-> | Hin]; auto.
Qed.

Lemma hits_without (extras words : list string) (text : string) :
  any_in extras text = false ->
  hits words text = hits (filter (fun w => w ∉ extras) words) text.
Proof.
  intros Hex. unfold hits.
  induction words as [|w words IH]; [done|].
  rewrite !filter_cons. destruct (decide (w ∉ extras)) as [Hout | Hin].
  - rewrite filter_cons. case_decide; simpl; by rewrite IH.
  - apply dec_stable, list_elem_of_In in Hin.
    rewrite (any_in_false_in extras text w Hex Hin).
    case_decide; [done | exact IH].
Qed.

Lemma technical_score_agrees (text : string) :
  any_in orchestrator_only text = false ->
  CustomerServiceOrchestrator.technical_score text =
  SimpleOrchestrator.technical_score text.
Proof.
  intros Hex.
  unfold CustomerServiceOrchestrator.technical_score,
    SimpleOrchestrator.technical_score.
  rewrite !add_hits_hits.
  rewrite (hits_without orchestrator_only
             CustomerServiceOrchestrator.technical_phrases text Hex).
  rewrite (hits_without orchestrator_only
             CustomerServiceOrchestrator.technical_keywords text Hex).
  reflexivity.
Qed.

Lemma billing_score_agrees (text : string) :
  any_in orchestrator_only text = false ->
  CustomerServiceOrchestrator.billing_score text =
  SimpleOrchestrator.billing_score text.
Proof.
  intros Hex.
  unfold CustomerServiceOrchestrator.billing_score,
    SimpleOrchestrator.billing_score.
  rewrite !add_hits_hits.
  rewrite (hits_without orchestrator_only
             CustomerServiceOrchestrator.billing_phrases text Hex).
  rewrite (hits_without orchestrator_only
             CustomerServiceOrchestrator.billing_keywords text Hex).
  reflexivity.
Qed.

Lemma classify_intent_range (query : string) :
  let intent := CustomerServiceOrchestrator._classify_intent query in
  intent = "technical"%string \/ intent = "billing"%string \/
  intent = "general"%string.
Proof.
  unfold CustomerServiceOrchestrator._classify_intent. cbv zeta.
  repeat match goal with |- context [if ?b then _ else _] => destruct b end;
    auto.
Qed.

Lemma simple_classify_intent_range (query : string) :
  let intent := SimpleOrchestrator._classify_intent query in
  intent = "technical"%string \/ intent = "billing"%string \/
  intent = "general"%string.
Proof.
  unfold SimpleOrchestrator._classify_intent. cbv zeta.
  repeat match goal with |- context [if ?b then _ else _] => destruct b end;
    auto.
Qed.

(** X9: the classifier of [main.py] is the classifier of
    [orchestrator.py] with eleven lexicon entries removed, and nothing
    else differs: on every query whose lower-cased text contains none of
    these eleven entries the two return the same intent. *)
Theorem classifiers_agree (query : string) :
  any_in orchestrator_only (lower query) = false ->
  SimpleOrchestrator._classify_intent query =
  CustomerServiceOrchestrator._classify_intent query.
Proof.
  intros Hex.
  unfold SimpleOrchestrator._classify_intent,
    CustomerServiceOrchestrator._classify_intent. cbv zeta.
  rewrite (technical_score_agrees _ Hex), (billing_score_agrees _ Hex).
  reflexivity.
Qed.

Lemma classifiers_agree_witness :
  SimpleOrchestrator._classify_intent "I was charged twice and cannot log in" =
  CustomerServiceOrchestrator._classify_intent "I was charged twice and cannot log in".
Proof.
  apply classifiers_agree. vm_compute. reflexivity.
Defined.

End Classifiers.

(** ** [process_query] and the knowledge base it reads *)

Section ProcessQueryFacts.
Import Py PyNum CustomerServiceOrchestrator ProcessQuery.
Variable norm : list Q -> Q.

Lemma route_agent_type (query : string) (context : list Doc)
    (customer_id priority : string) :
  agent_type (handle_query (route (_classify_intent query))
                query context customer_id priority) =
  _classify_intent query.
Proof.
  destruct (classify_intent_range query) as [H | [H | H]]; cbv zeta in H;
    by rewrite H.
Qed.

(** X10: [process_query] on an initialised orchestrator never returns the
    error reply of its handler: whatever the state of the knowledge base
    and of the embedding model, the reply carries the classified intent,
    which is also the type of the agent that answered and one of the three
    agent names, echoes the session id, and counts at most three knowledge
    sources; with none, the technical and general agents answer with
    their fixed fallback text. *)
Theorem process_query_reply
    (self : t) (query customer_id session_id priority : string) :
  let reply := process_query norm self query customer_id session_id priority in
  let intent := _classify_intent query in
  rp_intent reply = Some intent /\
  rp_agent_type reply = intent /\
  (intent = "technical"%string \/ intent = "billing"%string \/
   intent = "general"%string) /\
  rp_session_id reply = Some session_id /\
  (exists n, rp_knowledge_sources reply = Some n /\ 0 <= n <= 3) /\
  (rp_knowledge_sources reply = Some 0 ->
   rp_response reply =
     if String.eqb intent "technical" then TechnicalSupportAgent.fallback
     else if String.eqb intent "billing" then BillingAgent.fallback customer_id
     else GeneralSupportAgent.fallback).
Proof.
  cbv zeta. unfold process_query, process_query_body. unfold_py. simpl.
  split; [done|]. split; [apply route_agent_type|].
  split; [apply classify_intent_range|]. split; [done|]. split.
  - eexists. split; [reflexivity|].
    pose proof (retrieve_context_length norm self query 3). lia.
  - intros [= Hlen].
    destruct (_retrieve_context norm self query 3); [|discriminate].
    destruct (classify_intent_range query) as [H | [H | H]]; cbv zeta in H;
      by rewrite H.
Qed.

Lemma embed_docs_keeps_self (ds : list (string * string * string * string)) (self : t) :
  fst (embed_docs ds self) = self.
Proof.
  induction ds as [|[[[i ti] co] ca] ds IH]; simpl; [done|]. unfold_py.
  pose proof (encode_keeps_self co self) as H.
  destruct (encode co self) as [self1 [e|v]]; simpl in H; subst self1; [done|].
  destruct (embed_docs ds self) as [self2 [e|rest]]; simpl in IH; by subst self2.
Qed.

Lemma embed_docs_spec (ds : list (string * string * string * string))
    (self : t) (enc : Encoder) :
  embedding_model self = Some enc ->
  match snd (embed_docs ds self) with
  | inr kb =>
      map (fun d => (id d, title d, content d, category d)) kb = ds /\
      Forall (fun d => enc (content d) = inr (embedding d)) kb
  | inl e => exists d, In d ds /\ enc (snd (fst d)) = inl e
  end.
Proof.
  intros Hm. induction ds as [|[[[i ti] co] ca] ds IH]; simpl.
  { by split. }
  unfold_py. unfold encode at 1. unfold_py. rewrite Hm.
  destruct (enc co) as [e|v] eqn:Hv; simpl.
  { exists (i, ti, co, ca). by split; [left|]. }
  pose proof (embed_docs_keeps_self ds self) as Hself.
  destruct (embed_docs ds self) as [self2 [e|rest]]; simpl in *.
  - destruct IH as (d & Hd & He). exists d. by split; [right|].
  - destruct IH as [Hmap Hall]. split; [by rewrite Hmap|].
    by constructor.
Qed.

(** X11: [_setup_knowledge_base] either installs all five documents, in
    their order and each with the embedding of its content, or raises and
    leaves the orchestrator as it was: without an embedding model it
    raises [AttributeError], with one it raises what the model raised on
    one of the five contents.  The embedding model is never changed. *)
Theorem setup_knowledge_base_all_or_nothing (self : t) :
  let after := fst (_setup_knowledge_base self) in
  embedding_model after = embedding_model self /\
  match snd (_setup_knowledge_base self), embedding_model self with
  | inr _, Some enc =>
      map (fun d => (id d, title d, content d, category d))
          (knowledge_base after) = docs /\
      Forall (fun d => enc (content d) = inr (embedding d)) (knowledge_base after)
  | inr _, None => False
  | inl e, Some enc =>
      after = self /\ exists d, In d docs /\ enc (snd (fst d)) = inl e
  | inl e, None => after = self /\ e = AttributeError
  end.
Proof.
  cbv zeta. unfold _setup_knowledge_base. unfold_py.
  destruct (embedding_model self) as [enc|] eqn:Hm.
  - pose proof (embed_docs_spec docs self enc Hm) as Hspec.
    pose proof (embed_docs_keeps_self docs self) as Hself.
    destruct (embed_docs docs self) as [self' [e|kb]]; simpl in *; subst self'.
    + by rewrite Hm.
    + by rewrite Hm.
  - assert (forall text, encode text self = (self, inl AttributeError)) as Henc.
    { intros text. unfold encode. unfold_py. by rewrite Hm. }
    unfold docs. cbn [embed_docs]. unfold_py. rewrite Henc. simpl.
    by rewrite Hm.
Qed.


End ProcessQueryFacts.


(** ** [main.py]: escaping, the reply of [process_ai_query], connections *)

Section MainFacts.
Import PyStr Main.

Lemma has_char_append (c : ascii) (a b : string) :
  has_char c (a +:+ b) = has_char c a || has_char c b.
Proof.
  induction a as [|c' a IH]; simpl; [done|]. by rewrite IH, orb_assoc.
Qed.

Lemma replace_char_removes (old : ascii) (new s : string) :
  has_char old new = false ->
  has_char old (replace_char old new s) = false.
Proof.
  intros Hnew. induction s as [|c s IH]; simpl; [done|].
  destruct (Ascii.eqb c old) eqn:E.
  - by rewrite has_char_append, Hnew, IH.
  - simpl. by rewrite E, IH.
Qed.

Lemma replace_char_keeps (c old : ascii) (new s : string) :
  has_char c new = false -> has_char c s = false ->
  has_char c (replace_char old new s) = false.
Proof.
  intros Hnew. induction s as [|c' s IH]; simpl; [done|].
  intros [Hc Hs]%orb_false_iff.
  destruct (Ascii.eqb c' old).
  - by rewrite has_char_append, Hnew, IH.
  - simpl. by rewrite Hc, IH.
Qed.

Lemma replace_char_absent (old : ascii) (new s : string) :
  has_char old s = false -> replace_char old new s = s.
Proof.
  induction s as [|c s IH]; simpl; [done|].
  intros [-> Hs]%orb_false_iff. by rewrite IH.
Qed.

Lemma string_length_append (a b : string) :
  String.length (a +:+ b) = (String.length a + String.length b)%nat.
Proof. induction a as [|c a IH]; simpl; [done|]. by rewrite IH. Qed.

Lemma replace_char_length (old : ascii) (new s : string) :
  (1 <= String.length new)%nat ->
  (String.length s <= String.length (replace_char old new s))%nat.
Proof.
  intros Hnew. induction s as [|c s IH]; simpl; [lia|].
  destruct (Ascii.eqb c old); simpl; [|lia].
  rewrite string_length_append. lia.
Qed.

Lemma replace_char_grows (old : ascii) (new s : string) :
  (2 <= String.length new)%nat ->
  has_char old s = true ->
  (String.length s < String.length (replace_char old new s))%nat.
Proof.
  intros Hnew. induction s as [|c s IH]; simpl; [done|].
  destruct (Ascii.eqb c old); simpl.
  - intros _. rewrite string_length_append.
    pose proof (replace_char_length old new s). lia.
  - intros H. apply IH in H. lia.
Qed.

Lemma html_escape_no_markup (s : string) :
  has_char "<" (html_escape s) = false /\
  has_char ">" (html_escape s) = false /\
  has_char (ascii_of_N 34) (html_escape s) = false /\
  has_char "'" (html_escape s) = false.
Proof.
  unfold html_escape. cbv zeta.
  set (s1 := replace_char "&" "&amp;" s).
  pose proof (replace_char_removes "<" "&lt;" s1 eq_refl) as H2.
  set (s2 := replace_char "<" "&lt;" s1) in *.
  pose proof (replace_char_removes ">" "&gt;" s2 eq_refl) as H3.
  pose proof (replace_char_keeps "<" ">" "&gt;" s2 eq_refl H2) as H3'.
  set (s3 := replace_char ">" "&gt;" s2) in *.
  pose proof (replace_char_removes (ascii_of_N 34) "&quot;" s3 eq_refl) as H4.
  pose proof (replace_char_keeps "<" (ascii_of_N 34) "&quot;" s3 eq_refl H3') as H4'.
  pose proof (replace_char_keeps ">" (ascii_of_N 34) "&quot;" s3 eq_refl H3) as H4''.
  set (s4 := replace_char (ascii_of_N 34) "&quot;" s3) in *.
  split; [by apply replace_char_keeps|].
  split; [by apply replace_char_keeps|].
  split; [by apply replace_char_keeps|].
  by apply replace_char_removes.
Qed.

(** X13: [html.escape] as [process_ai_query] uses it: the escaped text
    has no [<], [>], double quote or apostrophe, and a text with none of
    these and no ampersand is returned unchanged. *)
Theorem html_escape_safe (s : string) :
  (has_char "<" (html_escape s) = false /\
   has_char ">" (html_escape s) = false /\
   has_char (ascii_of_N 34) (html_escape s) = false /\
   has_char "'" (html_escape s) = false) /\
  (has_char "&" s = false /\ has_char "<" s = false /\ has_char ">" s = false /\
   has_char (ascii_of_N 34) s = false /\ has_char "'" s = false <->
   html_escape s = s).
Proof.
  split; [apply html_escape_no_markup|]. split.
  - intros (H1 & H2 & H3 & H4 & H5). unfold html_escape. cbv zeta.
    by rewrite (replace_char_absent "&" _ s H1), (replace_char_absent "<" _ s H2),
      (replace_char_absent ">" _ s H3), (replace_char_absent _ _ s H4),
      (replace_char_absent "'" _ s H5).
  - intros Hsame.
    destruct (html_escape_no_markup s) as (H2 & H3 & H4 & H5).
    rewrite Hsame in H2, H3, H4, H5. split; [|done].
    destruct (has_char "&" s) eqn:Hamp; [|done]. exfalso.
    revert Hsame. unfold html_escape. cbv zeta.
    assert (String.length s < String.length (replace_char "&" "&amp;" s))%nat as M0
      by (apply replace_char_grows; [simpl; lia | done]).
    set (s1 := replace_char "&" "&amp;" s) in *.
    assert (String.length s1 <= String.length (replace_char "<" "&lt;" s1))%nat as M1
      by (apply replace_char_length; simpl; lia).
    set (s2 := replace_char "<" "&lt;" s1) in *.
    assert (String.length s2 <= String.length (replace_char ">" "&gt;" s2))%nat as M2
      by (apply replace_char_length; simpl; lia).
    set (s3 := replace_char ">" "&gt;" s2) in *.
    assert (String.length s3 <=
            String.length (replace_char (ascii_of_N 34) "&quot;" s3))%nat as M3
      by (apply replace_char_length; simpl; lia).
    set (s4 := replace_char (ascii_of_N 34) "&quot;" s3) in *.
    assert (String.length s4 <= String.length (replace_char "'" "&#x27;" s4))%nat as M4
      by (apply replace_char_length; simpl; lia).
    intros Hsame. rewrite Hsame in M4. lia.
Qed.

(** X14: the reply of [process_ai_query].  For a text query it is typed
    by the classifier of [main.py] and carries confidence 0.90, 0.85 or
    0.75 for technical, billing and general; for a query that is no
    [str] the classifier raises and the handler replies: general, 0.5.
    In both cases the confidence is within the bounds that
    [QueryResponse] checks, the reply escalates exactly when its type is
    general, and its text never holds [<], [>] or a double quote,
    whatever the customer id. *)
Theorem process_ai_query_reply (query : value) (customer_id : string) :
  let reply := process_ai_query query customer_id in
  match query with
  | Str text =>
      let intent := SimpleOrchestrator._classify_intent text in
      agent_type reply = intent /\
      confidence reply =
        (if String.eqb intent "technical" then 90 # 100
         else if String.eqb intent "billing" then 85 # 100 else 75 # 100)
  | NotStr => reply = error_reply
  end /\
  agent_type error_reply = "general"%string /\
  confidence error_reply = 5 # 10 /\
  (0 <= confidence reply <= 1)%Q /\
  (escalate reply = true <-> agent_type reply = "general"%string) /\
  has_char "<" (response reply) = false /\
  has_char ">" (response reply) = false /\
  has_char (ascii_of_N 34) (response reply) = false.
Proof.
  cbv zeta. unfold process_ai_query, process_ai_query_body.
  destruct query as [text|]; simpl classify; cbv iota; [|by repeat split].
  cbv zeta.
  destruct (html_escape_no_markup customer_id) as (H1 & H2 & H3 & _).
  destruct (simple_classify_intent_range text) as [H | [H | H]]; cbv zeta in H;
    rewrite H; simpl; change (ascii_of_N 34) with (ascii_of_pos 34) in *;
    rewrite ?has_char_append, ?H1, ?H2, ?H3;
    repeat split; try done; try (intros; discriminate).
Qed.

End MainFacts.

Section ConnectionFacts.
Import ConnectionManager WebsocketEndpoint.

Lemma list_remove_absent (x : WebSocket) (l : list WebSocket) :
  ~ In x l -> list_remove x l = None.
Proof.
  induction l as [|y l IH]; simpl; [done|]. intros Hout.
  destruct (Nat.eqb_spec y x) as [-> | Hne]; [destruct Hout; by left|].
  rewrite IH; [done|]. intros Hin. apply Hout. by right.
Qed.

Lemma list_remove_snoc (x : WebSocket) (l : list WebSocket) :
  ~ In x l -> list_remove x (l ++ [x]) = Some l.
Proof.
  induction l as [|y l IH]; simpl; intros Hout.
  - by rewrite Nat.eqb_refl.
  - destruct (Nat.eqb_spec y x) as [-> | Hne]; [destruct Hout; by left|].
    rewrite IH; [done|]. intros Hin. apply Hout. by right.
Qed.

Lemma list_remove_in (x y : WebSocket) (l r : list WebSocket) :
  list_remove x l = Some r -> y <> x -> In y l -> In y r.
Proof.
  revert r. induction l as [|z l IH]; simpl; intros r; [done|].
  destruct (Nat.eqb_spec z x) as [-> | Hne].
  - intros [= <-] Hy [-> | Hin]; [done | exact Hin].
  - destruct (list_remove x l) as [r'|]; [|done].
    intros [= <-] Hy [-> | Hin]; [by left | right; by apply (IH r')].
Qed.

Lemma list_remove_sub (x y : WebSocket) (l r : list WebSocket) :
  list_remove x l = Some r -> In y r -> In y l.
Proof.
  revert r. induction l as [|z l IH]; simpl; intros r; [done|].
  destruct (Nat.eqb_spec z x) as [-> | Hne].
  - intros [= <-] Hin. by right.
  - destruct (list_remove x l) as [r'|]; [|done].
    intros [= <-] [-> | Hin]; [by left | right; by apply (IH r')].
Qed.

Lemma list_remove_NoDup (x : WebSocket) (l r : list WebSocket) :
  list_remove x l = Some r -> NoDup l -> NoDup r.
Proof.
  revert r. induction l as [|z l IH]; simpl; intros r; [done|].
  destruct (Nat.eqb_spec z x) as [-> | Hne].
  - intros [= <-] Hnd. by apply NoDup_cons in Hnd as [Hx Hnd].
  - destruct (list_remove x l) as [r'|] eqn:Hr; [|done].
    intros [= <-] Hnd. apply NoDup_cons in Hnd as [Hz Hnd].
    apply NoDup_cons. split; [|by apply IH].
    rewrite list_elem_of_In in *.
    intros Hin. apply Hz. exact (list_remove_sub _ _ _ _ Hr Hin).
Qed.

(** X15: [disconnect] undoes [connect] for a socket and a session id that
    the manager did not know, and on such a pair [disconnect] alone
    changes nothing. *)
Theorem connect_disconnect_round_trip
    (self : t) (websocket : WebSocket) (session_id : string) :
  ~ In websocket (active_connections self) ->
  user_sessions self !! session_id = None ->
  disconnect (connect self websocket session_id) websocket session_id = self /\
  disconnect self websocket session_id = self.
Proof.
  intros Hws Hsid. destruct self as [conns sessions]. simpl in *.
  unfold disconnect, connect. simpl. split.
  - rewrite (list_remove_snoc websocket conns Hws), lookup_insert_eq.
    by rewrite delete_insert_id.
  - by rewrite (list_remove_absent websocket conns Hws), Hsid.
Qed.

Lemma connect_disconnect_round_trip_witness :
  disconnect (connect __init__ 7%nat "s1") 7%nat "s1" = __init__.
Proof.
  refine (proj1 (connect_disconnect_round_trip __init__ 7%nat "s1" _ _)).
  - simpl. tauto.
  - reflexivity.
Defined.

(** X16: a session id has one socket only.  When a second socket connects
    under a session id that is in use, messages for the session go to the
    second socket; when the run of the first socket then disconnects, the
    second socket stays in [active_connections] but the session id is
    forgotten, so that [send_personal_message] sends nothing any more. *)
Theorem reconnect_then_disconnect
    (self : t) (first second : WebSocket) (session_id message : string) :
  first <> second ->
  let both := connect (connect self first session_id) second session_id in
  let after := disconnect both first session_id in
  send_personal_message both message session_id = Some (second, message) /\
  In second (active_connections after) /\
  send_personal_message after message session_id = None.
Proof.
  intros Hne. cbv zeta. unfold send_personal_message, disconnect, connect. simpl.
  rewrite lookup_insert_eq. split; [done|]. split.
  - assert (In first ((active_connections self ++ [first]) ++ [second])) as Hin
      by (rewrite !in_app_iff; simpl; tauto).
    destruct (list_remove first ((active_connections self ++ [first]) ++ [second]))
      as [r|] eqn:Hr.
    + eapply list_remove_in; [exact Hr | by apply not_eq_sym |].
      rewrite !in_app_iff. simpl. tauto.
    + rewrite !in_app_iff. simpl. tauto.
  - by rewrite lookup_delete_eq.
Qed.

Lemma reconnect_then_disconnect_witness :
  send_personal_message
    (disconnect (connect (connect __init__ 1%nat "s") 2%nat "s") 1%nat "s")
    "hello" "s" = None.
Proof.
  refine (proj2 (proj2 (reconnect_then_disconnect __init__ 1%nat 2%nat "s" "hello" _))).
  lia.
Defined.

Lemma run_snoc_event (self : t) (es : list event) (e : event) :
  WebsocketEndpoint.run self (es ++ [e]) = step (WebsocketEndpoint.run self es) e.
Proof. unfold WebsocketEndpoint.run. by rewrite fold_left_app. Qed.

Lemma endpoint_trace_sockets (es : list event) :
  endpoint_trace es ->
  forall ws sid sid', In (Connect ws sid) es -> In (Connect ws sid') es -> sid = sid'.
Proof.
  induction 1 as [| es ws0 sid0 Htr IH Hfresh | es ws0 sid0 Htr IH Hin];
    intros ws sid sid'; [done | |].
  - rewrite !in_app_iff. simpl.
    intros [H1 | [H1 | []]] [H2 | [H2 | []]]; simplify_eq; eauto.
    + by destruct (Hfresh _ H1).
    + by destruct (Hfresh _ H2).
  - rewrite !in_app_iff. simpl.
    intros [H1 | [H1 | []]] [H2 | [H2 | []]]; simplify_eq; eauto.
Qed.

(** X17: over the event sequences that runs of [websocket_endpoint]
    produce on a new manager, no socket is listed twice in
    [active_connections], and the socket that [send_personal_message]
    picks for a session id is one that connected under this session id
    and is still listed: no text goes to a socket whose run has
    disconnected. *)
Theorem sessions_name_live_sockets (es : list event) :
  endpoint_trace es ->
  let self := WebsocketEndpoint.run __init__ es in
  NoDup (active_connections self) /\
  (forall ws, In ws (active_connections self) -> exists sid, In (Connect ws sid) es) /\
  (forall sid message ws text,
     send_personal_message self message sid = Some (ws, text) ->
     text = message /\ In ws (active_connections self) /\ In (Connect ws sid) es).
Proof.
  intros Htr. cbv zeta.
  assert (NoDup (active_connections (WebsocketEndpoint.run __init__ es)) /\
          (forall ws, In ws (active_connections (WebsocketEndpoint.run __init__ es)) ->
             exists sid, In (Connect ws sid) es) /\
          (forall sid ws,
             user_sessions (WebsocketEndpoint.run __init__ es) !! sid = Some ws ->
             In ws (active_connections (WebsocketEndpoint.run __init__ es)) /\
             In (Connect ws sid) es)) as (Hnd & Hconn & Hsess).
  { pose proof (endpoint_trace_sockets es Htr) as Huniq.
    induction Htr as [| es ws0 sid0 Htr IH Hfresh | es ws0 sid0 Htr IH Hin].
    - simpl. split; [constructor|]. split; [done|]. intros sid ws H.
      by rewrite lookup_empty in H.
    - destruct (IH (endpoint_trace_sockets es Htr)) as (Hnd & Hconn & Hsess).
      rewrite run_snoc_event. simpl. split; [|split].
      + apply NoDup_app. split; [done|]. split; [|apply NoDup_singleton].
        intros x Hx [= ->]%list_elem_of_singleton.
        apply list_elem_of_In in Hx. destruct (Hconn _ Hx) as [sid Hsid].
        by destruct (Hfresh _ Hsid).
      + intros ws. rewrite !in_app_iff. simpl. intros [H | [H | H]]; [| |done].
        * destruct (Hconn ws H) as [sid Hsid]. exists sid.
          rewrite in_app_iff. by left.
        * subst ws. exists sid0. rewrite in_app_iff. right. by left.
      + intros sid ws. rewrite !in_app_iff. simpl.
        destruct (decide (sid0 = sid)) as [<- | Hne].
        * rewrite lookup_insert_eq. intros [= <-]. split; right; by left.
        * rewrite lookup_insert_ne by done. intros H.
          destruct (Hsess sid ws H). split; by left.
    - destruct (IH (endpoint_trace_sockets es Htr)) as (Hnd & Hconn & Hsess).
      rewrite run_snoc_event. simpl. unfold disconnect.
      set (self := WebsocketEndpoint.run __init__ es) in *. simpl.
      assert (forall sid ws,
                match user_sessions self !! sid0 with
                | Some _ => delete sid0 (user_sessions self)
                | None => user_sessions self
                end !! sid = Some ws ->
                sid <> sid0 /\ user_sessions self !! sid = Some ws) as Hdel.
      { intros sid ws. destruct (user_sessions self !! sid0) eqn:E.
        - destruct (decide (sid0 = sid)) as [<- | Hne].
          + by rewrite lookup_delete_eq.
          + rewrite lookup_delete_ne by done. intros H. by split.
        - intros H. split; [|done]. intros ->. congruence. }
      assert (forall sid ws, user_sessions self !! sid = Some ws -> sid <> sid0 ->
                ws <> ws0) as Hother.
      { intros sid ws H Hne ->. destruct (Hsess sid ws0 H) as [_ Hc].
        apply Hne. apply (Huniq ws0); rewrite in_app_iff; by left. }
      destruct (list_remove ws0 (active_connections self)) as [r|] eqn:Hr.
      + split; [by eapply list_remove_NoDup|]. split.
        * intros ws Hws. destruct (Hconn ws (list_remove_sub _ _ _ _ Hr Hws)) as [sid Hc].
          exists sid. rewrite in_app_iff. by left.
        * intros sid ws H. destruct (Hdel sid ws H) as [Hne Hs].
          destruct (Hsess sid ws Hs) as [Hl Hc]. split.
          -- eapply list_remove_in; eauto.
          -- rewrite in_app_iff. by left.
      + split; [done|]. split.
        * intros ws Hws. destruct (Hconn ws Hws) as [sid Hc].
          exists sid. rewrite in_app_iff. by left.
        * intros sid ws H. destruct (Hdel sid ws H) as [Hne Hs].
          destruct (Hsess sid ws Hs) as [Hl Hc]. split; [done|].
          rewrite in_app_iff. by left. }
  split; [done|]. split; [done|].
  intros sid message ws text. unfold send_personal_message.
  destruct (user_sessions (WebsocketEndpoint.run __init__ es) !! sid) as [ws'|] eqn:E;
    [|done].
  intros [= <- <-]. split; [done|]. by apply Hsess.
Qed.

Lemma sessions_name_live_sockets_witness :
  NoDup (active_connections
           (WebsocketEndpoint.run __init__
              [Connect 1%nat "a"; Connect 2%nat "a"; Disconnect 1%nat "a"])).
Proof.
  refine (proj1 (sessions_name_live_sockets
    [Connect 1%nat "a"; Connect 2%nat "a"; Disconnect 1%nat "a"] _)).
  apply (trace_disconnect [Connect 1%nat "a"; Connect 2%nat "a"] 1%nat "a").
  - apply (trace_connect [Connect 1%nat "a"] 2%nat "a").
    + apply (trace_connect [] 1%nat "a"); [constructor | by intros e []].
    + intros e [<- | []]. simpl. lia.
  - by left.
Defined.

End ConnectionFacts.

(** ** The two pipelines side by side *)

Section Pipelines.
Import PyStr.
Variable norm : list Q -> Q.

(** X18: [process_query] of [orchestrator.py] and [process_ai_query] of
    [main.py] on one query whose lower-cased text has none of the eleven
    entries that only the first classifier knows: both replies carry the
    same agent type, and they report the same confidence exactly for the
    general replies, because the two files give 0.85 and 0.90 to
    technical and billing the other way round. *)
Theorem pipelines_compared
    (self : CustomerServiceOrchestrator.t)
    (query customer_id session_id priority : string) :
  any_in orchestrator_only (lower query) = false ->
  let full := ProcessQuery.process_query norm self query customer_id session_id priority in
  let simple := Main.process_ai_query (Main.Str query) customer_id in
  ProcessQuery.rp_agent_type full = agent_type simple /\
  ((ProcessQuery.rp_confidence full == confidence simple)%Q <->
   agent_type simple = "general"%string).
Proof.
  intros Hex. cbv zeta.
  unfold ProcessQuery.process_query, ProcessQuery.process_query_body,
    Main.process_ai_query, Main.process_ai_query_body. unfold_py. cbv zeta. simpl.
  assert (SimpleOrchestrator._classify_intent query =
          CustomerServiceOrchestrator._classify_intent query) as ->.
  { unfold SimpleOrchestrator._classify_intent,
      CustomerServiceOrchestrator._classify_intent. cbv zeta.
    by rewrite (technical_score_agrees _ Hex), (billing_score_agrees _ Hex). }
  destruct (classify_intent_range query) as [H | [H | H]]; cbv zeta in H;
    rewrite H; simpl; (split; [done|]); split; try done; try discriminate.
Qed.

End Pipelines.

Lemma pipelines_compared_witness :
  ProcessQuery.rp_agent_type
    (ProcessQuery.process_query (fun _ => 1%Q)
       {| CustomerServiceOrchestrator.embedding_model := None;
          CustomerServiceOrchestrator.knowledge_base := [] |}
       "I was billed twice" "c1" "s1" "medium") =
  agent_type (Main.process_ai_query (Main.Str "I was billed twice") "c1").
Proof.
  refine (proj1 (pipelines_compared (fun _ => 1%Q) _ _ "c1" "s1" "medium" _)).
  vm_compute. reflexivity.
Defined.
